(** * Reader for TwinCAT Scope View SVB files: model of [svbfile.py]

    The development follows the source file top-down: the header helper
    [_readheader], the [Channel] class with its [Time] property and
    [interpolate] method, and the [SVBFile] container.  Byte strings are
    [list byte], Python integers are [Z], numpy float64 values are
    primitive binary64 floats, and the mapped data file lives in a heap
    of byte buffers so that views and copies can be told apart. *)

From stdpp Require Import gmap strings list.
From Stdlib Require Import ZArith Lia Floats.PrimFloat Floats.SpecFloat
  Floats.FloatOps Strings.Byte Strings.Ascii.

Open Scope Z_scope.

(** ** Python exceptions and results *)

Inductive exn :=
| struct_error          (* struct.unpack on a buffer of the wrong size *)
| UnicodeDecodeError    (* bytes.decode('utf-8') on malformed input *)
| OverflowError         (* datetime arithmetic out of range *)
| IOError (msg : string)
| AssertionError
| KeyError
| ValueError
| IndexError.

Inductive result (A : Type) :=
| Ok (a : A)
| Raise (e : exn).
Arguments Ok {A} a.
Arguments Raise {A} e.

(** ** The header stream: [io.BytesIO]

    A read never fails; it returns at most the bytes that are left and
    advances the cursor by what it returned.  The cursor survives an
    exception raised later on, which is why computations over the
    stream return the stream next to the result. *)

Record BytesIO := { getvalue : list byte; position : nat }.

Definition io (A : Type) : Type := BytesIO -> result A * BytesIO.

Definition io_ret {A} (a : A) : io A := fun f => (Ok a, f).
Definition io_raise {A} (e : exn) : io A := fun f => (Raise e, f).
Definition io_bind {A B} (c : io A) (k : A -> io B) : io B :=
  fun f => match c f with
           | (Ok a, f') => k a f'
           | (Raise e, f') => (Raise e, f')
           end.
Definition io_lift {A} (r : result A) : io A := fun f => (r, f).

Notation "x <- c ;; k" := (io_bind c (fun x => k))
  (at level 100, c at next level, right associativity).

Definition read (n : nat) : io (list byte) :=
  fun f =>
    let b := take n (drop (position f) (getvalue f)) in
    (Ok b, {| getvalue := getvalue f; position := (position f + length b)%nat |}).

Definition tell (f : BytesIO) : nat := position f.

(** ** [struct.unpack] with the ['<'] prefix *)

Definition le_uint (bs : list byte) : Z :=
  foldr (fun b acc => Z.of_N (Byte.to_N b) + 256 * acc) 0 bs.

Definition le_sint (bs : list byte) : Z :=
  let u := le_uint bs in
  let w := 8 * Z.of_nat (length bs) in
  if u <? 2 ^ (w - 1) then u else u - 2 ^ w.

(** The integer [z] as the nearest binary64 value (exact below 2^53). *)
Definition float_of_Z (z : Z) : float :=
  SF2Prim (binary_normalize prec emax z 0 false).

(** An IEEE 754 bit pattern with [ew] exponent bits and [mw] fraction
    bits, as a binary64 value (both binary32 and binary64 patterns are
    representable exactly). *)
Definition float_of_bits (ew mw : Z) (u : Z) : float :=
  let s := Z.testbit u (ew + mw) in
  let e := (u / 2 ^ mw) mod 2 ^ ew in
  let m := u mod 2 ^ mw in
  let bias := 2 ^ (ew - 1) - 1 in
  if e =? 2 ^ ew - 1 then
    if m =? 0 then (if s then neg_infinity else infinity) else nan
  else if e =? 0 then
    match m with
    | Zpos p => SF2Prim (S754_finite s p (1 - bias - mw))
    | _ => SF2Prim (S754_zero s)
    end
  else
    match (m + 2 ^ mw)%Z with
    | Zpos p => SF2Prim (S754_finite s p (e - bias - mw))
    | _ => nan
    end.

(** What a decoded header field can be. *)
Inductive value :=
| VInt (z : Z)
| VBool (b : bool)
| VFloat (x : float)
| VStr (s : string)
| VDatetime (us : Z).

(** [struct.calcsize('<' + f)] for the integer, boolean and float codes.
    The two formats of this file only use [Q], [L], [?] and [d]; the
    codes for padding, characters, byte strings and half floats are not
    needed and are treated like the codes that [struct] rejects under
    ['<'] ([None] stands for [struct.error]). *)
Definition calcsize (f : ascii) : option nat :=
  match f with
  | ("b" | "B" | "?")%char => Some 1
  | ("h" | "H")%char => Some 2
  | ("i" | "I" | "l" | "L" | "f")%char => Some 4
  | ("q" | "Q" | "d")%char => Some 8
  | _ => None
  end%nat.

(** [struct.unpack('<' + f, b)[0]]: the buffer must have exactly the
    size of the format. *)
Definition unpack (f : ascii) (b : list byte) : result value :=
  match calcsize f with
  | None => Raise struct_error
  | Some n =>
      if negb (length b =? n)%nat then Raise struct_error
      else
        Ok match f with
           | ("B" | "H" | "I" | "L" | "Q")%char => VInt (le_uint b)
           | ("b" | "h" | "i" | "l" | "q")%char => VInt (le_sint b)
           | "?"%char => VBool (negb (le_uint b =? 0))
           | "f"%char => VFloat (float_of_bits 8 23 (le_uint b))
           | _ => VFloat (float_of_bits 11 52 (le_uint b))
           end
  end.

Definition unpack_int (f : ascii) (b : list byte) : result Z :=
  match unpack f b with
  | Ok (VInt z) => Ok z
  | Ok _ => Raise struct_error
  | Raise e => Raise e
  end.

(** ** [bytes.decode('utf-8')]

    The strict decoder: shortest forms only, no surrogates, nothing
    above U+10FFFF.  A decoded [str] is kept as its (valid) UTF-8 bytes,
    which determine it. *)

Definition byte_in (lo hi : N) (b : byte) : bool :=
  ((lo <=? Byte.to_N b) && (Byte.to_N b <=? hi))%N.

Definition cont (b : byte) : bool := byte_in 128 191 b.

Fixpoint utf8_valid (bs : list byte) : bool :=
  match bs with
  | [] => true
  | b0 :: r0 =>
      if byte_in 0 127 b0 then utf8_valid r0
      else
        match r0 with
        | [] => false
        | b1 :: r1 =>
            if byte_in 194 223 b0 then cont b1 && utf8_valid r1
            else
              match r1 with
              | [] => false
              | b2 :: r2 =>
                  if byte_in 224 224 b0 then
                    byte_in 160 191 b1 && cont b2 && utf8_valid r2
                  else if byte_in 237 237 b0 then
                    byte_in 128 159 b1 && cont b2 && utf8_valid r2
                  else if byte_in 225 239 b0 then
                    cont b1 && cont b2 && utf8_valid r2
                  else
                    match r2 with
                    | [] => false
                    | b3 :: r3 =>
                        if byte_in 240 240 b0 then
                          byte_in 144 191 b1 && cont b2 && cont b3 && utf8_valid r3
                        else if byte_in 241 243 b0 then
                          cont b1 && cont b2 && cont b3 && utf8_valid r3
                        else if byte_in 244 244 b0 then
                          byte_in 128 143 b1 && cont b2 && cont b3 && utf8_valid r3
                        else false
                    end
              end
        end
  end.

Definition decode_utf8 (bs : list byte) : result string :=
  if utf8_valid bs then Ok (String.string_of_list_byte bs) else Raise UnicodeDecodeError.

(** ** [datetime]

    A [datetime] is the number of microseconds since 0001-01-01 00:00:00
    in the proleptic Gregorian calendar; the last representable instant
    is 9999-12-31 23:59:59.999999. *)

Definition days_before_year (y : Z) : Z :=
  let p := y - 1 in p * 365 + p / 4 - p / 100 + p / 400.

Definition us_per_day : Z := 86400 * 1000000.

(** [datetime.datetime(y, 1, 1)] *)
Definition datetime_jan1 (y : Z) : Z := days_before_year y * us_per_day.

Definition datetime_max : Z := datetime_jan1 10000 - 1.

(** Round the rational [n / d] ([d > 0]) to the nearest integer, ties
    to the even one. *)
Definition round_half_even (n d : Z) : Z :=
  let q := n / d in
  match 2 * (n mod d) ?= d with
  | Lt => q
  | Gt => q + 1
  | Eq => if Z.even q then q else q + 1
  end.

(** A binary64 value [mant * 2 ^ expo] produced by a correctly rounded
    operation. *)
Record dyadic := { mant : Z; expo : Z }.

(** Python's [a / b] on integers [a >= 0], [b > 0]: the binary64 value
    nearest to the exact quotient, ties to even (53 significant bits;
    the quotients that occur here are far inside the normal range). *)
Definition int_true_divide (a b : Z) : dyadic :=
  if a =? 0 then {| mant := 0; expo := 0 |}
  else
    let s := Z.log2 b + 1 in
    let k := Z.log2 (a * 2 ^ s / b) - s in   (* floor (log2 (a / b)) *)
    let e := k - 52 in
    {| mant := if e <? 0 then round_half_even (a * 2 ^ (- e)) b
               else round_half_even a (b * 2 ^ e);
       expo := e |}.

(** [datetime.timedelta(microseconds = x)] for a float [x >= 0]: the
    whole number of microseconds nearest to [x], ties to even; the day
    count of a timedelta is limited to 999999999. *)
Definition timedelta_microseconds (x : dyadic) : result Z :=
  let us := if expo x <? 0 then round_half_even (mant x) (2 ^ (- expo x))
            else mant x * 2 ^ expo x in
  if us / us_per_day <=? 999999999 then Ok us else Raise OverflowError.

(** [d + td] *)
Definition datetime_add (d td : Z) : result Z :=
  let r := d + td in
  if (0 <=? r) && (r <=? datetime_max) then Ok r else Raise OverflowError.

(** [datetime.datetime(1601, 1, 1) +
    datetime.timedelta(microseconds = timeval/10)] *)
Definition datetime_of_ticks (timeval : Z) : result Z :=
  match timedelta_microseconds (int_true_divide timeval 10) with
  | Ok td => datetime_add (datetime_jan1 1601) td
  | Raise e => Raise e
  end.

(** ** [_readheader] *)

Definition read_field (f : ascii) : io value :=
  match f with
  | "*"%char =>
      b <- read 4 ;;
      strlen <- io_lift (unpack_int "L" b) ;;
      s <- read (Z.to_nat strlen) ;;
      str <- io_lift (decode_utf8 s) ;;
      io_ret (VStr str)
  | "T"%char =>
      b <- read 8 ;;
      timeval <- io_lift (unpack_int "Q" b) ;;
      d <- io_lift (datetime_of_ticks timeval) ;;
      io_ret (VDatetime d)
  | _ =>
      match calcsize f with
      | None => io_raise struct_error
      | Some fieldlength =>
          b <- read fieldlength ;;
          io_lift (unpack f b)
      end
  end.

Fixpoint _readheader (format : string) : io (list value) :=
  match format with
  | EmptyString => io_ret []
  | String f rest =>
      v <- read_field f ;;
      fields <- _readheader rest ;;
      io_ret (v :: fields)
  end.

(** ** numpy arrays over a heap of byte buffers

    A buffer is the memory behind one or more arrays; an [ndarray] is a
    strided window on a buffer.  Slicing and field access give windows on
    the same buffer, [np.array] gives a new buffer. *)

Inductive np_dtype :=
| float64 | float32
| uint64 | uint32 | uint16 | uint8
| int64 | int32 | int16 | int8
| bool_.

Definition itemsize (d : np_dtype) : nat :=
  match d with
  | float64 | uint64 | int64 => 8
  | float32 | uint32 | int32 => 4
  | uint16 | int16 => 2
  | uint8 | int8 | bool_ => 1
  end%nat.

Definition loc := nat.

Record ndarray := {
  base : loc;          (* the buffer the array looks into *)
  offset : nat;        (* byte offset of element 0 *)
  stride : nat;        (* bytes from one element to the next *)
  shape : nat;         (* number of elements *)
  dtype : np_dtype;
  writeable : bool
}.

(** Bytes of element [i]. *)
Definition item (h : gmap loc (list byte)) (a : ndarray) (i : nat) : option (list byte) :=
  buf ← h !! base a;
  let p := (offset a + i * stride a)%nat in
  if decide (i < shape a ∧ p + itemsize (dtype a) ≤ length buf)%nat
  then Some (take (itemsize (dtype a)) (drop p buf))
  else None.

(** All elements, in order. *)
Definition items (h : gmap loc (list byte)) (a : ndarray) : option (list (list byte)) :=
  mapM (item h a) (seq 0 (shape a)).

(** [a[i] = v] for an element given by its [itemsize] bytes: read-only
    arrays refuse, indices count from the end when negative. *)
Definition setitem (h : gmap loc (list byte)) (a : ndarray) (i : Z) (v : list byte)
  : result (gmap loc (list byte)) :=
  if negb (writeable a) then Raise ValueError
  else if negb (length v =? itemsize (dtype a))%nat then Raise ValueError
  else
    let n := Z.of_nat (shape a) in
    let j := if i <? 0 then i + n else i in
    if (j <? 0) || (n <=? j) then Raise IndexError
    else
      match h !! base a with
      | None => Raise ValueError
      | Some buf =>
          let p := (offset a + Z.to_nat j * stride a)%nat in
          Ok (<[base a := take p buf ++ v ++ drop (p + length v) buf]> h)
      end.

(** [np.array(a)]: a C-contiguous copy in a buffer of its own. *)
Definition np_array (h : gmap loc (list byte)) (a : ndarray)
  : result (gmap loc (list byte) * ndarray) :=
  match items h a with
  | None => Raise ValueError
  | Some els =>
      let l := fresh (dom h) in
      Ok (<[l := concat els]> h,
          {| base := l; offset := 0; stride := itemsize (dtype a);
             shape := shape a; dtype := dtype a; writeable := true |})
  end.

(** [mmap.ALLOCATIONGRANULARITY]: the page size of the platform (4096
    on Linux). *)
Definition ALLOCATIONGRANULARITY : nat := 4096.

(** The structured array [np.memmap(file, [('Timestamp', np.uint32),
    ('Values', vt)], 'r', offset, (n,))]: [n] packed records of a uint32
    and a [vt]. *)
Record memmap := {
  mm_base : loc;
  mm_offset : nat;
  mm_shape : nat;
  mm_values : np_dtype
}.

Definition recordsize (vt : np_dtype) : nat := (4 + itemsize vt)%nat.

(** Mapping fails when the records do not fit in the file, and when an
    empty mapping is asked for at a page boundary at or past the end of
    the file.  The buffer put on the heap is the file itself, so that
    array offsets are file offsets.  The failure is a [ValueError] as
    long as the records end below 2^63; beyond that numpy's and mmap's
    machine integers overflow, which is not modelled. *)
Definition np_memmap (file : list byte) (vt : np_dtype) (off n : Z)
    (h : gmap loc (list byte)) : result (gmap loc (list byte) * memmap) :=
  let flen := Z.of_nat (length file) in
  let bytes := off + n * Z.of_nat (recordsize vt) in
  let start := off - off mod Z.of_nat ALLOCATIONGRANULARITY in
  if (if bytes - start =? 0 then flen <=? start else flen <? bytes)
  then Raise ValueError
  else
    let l := fresh (dom h) in
    Ok (<[l := file]> h,
        {| mm_base := l; mm_offset := Z.to_nat off; mm_shape := Z.to_nat n;
           mm_values := vt |}).

(** [Data['Timestamp']] and [Data['Values']]: views, not copies; the
    mapping is read-only and so are they. *)
Definition field_Timestamp (d : memmap) : ndarray :=
  {| base := mm_base d; offset := mm_offset d;
     stride := recordsize (mm_values d); shape := mm_shape d;
     dtype := uint32; writeable := false |}.

Definition field_Values (d : memmap) : ndarray :=
  {| base := mm_base d; offset := (mm_offset d + 4)%nat;
     stride := recordsize (mm_values d); shape := mm_shape d;
     dtype := mm_values d; writeable := false |}.

(** ** The time axis

    [np.diff] on a uint32 array subtracts in uint32, so a difference
    wraps modulo 2^32. *)
Fixpoint np_diff_uint32 (t : list Z) : list Z :=
  match t with
  | a :: (b :: _) as r => (b - a) mod 2 ^ 32 :: np_diff_uint32 r
  | _ => []
  end.

(** [np.cumsum(dt, out = o)] with a float64 [o]: the elements are
    converted to float64 and added up in float64. *)
Fixpoint accumulate (acc : float) (l : list float) : list float :=
  match l with
  | [] => []
  | x :: r => let s := (acc + x)%float in s :: accumulate s r
  end.

Definition np_cumsum_float64 (dt : list Z) : list float :=
  match map float_of_Z dt with
  | [] => []
  | x :: r => x :: accumulate x r
  end.

(** The array [result] of [Channel.Time] just before [result /= 1e7]:
    [result[0] = t[0]], and [result[1:]] receives the running sum of
    [dt].  An empty [t] has no [t[0]]. *)
Definition Time_ticks (t : list Z) : result (list float) :=
  let dt := np_diff_uint32 t in
  match t with
  | [] => Raise IndexError
  | t0 :: _ => Ok (float_of_Z t0 :: np_cumsum_float64 dt)
  end.

(** The array after [result /= 1e7]. *)
Definition Time_of (t : list Z) : result (list float) :=
  match Time_ticks t with
  | Ok r => Ok (map (fun x => x / 1e7)%float r)
  | Raise e => Raise e
  end.

(** ** Dictionaries keyed by [str], in insertion order *)

Fixpoint dict_get {V} (d : list (string * V)) (k : string) : option V :=
  match d with
  | [] => None
  | (k', v) :: r => if decide (k' = k) then Some v else dict_get r k
  end.

(** [d[k] = v]: a key that is present keeps its place. *)
Fixpoint dict_set {V} (d : list (string * V)) (k : string) (v : V)
  : list (string * V) :=
  match d with
  | [] => [(k, v)]
  | (k', v') :: r =>
      if decide (k' = k) then (k, v) :: r else (k', v') :: dict_set r k v
  end.

(** ** class Channel *)

Module Channel.

Definition DATATYPES : list (string * np_dtype) :=
  [ ("REAL64", float64);
    ("REAL32", float32);
    ("UINT64", uint64);
    ("UINT32", uint32);
    ("UINT16", uint16);
    ("UINT8", uint8);
    ("INT64", int64);
    ("INT32", int32);
    ("INT16", int16);
    ("INT8", int8);
    ("BIT", bool_);
    ("BIT8", bool_);
    ("BITARR8", int8);
    ("BITARR16", int16);
    ("BITARR32", int32) ]%string.

Record t := {
  _time : option (list float);   (* cache of the Time property *)
  StartTime : Z;
  Name : string;
  NetId : string;
  Port : Z;
  SymbolBased : bool;
  SymbolName : string;
  Comment : string;
  IndexGroup : Z;
  IndexOffset : Z;
  DataType : string;
  DataTypeId : Z;
  VariableSize : Z;
  SamplesInFile : Z;
  DataInFile : Z;
  FileStartPosition : Z;
  Offset : float;
  Scalefactor : float;
  Bitmask : Z;
  SampleTime : float;
  Data : memmap;
  Timestamp : ndarray;
  Values : ndarray
}.

(** What [__init__] hands back: the channel or the exception, the header
    stream where it was left, and the heap. *)
Definition __init__ (headerfile : BytesIO) (file : list byte) (starttime : Z)
    (h : gmap loc (list byte))
  : result t * BytesIO * gmap loc (list byte) :=
  let startpos := tell headerfile in
  match _readheader "Q**LQ?**QQ*LLQQQddQ" headerfile with
  | (Raise e, headerfile) => (Raise e, headerfile, h)
  | (Ok [VInt headersize; VStr name; VStr netId; VInt port; VInt sampleTime;
         VBool symbolBased; VStr symbolName; VStr comment; VInt indexGroup;
         VInt indexOffset; VStr dataType; VInt dataTypeId; VInt variableSize;
         VInt samplesInFile; VInt dataInFile; VInt fileStartPosition;
         VFloat offset; VFloat scalefactor; VInt bitmask], headerfile) =>
      (* Check headersize *)
      if negb (Z.of_nat (tell headerfile) - Z.of_nat startpos =? headersize) then
        (Raise (IOError "Error reading file: channel header size mismatch"),
         headerfile, h)
      else
        (* 100e-9 is the binary64 value 0x1.ad7f29abcaf48p-24 *)
        let sampleTime_s := (float_of_Z sampleTime * 0x1.ad7f29abcaf48p-24)%float in
        if negb (dataInFile =? (variableSize + 4) * samplesInFile) then
          (Raise AssertionError, headerfile, h)
        else
          match dict_get DATATYPES dataType with
          | None => (Raise KeyError, headerfile, h)
          | Some vt =>
              match np_memmap file vt fileStartPosition samplesInFile h with
              | Raise e => (Raise e, headerfile, h)
              | Ok (h', data) =>
                  (Ok {| _time := None; StartTime := starttime;
                         Name := name; NetId := netId; Port := port;
                         SymbolBased := symbolBased; SymbolName := symbolName;
                         Comment := comment; IndexGroup := indexGroup;
                         IndexOffset := indexOffset; DataType := dataType;
                         DataTypeId := dataTypeId; VariableSize := variableSize;
                         SamplesInFile := samplesInFile; DataInFile := dataInFile;
                         FileStartPosition := fileStartPosition;
                         Offset := offset; Scalefactor := scalefactor;
                         Bitmask := bitmask; SampleTime := sampleTime_s;
                         Data := data; Timestamp := field_Timestamp data;
                         Values := field_Values data |},
                   headerfile, h')
              end
          end
  | (Ok _, headerfile) =>
      (* the format yields these nineteen values of these types *)
      (Raise ValueError, headerfile, h)
  end.

Definition set_time (self : t) (r : list float) : t :=
  {| _time := Some r; StartTime := StartTime self;
     Name := Name self; NetId := NetId self; Port := Port self;
     SymbolBased := SymbolBased self; SymbolName := SymbolName self;
     Comment := Comment self; IndexGroup := IndexGroup self;
     IndexOffset := IndexOffset self; DataType := DataType self;
     DataTypeId := DataTypeId self; VariableSize := VariableSize self;
     SamplesInFile := SamplesInFile self; DataInFile := DataInFile self;
     FileStartPosition := FileStartPosition self;
     Offset := Offset self; Scalefactor := Scalefactor self;
     Bitmask := Bitmask self; SampleTime := SampleTime self;
     Data := Data self; Timestamp := Timestamp self;
     Values := Values self |}.

(** The raw uint32 timestamps, read through the [Timestamp] view (the
    host is little-endian, as the file is). *)
Definition raw_timestamps (h : gmap loc (list byte)) (self : t) : option (list Z) :=
  fmap (map le_uint) (items h (Timestamp self)).

(** The [Time] property: computed on first use, then served from
    [_time]. *)
Definition Time (h : gmap loc (list byte)) (self : t) : result (list float) * t :=
  match _time self with
  | Some r => (Ok r, self)
  | None =>
      match raw_timestamps h self with
      | None => (Raise ValueError, self)
      | Some ts =>
          match Time_of ts with
          | Ok r => (Ok r, set_time self r)
          | Raise e => (Raise e, self)
          end
      end
  end.

(** [np.all(t == tm)] on one-dimensional float64 arrays: equal lengths
    compare element by element, a single element is broadcast, other
    lengths do not compare equal. *)
Definition np_all_eq (t tm : list float) : bool :=
  if (length t =? length tm)%nat then
    forallb (fun p => (fst p =? snd p)%float) (zip t tm)
  else
    match t, tm with
    | [x], _ => forallb (fun y => (x =? y)%float) tm
    | _, [y] => forallb (fun x => (x =? y)%float) t
    | _, _ => false
    end.

Section interpolate.

(** [np.interp(x, xp, fp)], numpy's piecewise-linear interpolation: it
    receives the sample points, the time axis and the values array
    (element type and element bytes) and gives the bytes of a new
    float64 array. *)
Variable np_interp :
  list float -> list float -> np_dtype -> list (list byte) -> result (list byte).

Definition interpolate (self : t) (tq : list float) (h : gmap loc (list byte))
  : result ndarray * t * gmap loc (list byte) :=
  match Time h self with
  | (Raise e, self) => (Raise e, self, h)
  | (Ok tm, self) =>
      if np_all_eq tq tm then
        (* Short-cut if time axis is the same *)
        match np_array h (Values self) with
        | Ok (h', r) => (Ok r, self, h')
        | Raise e => (Raise e, self, h)
        end
      else
        match items h (Values self) with
        | None => (Raise ValueError, self, h)
        | Some fp =>
            match np_interp tq tm (dtype (Values self)) fp with
            | Raise e => (Raise e, self, h)
            | Ok bs =>
                let l := fresh (dom h) in
                (Ok {| base := l; offset := 0; stride := 8;
                       shape := length tq; dtype := float64;
                       writeable := true |},
                 self, <[l := bs]> h)
            end
        end
  end.

End interpolate.

End Channel.

(** ** class SVBFile *)

Module SVBFile.

Record t := {
  _channels : list (string * Channel.t);
  Name : string;
  StartTime : Z;
  EndTime : Z;
  ChannelCount : Z
}.

(** The loop [for i in range(ChannelCount)]. *)
Fixpoint read_channels (count : nat) (header : BytesIO) (file : list byte)
    (starttime : Z) (channels : list (string * Channel.t))
    (h : gmap loc (list byte))
  : result (list (string * Channel.t)) * BytesIO * gmap loc (list byte) :=
  match count with
  | O => (Ok channels, header, h)
  | S count' =>
      match Channel.__init__ header file starttime h with
      | (Raise e, header, h) => (Raise e, header, h)
      | (Ok ch, header, h) =>
          read_channels count' header file starttime
            (dict_set channels (Channel.Name ch) ch) h
      end
  end.

(** [file] is the content of the file that [open(filename, 'rb')]
    gives.  [file.read(n)] on a buffered reader takes everything that
    is left for [n = -1] and refuses other negative sizes; sizes that
    it cannot allocate (from about 2^63 on) are not modelled. *)
Definition __init__ (file : list byte) (h : gmap loc (list byte))
  : result t * gmap loc (list byte) :=
  match unpack_int "Q" (take 8 file) with
  | Raise e => (Raise e, h)
  | Ok headerSize =>
      let n := headerSize - 8 in
      if n <? -1 then (Raise ValueError, h)
      else
        let rest := drop 8 file in
        let header :=
          {| getvalue := if n =? -1 then rest else take (Z.to_nat n) rest;
             position := 0 |} in
        match _readheader "*TTL" header with
        | (Raise e, _) => (Raise e, h)
        | (Ok [VStr name; VDatetime startTime; VDatetime endTime;
               VInt channelCount], header) =>
            (* Channel Header *)
            match read_channels (Z.to_nat channelCount) header file startTime [] h with
            | (Raise e, _, h) => (Raise e, h)
            | (Ok channels, header, h) =>
                (* Check all header bytes processed *)
                match read 1 header with
                | (Ok (_ :: _), _) =>
                    (Raise (IOError "Error reading file: file header size mismatch"), h)
                | _ =>
                    (Ok {| _channels := channels; Name := name;
                           StartTime := startTime; EndTime := endTime;
                           ChannelCount := channelCount |}, h)
                end
            end
        | (Ok _, _) => (Raise ValueError, h)
        end
  end.

(** Mapping protocol *)
Definition __getitem__ (self : t) (key : string) : result Channel.t :=
  match dict_get (_channels self) key with
  | Some ch => Ok ch
  | None => Raise KeyError
  end.

Definition __iter__ (self : t) : list string := map fst (_channels self).

Definition __len__ (self : t) : nat := length (_channels self).

End SVBFile.

(** ** The time axis as the docstring of [Time] describes it

    "the timestamp in seconds, undoing any wrapping that may occur":
    the first raw timestamp, then each element the previous one plus
    the wrapped difference, all divided by 1e7. *)

Fixpoint running_sum (prev : float) (dt : list Z) : list float :=
  match dt with
  | [] => []
  | d :: r => let x := (prev + float_of_Z d)%float in x :: running_sum x r
  end.

Definition unwrapped_ticks (raw : list Z) : result (list float) :=
  match raw with
  | [] => Raise IndexError
  | r0 :: _ =>
      Ok (float_of_Z r0 :: running_sum (float_of_Z r0) (np_diff_uint32 raw))
  end.

Definition unwrapped_Time (raw : list Z) : result (list float) :=
  match unwrapped_ticks raw with
  | Ok r => Ok (map (fun x => x / 1e7)%float r)
  | Raise e => Raise e
  end.

(** [Time[i] <= Time[i+1]] for every valid [i]. *)
Fixpoint nondecreasing (l : list float) : bool :=
  match l with
  | x :: (y :: _) as r => (x <=? y)%float && nondecreasing r
  | _ => true
  end.

(** ** Sample files

    Encoders for building header records and a small file with one
    UINT8 channel of two samples, used to run the decoder. *)

Fixpoint pack_uint (n : nat) (z : Z) : list byte :=
  match n with
  | O => []
  | S n' =>
      default x00 (Byte.of_N (Z.to_N (z mod 256))) :: pack_uint n' (z / 256)
  end.

Definition pack_str (s : string) : list byte :=
  pack_uint 4 (Z.of_nat (String.length s)) ++ String.list_byte_of_string s.

(** A channel record without its leading size field. *)
Definition pack_channel_body (name dataType : string)
    (port dataTypeId variableSize samplesInFile dataInFile fileStartPosition
       offset_bits scalefactor_bits : Z) : list byte :=
  pack_str name ++ pack_str "" ++ pack_uint 4 port ++ pack_uint 8 10000
  ++ [x01] ++ pack_str "" ++ pack_str "" ++ pack_uint 8 16448
  ++ pack_uint 8 0 ++ pack_str dataType ++ pack_uint 4 dataTypeId
  ++ pack_uint 4 variableSize ++ pack_uint 8 samplesInFile
  ++ pack_uint 8 dataInFile ++ pack_uint 8 fileStartPosition
  ++ pack_uint 8 offset_bits ++ pack_uint 8 scalefactor_bits
  ++ pack_uint 8 (2 ^ 64 - 1).

(** The record with a size field that is [slack] more than its size. *)
Definition pack_channel (slack : Z) (body : list byte) : list byte :=
  pack_uint 8 (8 + Z.of_nat (length body) + slack) ++ body.

(** binary64 bit patterns of 0.5 and 2.0 *)
Definition bits_0_5 : Z := 0x3FE0000000000000.
Definition bits_2_0 : Z := 0x4000000000000000.

(** One UINT8 channel "a" with two samples at file offset [pos], whose
    declared data size is [dataInFile]. *)
Definition sample_record (dataInFile pos : Z) : list byte :=
  pack_channel 0
    (pack_channel_body "a" "UINT8" 851 17 1 2 dataInFile pos bits_0_5 bits_2_0).

(** File header fields after the size: name "f", start and end time 0
    ticks and 15 ticks, one channel. *)
Definition sample_file_header : list byte :=
  pack_str "f" ++ pack_uint 8 0 ++ pack_uint 8 15 ++ pack_uint 4 1.

(** Raw timestamps 4294967290 and 4 (the counter wrapped between the two
    samples) with values 7 and 9. *)
Definition sample_data : list byte :=
  pack_uint 4 4294967290 ++ [x07] ++ pack_uint 4 4 ++ [x09].

Definition sample_file : list byte :=
  let hlen := (8 + length sample_file_header + length (sample_record 10 0))%nat in
  pack_uint 8 (Z.of_nat hlen) ++ sample_file_header
  ++ sample_record 10 (Z.of_nat hlen) ++ sample_data.

Definition BytesIO_of (b : list byte) : BytesIO :=
  {| getvalue := b; position := 0 |}.

(** ** Vocabulary of the statements *)

(** The next [n] bytes of the stream, and the stream [n] bytes on. *)
Definition chunk (f : BytesIO) (n : nat) : list byte :=
  take n (drop (position f) (getvalue f)).

Definition advance (f : BytesIO) (n : nat) : BytesIO :=
  {| getvalue := getvalue f; position := (position f + n)%nat |}.

Definition header_size_error : exn :=
  IOError "Error reading file: channel header size mismatch".

(** [z] is what the four bytes of [buf] at [p] say as a little-endian
    unsigned integer (uint32), and likewise for eight bytes (uint64). *)
Definition decoded_uint32 (buf : list byte) (p : nat) (z : Z) : Prop :=
  length (take 4 (drop p buf)) = 4%nat /\ z = le_uint (take 4 (drop p buf)).

Definition decoded_uint64 (buf : list byte) (p : nat) (z : Z) : Prop :=
  length (take 8 (drop p buf)) = 8%nat /\ z = le_uint (take 8 (drop p buf)).

(** [x] is the binary64 value in the eight bytes of [buf] at [p]. *)
Definition decoded_float64 (buf : list byte) (p : nat) (x : float) : Prop :=
  length (take 8 (drop p buf)) = 8%nat /\
  x = float_of_bits 11 52 (le_uint (take 8 (drop p buf))).

(** ** Vocabulary of the further properties *)

(** The cursor [f'] is the cursor [f] after some reading: same bytes,
    not moved back, and not moved past the end unless it was there. *)
Definition read_on (f f' : BytesIO) : Prop :=
  getvalue f' = getvalue f /\
  (position f <= position f')%nat /\
  (position f' <= position f `max` length (getvalue f))%nat.

(** A computation that only moves the cursor by reading. *)
Definition reads_on {A} (c : io A) : Prop := forall f, read_on f (c f).2.

(** Differences of consecutive elements, without wrapping. *)
Fixpoint diffs (t : list Z) : list Z :=
  match t with
  | a :: (b :: _) as r => b - a :: diffs r
  | _ => []
  end.

(** The number of bytes the record of a channel takes in the header:
    113 bytes of fixed-width fields and length prefixes, and the bytes
    of its five strings. *)
Definition record_bytes (ch : Channel.t) : nat :=
  (113 + String.length (Channel.Name ch) + String.length (Channel.NetId ch)
   + String.length (Channel.SymbolName ch) + String.length (Channel.Comment ch)
   + String.length (Channel.DataType ch))%nat.

(** The channel [ch] looks into a mapping of [file] that is on the heap
    [h], and its records lie inside the file. *)
Definition mapped (file : list byte) (h : gmap loc (list byte)) (ch : Channel.t) : Prop :=
  Channel.Timestamp ch = field_Timestamp (Channel.Data ch) /\
  Channel.Values ch = field_Values (Channel.Data ch) /\
  h !! mm_base (Channel.Data ch) = Some file /\
  mm_shape (Channel.Data ch) = Z.to_nat (Channel.SamplesInFile ch) /\
  (mm_offset (Channel.Data ch)
   + mm_shape (Channel.Data ch) * recordsize (mm_values (Channel.Data ch))
   <= length file)%nat.

(** The keys of a dictionary that receives the keys [names] one after
    the other: a new key goes to the end, a known key stays where it
    is. *)
Definition first_seen (keys names : list string) : list string :=
  foldl (fun ks k => if decide (k ∈ ks) then ks else ks ++ [k]) keys names.

(** The dictionary after the assignments [d[Name ch] = ch] for the
    channels [chs] in order. *)
Definition assign_all (d : list (string * Channel.t)) (chs : list Channel.t)
  : list (string * Channel.t) :=
  foldl (fun d ch => dict_set d (Channel.Name ch) ch) d chs.

(** A record like [sample_record] with one sample only. *)
Definition single_sample_record (pos : Z) : list byte :=
  pack_channel 0
    (pack_channel_body "a" "UINT8" 851 17 1 1 5 pos bits_0_5 bits_2_0).

(** A record like [sample_record] without samples. *)
Definition empty_record (pos : Z) : list byte :=
  pack_channel 0
    (pack_channel_body "a" "UINT8" 851 17 1 0 0 pos bits_0_5 bits_2_0).

(** A record like [sample_record] for a channel called [name] with the
    data-type tag [tag]. *)
Definition named_record (name tag : string) (pos : Z) : list byte :=
  pack_channel 0
    (pack_channel_body name tag 851 17 1 2 10 pos bits_0_5 bits_2_0).

(** A file with the given channel records, all on the data of
    [sample_data], which follows the header. *)
Definition file_of_records (records : Z -> list (list byte)) : list byte :=
  let hlen := (8 + length sample_file_header
               + length (concat (records 0%Z)))%nat in
  pack_uint 8 (Z.of_nat hlen)
  ++ pack_str "f" ++ pack_uint 8 0 ++ pack_uint 8 15
  ++ pack_uint 4 (Z.of_nat (length (records 0)))
  ++ concat (records (Z.of_nat hlen)) ++ sample_data.

(** A file with three channel records, named "a", "b" and again "a". *)
Definition dup_file : list byte :=
  file_of_records
    (fun pos => [named_record "a" "UINT8" pos; named_record "b" "UINT8" pos;
                 named_record "a" "BIT" pos]).

(** ** Written files

    [packed_field c v bs]: the bytes [bs] are what a writer puts down
    for a field of code [c] that holds [v]; [packed format vs bs] is the
    same for the fields of a format, one after the other. *)
Inductive packed_field : ascii -> value -> list byte -> Prop :=
| packed_Q z :
    0 <= z < 2 ^ 64 -> packed_field "Q" (VInt z) (pack_uint 8 z)
| packed_L z :
    0 <= z < 2 ^ 32 -> packed_field "L" (VInt z) (pack_uint 4 z)
| packed_bool z :
    0 <= z < 256 -> packed_field "?" (VBool (negb (z =? 0))) (pack_uint 1 z)
| packed_d bits :
    0 <= bits < 2 ^ 64 ->
    packed_field "d" (VFloat (float_of_bits 11 52 bits)) (pack_uint 8 bits)
| packed_str s :
    Z.of_nat (String.length s) < 2 ^ 32 ->
    utf8_valid (String.list_byte_of_string s) = true ->
    packed_field "*" (VStr s) (pack_str s)
| packed_T ticks d :
    0 <= ticks < 2 ^ 64 -> datetime_of_ticks ticks = Ok d ->
    packed_field "T" (VDatetime d) (pack_uint 8 ticks).

Inductive packed : string -> list value -> list byte -> Prop :=
| packed_nil : packed "" [] []
| packed_cons c v bs format vs rest :
    packed_field c v bs -> packed format vs rest ->
    packed (String c format) (v :: vs) (bs ++ rest).

(** The nineteen header values of a channel, with the size field and
    the sample time in ticks, which the channel does not keep. *)
Definition header_values (ch : Channel.t) (size sampleTime : Z) : list value :=
  [ VInt size; VStr (Channel.Name ch); VStr (Channel.NetId ch);
    VInt (Channel.Port ch); VInt sampleTime; VBool (Channel.SymbolBased ch);
    VStr (Channel.SymbolName ch); VStr (Channel.Comment ch);
    VInt (Channel.IndexGroup ch); VInt (Channel.IndexOffset ch);
    VStr (Channel.DataType ch); VInt (Channel.DataTypeId ch);
    VInt (Channel.VariableSize ch); VInt (Channel.SamplesInFile ch);
    VInt (Channel.DataInFile ch); VInt (Channel.FileStartPosition ch);
    VFloat (Channel.Offset ch); VFloat (Channel.Scalefactor ch);
    VInt (Channel.Bitmask ch) ].

(** [bs] is the header record of the channel [ch]: its fields packed,
    the size field being the length of the record, and the data size
    what the samples take. *)
Definition record_of (ch : Channel.t) (bs : list byte) : Prop :=
  exists sampleTime,
    packed "Q**LQ?**QQ*LLQQQddQ"
      (header_values ch (Z.of_nat (length bs)) sampleTime) bs /\
    Channel.SampleTime ch = (float_of_Z sampleTime * 0x1.ad7f29abcaf48p-24)%float /\
    Channel.DataInFile ch
    = (Channel.VariableSize ch + 4) * Channel.SamplesInFile ch.

(** [ch] is a channel as [__init__] leaves it: nothing cached, its
    arrays the fields of a mapping at [l] of the records that its header
    fields announce, which lie inside [file]. *)
Definition built (file : list byte) (starttime : Z) (l : loc)
    (ch : Channel.t) : Prop :=
  Channel._time ch = None /\ Channel.StartTime ch = starttime /\
  Channel.Timestamp ch = field_Timestamp (Channel.Data ch) /\
  Channel.Values ch = field_Values (Channel.Data ch) /\
  ~ (Channel.SamplesInFile ch = 0 /\
     Channel.FileStartPosition ch mod Z.of_nat ALLOCATIONGRANULARITY = 0 /\
     Z.of_nat (length file) <= Channel.FileStartPosition ch) /\
  exists vt,
    dict_get Channel.DATATYPES (Channel.DataType ch) = Some vt /\
    Channel.Data ch
    = {| mm_base := l; mm_offset := Z.to_nat (Channel.FileStartPosition ch);
         mm_shape := Z.to_nat (Channel.SamplesInFile ch); mm_values := vt |} /\
    Channel.FileStartPosition ch
    + Channel.SamplesInFile ch * Z.of_nat (recordsize vt)
    <= Z.of_nat (length file).

(** The channels of a file, each at the location that is fresh when it
    is built. *)
Fixpoint built_all (file : list byte) (starttime : Z)
    (h : gmap loc (list byte)) (chs : list Channel.t) : Prop :=
  match chs with
  | [] => True
  | ch :: chs =>
      built file starttime (fresh (dom h)) ch /\
      built_all file starttime (<[fresh (dom h) := file]> h) chs
  end.

(** The heap after [n] mappings of [file]. *)
Fixpoint mapped_times (n : nat) (file : list byte)
    (h : gmap loc (list byte)) : gmap loc (list byte) :=
  match n with
  | O => h
  | S n => mapped_times n file (<[fresh (dom h) := file]> h)
  end.

(** The channel that [named_record name tag pos] describes, built at
    [l] with the values of type [vt]. *)
Definition named_channel (name tag : string) (vt : np_dtype) (pos : Z)
    (starttime : Z) (l : loc) : Channel.t :=
  let data := {| mm_base := l; mm_offset := Z.to_nat pos; mm_shape := 2;
                 mm_values := vt |} in
  {| Channel._time := None; Channel.StartTime := starttime;
     Channel.Name := name; Channel.NetId := ""; Channel.Port := 851;
     Channel.SymbolBased := true; Channel.SymbolName := "";
     Channel.Comment := ""; Channel.IndexGroup := 16448;
     Channel.IndexOffset := 0; Channel.DataType := tag;
     Channel.DataTypeId := 17; Channel.VariableSize := 1;
     Channel.SamplesInFile := 2; Channel.DataInFile := 10;
     Channel.FileStartPosition := pos;
     Channel.Offset := float_of_bits 11 52 bits_0_5;
     Channel.Scalefactor := float_of_bits 11 52 bits_2_0;
     Channel.Bitmask := 2 ^ 64 - 1;
     Channel.SampleTime := (float_of_Z 10000 * 0x1.ad7f29abcaf48p-24)%float;
     Channel.Data := data; Channel.Timestamp := field_Timestamp data;
     Channel.Values := field_Values data |}.

(** ** What an opened file was decoded from

    The bytes that [__init__] reads the headers from: what the file has
    of the [headerSize - 8] bytes after the size field. *)
Definition header_region (file : list byte) : list byte :=
  let n := le_uint (take 8 file) - 8 in
  if n =? -1 then drop 8 file else take (Z.to_nat n) (drop 8 file).

(** The channels [chs] are what [Channel.__init__] builds from the
    records that follow each other in [header] from position [p] on,
    each on the heap that the one before has left. *)
Fixpoint records_at (header file : list byte) (starttime : Z) (p : nat)
    (h : gmap loc (list byte)) (chs : list Channel.t) : Prop :=
  match chs with
  | [] => True
  | ch :: chs =>
      Channel.__init__ {| getvalue := header; position := p |} file starttime h
      = (Ok ch, {| getvalue := header; position := p + record_bytes ch |},
         <[fresh (dom h) := file]> h) /\
      records_at header file starttime (p + record_bytes ch)
        (<[fresh (dom h) := file]> h) chs
  end.

(** The fields of [svb] are the file header at the start of the header
    region, and [decoded] are the [ChannelCount] channels of the records
    that follow it, in file order. *)
Definition decoded_header (file : list byte) (h : gmap loc (list byte))
    (svb : SVBFile.t) (decoded : list Channel.t) : Prop :=
  _readheader "*TTL" (BytesIO_of (header_region file))
  = (Ok [VStr (SVBFile.Name svb); VDatetime (SVBFile.StartTime svb);
         VDatetime (SVBFile.EndTime svb); VInt (SVBFile.ChannelCount svb)],
     {| getvalue := header_region file;
        position := 24 + String.length (SVBFile.Name svb) |}) /\
  length decoded = Z.to_nat (SVBFile.ChannelCount svb) /\
  records_at (header_region file) file (SVBFile.StartTime svb)
    (24 + String.length (SVBFile.Name svb)) h decoded.

(** * Properties *)

(** ** Reading from the header stream *)

Lemma position_advance f n : position (advance f n) = (position f + n)%nat.
Proof. done. Qed.

Lemma getvalue_advance f n : getvalue (advance f n) = getvalue f.
Proof. done. Qed.

Lemma read_full f n :
  length (chunk f n) = n -> read n f = (Ok (chunk f n), advance f n).
Proof. intros H. unfold read, advance. fold (chunk f n). by rewrite H. Qed.

Lemma chunk_full_bound f n :
  length (chunk f n) = n -> (n = 0 \/ position f + n <= length (getvalue f))%nat.
Proof.
  unfold chunk. rewrite length_take, length_drop. lia.
Qed.

Lemma length_string_of_list_byte bs :
  String.length (String.string_of_list_byte bs) = length bs.
Proof.
  unfold String.string_of_list_byte.
  induction bs as [|b bs IH]; simpl; [done | by rewrite IH].
Qed.

Lemma readheader_nil f vs f' :
  _readheader "" f = (Ok vs, f') -> vs = [] /\ f' = f.
Proof. cbn. unfold io_ret. intros [= <- <-]. done. Qed.

Lemma readheader_cons c rest f vs f' :
  _readheader (String c rest) f = (Ok vs, f') ->
  exists v f1 vs',
    read_field c f = (Ok v, f1) /\ _readheader rest f1 = (Ok vs', f') /\
    vs = v :: vs'.
Proof.
  change (_readheader (String c rest) f)
    with ((v <- read_field c ;; fields <- _readheader rest ;;
           io_ret (v :: fields)) f).
  unfold io_bind, io_ret.
  destruct (read_field c f) as [[v|e] f1]; [|discriminate].
  destruct (_readheader rest f1) as [[vs'|e] f2] eqn:E; [|discriminate].
  intros [= <- <-]. by eexists _, _, _.
Qed.

(** A fixed-width field takes exactly its width from the stream. *)
Lemma read_fixed_inv c n f v f1 :
  read_field c f =
    (b <- read n ;; io_lift (unpack c b)) f ->
  calcsize c = Some n ->
  read_field c f = (Ok v, f1) ->
  length (chunk f n) = n /\ unpack c (chunk f n) = Ok v /\ f1 = advance f n.
Proof.
  intros -> Hsz. unfold io_bind, io_lift, read. fold (chunk f n).
  intros [= Hu <-].
  assert (length (chunk f n) = n) as Hlen.
  { unfold unpack in Hu. rewrite Hsz in Hu.
    destruct (length (chunk f n) =? n)%nat eqn:E; [|discriminate].
    by apply Nat.eqb_eq. }
  rewrite Hlen. done.
Qed.

Lemma read_Q_inv f v f1 :
  read_field "Q" f = (Ok v, f1) ->
  length (chunk f 8) = 8%nat /\ v = VInt (le_uint (chunk f 8)) /\ f1 = advance f 8.
Proof.
  intros H. apply (read_fixed_inv _ 8) in H as (Hl & Hu & ->); [|done..].
  unfold unpack in Hu. cbn in Hu. rewrite Hl in Hu. cbn in Hu.
  by injection Hu as <-.
Qed.

Lemma read_L_inv f v f1 :
  read_field "L" f = (Ok v, f1) ->
  length (chunk f 4) = 4%nat /\ v = VInt (le_uint (chunk f 4)) /\ f1 = advance f 4.
Proof.
  intros H. apply (read_fixed_inv _ 4) in H as (Hl & Hu & ->); [|done..].
  unfold unpack in Hu. cbn in Hu. rewrite Hl in Hu. cbn in Hu.
  by injection Hu as <-.
Qed.

Lemma read_bool_inv f v f1 :
  read_field "?" f = (Ok v, f1) ->
  length (chunk f 1) = 1%nat /\ v = VBool (negb (le_uint (chunk f 1) =? 0)) /\
  f1 = advance f 1.
Proof.
  intros H. apply (read_fixed_inv _ 1) in H as (Hl & Hu & ->); [|done..].
  unfold unpack in Hu. cbn in Hu. rewrite Hl in Hu. cbn in Hu.
  by injection Hu as <-.
Qed.

Lemma read_d_inv f v f1 :
  read_field "d" f = (Ok v, f1) ->
  length (chunk f 8) = 8%nat /\
  v = VFloat (float_of_bits 11 52 (le_uint (chunk f 8))) /\ f1 = advance f 8.
Proof.
  intros H. apply (read_fixed_inv _ 8) in H as (Hl & Hu & ->); [|done..].
  unfold unpack in Hu. cbn in Hu. rewrite Hl in Hu. cbn in Hu.
  by injection Hu as <-.
Qed.

Lemma take_length_take {A} (l : list A) n : take (length (take n l)) l = take n l.
Proof.
  rewrite length_take. destruct (Nat.le_ge_cases n (length l)).
  - by rewrite Nat.min_l.
  - rewrite Nat.min_r by done. by rewrite !take_ge by lia.
Qed.

(** A string field takes its four length bytes and then the bytes of
    the string (fewer than announced when the stream ends early). *)
Lemma read_str_inv f v f1 :
  read_field "*" f = (Ok v, f1) ->
  exists s,
    v = VStr s /\ length (chunk f 4) = 4%nat /\
    String.list_byte_of_string s = chunk (advance f 4) (String.length s) /\
    f1 = advance (advance f 4) (String.length s).
Proof.
  cbn [read_field]. unfold io_bind, io_lift, io_ret, read at 1.
  fold (chunk f 4). unfold unpack_int, unpack. cbn [calcsize].
  destruct (length (chunk f 4) =? 4)%nat eqn:E; cbn; [|discriminate].
  apply Nat.eqb_eq in E. rewrite E. fold (advance f 4).
  set (n := Z.to_nat (le_uint (chunk f 4))).
  unfold read. fold (chunk (advance f 4) n).
  unfold decode_utf8. destruct (utf8_valid _); [|discriminate].
  intros [= <- <-]. eexists. split; [done|]. split; [done|].
  rewrite length_string_of_list_byte, String.list_byte_of_string_of_list_byte.
  unfold chunk, advance. cbn [position getvalue].
  rewrite take_length_take. done.
Qed.

(** A timestamp field takes eight bytes. *)
Lemma read_T_inv f v f1 :
  read_field "T" f = (Ok v, f1) ->
  exists d,
    v = VDatetime d /\ length (chunk f 8) = 8%nat /\
    datetime_of_ticks (le_uint (chunk f 8)) = Ok d /\ f1 = advance f 8.
Proof.
  cbn [read_field]. unfold io_bind, io_lift, io_ret, read.
  fold (chunk f 8). unfold unpack_int, unpack. cbn [calcsize].
  destruct (length (chunk f 8) =? 8)%nat eqn:E; cbn; [|discriminate].
  apply Nat.eqb_eq in E. rewrite E. fold (advance f 8).
  destruct (datetime_of_ticks _) as [d|e] eqn:Ed; [|discriminate].
  intros [= <- <-]. by exists d.
Qed.

Ltac read_step H :=
  let R := fresh "R" in
  apply readheader_cons in H as (? & ? & ? & R & H & ->);
  first
    [ apply read_Q_inv in R as (? & -> & ->)
    | apply read_L_inv in R as (? & -> & ->)
    | apply read_bool_inv in R as (? & -> & ->)
    | apply read_d_inv in R as (? & -> & ->)
    | apply read_str_inv in R as (? & -> & ? & ? & ->)
    | apply read_T_inv in R as (? & -> & ? & ? & ->) ].

(** ** Layout of a channel record

    A successful [_readheader] with the channel format has read the
    nineteen fields at these places, all of them inside the stream. *)
Lemma channel_header_inv f fields f' :
  _readheader "Q**LQ?**QQ*LLQQQddQ" f = (Ok fields, f') ->
  exists name netId symbolName comment dataType : string,
    let f1 := advance f 8 in
    let f2 := advance (advance f1 4) (String.length name) in
    let f3 := advance (advance f2 4) (String.length netId) in
    let f4 := advance f3 4 in
    let f5 := advance f4 8 in
    let f6 := advance f5 1 in
    let f7 := advance (advance f6 4) (String.length symbolName) in
    let f8 := advance (advance f7 4) (String.length comment) in
    let f9 := advance f8 8 in
    let f10 := advance f9 8 in
    let f11 := advance (advance f10 4) (String.length dataType) in
    let f12 := advance f11 4 in
    let f13 := advance f12 4 in
    let f14 := advance f13 8 in
    let f15 := advance f14 8 in
    let f16 := advance f15 8 in
    let f17 := advance f16 8 in
    let f18 := advance f17 8 in
    fields =
      [ VInt (le_uint (chunk f 8)); VStr name; VStr netId;
        VInt (le_uint (chunk f3 4)); VInt (le_uint (chunk f4 8));
        VBool (negb (le_uint (chunk f5 1) =? 0)); VStr symbolName;
        VStr comment; VInt (le_uint (chunk f8 8));
        VInt (le_uint (chunk f9 8)); VStr dataType;
        VInt (le_uint (chunk f11 4)); VInt (le_uint (chunk f12 4));
        VInt (le_uint (chunk f13 8)); VInt (le_uint (chunk f14 8));
        VInt (le_uint (chunk f15 8));
        VFloat (float_of_bits 11 52 (le_uint (chunk f16 8)));
        VFloat (float_of_bits 11 52 (le_uint (chunk f17 8)));
        VInt (le_uint (chunk f18 8)) ]
    /\ f' = advance f18 8
    /\ length (chunk f 8) = 8%nat
    /\ length (chunk f3 4) = 4%nat
    /\ length (chunk f11 4) = 4%nat
    /\ length (chunk f12 4) = 4%nat
    /\ length (chunk f16 8) = 8%nat
    /\ length (chunk f17 8) = 8%nat
    /\ length (chunk f18 8) = 8%nat.
Proof.
  intros H. do 19 read_step H. apply readheader_nil in H as [-> ->].
  do 5 eexists. cbv zeta. repeat split; done.
Qed.

(** ** [Channel.__init__] once the header is read *)

Lemma init_unfold headerfile file starttime h hf
    headersize name netId port sampleTime symbolBased symbolName comment
    indexGroup indexOffset dataType dataTypeId variableSize samplesInFile
    dataInFile fileStartPosition offset scalefactor bitmask :
  _readheader "Q**LQ?**QQ*LLQQQddQ" headerfile =
    (Ok [VInt headersize; VStr name; VStr netId; VInt port; VInt sampleTime;
         VBool symbolBased; VStr symbolName; VStr comment; VInt indexGroup;
         VInt indexOffset; VStr dataType; VInt dataTypeId; VInt variableSize;
         VInt samplesInFile; VInt dataInFile; VInt fileStartPosition;
         VFloat offset; VFloat scalefactor; VInt bitmask], hf) ->
  Channel.__init__ headerfile file starttime h =
    if negb (Z.of_nat (tell hf) - Z.of_nat (tell headerfile) =? headersize)
    then (Raise header_size_error, hf, h)
    else if negb (dataInFile =? (variableSize + 4) * samplesInFile)
    then (Raise AssertionError, hf, h)
    else
      match dict_get Channel.DATATYPES dataType with
      | None => (Raise KeyError, hf, h)
      | Some vt =>
          match np_memmap file vt fileStartPosition samplesInFile h with
          | Raise e => (Raise e, hf, h)
          | Ok (h', data) =>
              (Ok {| Channel._time := None; Channel.StartTime := starttime;
                     Channel.Name := name; Channel.NetId := netId;
                     Channel.Port := port;
                     Channel.SymbolBased := symbolBased;
                     Channel.SymbolName := symbolName;
                     Channel.Comment := comment;
                     Channel.IndexGroup := indexGroup;
                     Channel.IndexOffset := indexOffset;
                     Channel.DataType := dataType;
                     Channel.DataTypeId := dataTypeId;
                     Channel.VariableSize := variableSize;
                     Channel.SamplesInFile := samplesInFile;
                     Channel.DataInFile := dataInFile;
                     Channel.FileStartPosition := fileStartPosition;
                     Channel.Offset := offset;
                     Channel.Scalefactor := scalefactor;
                     Channel.Bitmask := bitmask;
                     Channel.SampleTime :=
                       (float_of_Z sampleTime * 0x1.ad7f29abcaf48p-24)%float;
                     Channel.Data := data;
                     Channel.Timestamp := field_Timestamp data;
                     Channel.Values := field_Values data |},
               hf, h')
          end
      end.
Proof. intros E. unfold Channel.__init__. rewrite E. reflexivity. Qed.

(** A failed header read is the failure of [__init__]. *)
Lemma init_header_raise headerfile file starttime h e hf :
  _readheader "Q**LQ?**QQ*LLQQQddQ" headerfile = (Raise e, hf) ->
  Channel.__init__ headerfile file starttime h = (Raise e, hf, h).
Proof. intros E. unfold Channel.__init__. rewrite E. reflexivity. Qed.

Lemma Ok_inj {A} (a a' : A) : Ok a = Ok a' -> a = a'.
Proof. intros H. by injection H. Qed.

Lemma triple_eq_inv {A B C} (a a' : A) (b b' : B) (c c' : C) :
  (Ok a, b, c) = (Ok a', b', c') -> a = a' /\ b = b' /\ c = c'.
Proof. intros H. by injection H. Qed.

(** What a successfully built channel says about the header bytes it
    was built from. *)
Lemma init_ok_inv headerfile file starttime h ch hf h' :
  Channel.__init__ headerfile file starttime h = (Ok ch, hf, h') ->
  exists sampleTime vt,
    _readheader "Q**LQ?**QQ*LLQQQddQ" headerfile =
      (Ok [VInt (Z.of_nat (tell hf) - Z.of_nat (tell headerfile));
           VStr (Channel.Name ch); VStr (Channel.NetId ch);
           VInt (Channel.Port ch); VInt sampleTime;
           VBool (Channel.SymbolBased ch); VStr (Channel.SymbolName ch);
           VStr (Channel.Comment ch); VInt (Channel.IndexGroup ch);
           VInt (Channel.IndexOffset ch); VStr (Channel.DataType ch);
           VInt (Channel.DataTypeId ch); VInt (Channel.VariableSize ch);
           VInt (Channel.SamplesInFile ch); VInt (Channel.DataInFile ch);
           VInt (Channel.FileStartPosition ch); VFloat (Channel.Offset ch);
           VFloat (Channel.Scalefactor ch); VInt (Channel.Bitmask ch)], hf)
    /\ Channel.DataInFile ch =
         (Channel.VariableSize ch + 4) * Channel.SamplesInFile ch
    /\ dict_get Channel.DATATYPES (Channel.DataType ch) = Some vt
    /\ np_memmap file vt (Channel.FileStartPosition ch)
         (Channel.SamplesInFile ch) h = Ok (h', Channel.Data ch)
    /\ Channel.Timestamp ch = field_Timestamp (Channel.Data ch)
    /\ Channel.Values ch = field_Values (Channel.Data ch)
    /\ Channel._time ch = None.
Proof.
  intros H.
  destruct (_readheader "Q**LQ?**QQ*LLQQQddQ" headerfile) as [[fields|e] hf0] eqn:E.
  2:{ rewrite (init_header_raise _ _ _ _ _ _ E) in H. discriminate. }
  destruct (channel_header_inv _ _ _ E) as (name & netId & sn & cm & dt & Hinv).
  cbv zeta in Hinv. destruct Hinv as (-> & _).
  rewrite (init_unfold _ _ _ _ _ _ _ _ _ _ _ _ _ _ _ _ _ _ _ _ _ _ _ _ E) in H.
  destruct (_ =? _) eqn:E1 in H; cbn [negb] in H; [|discriminate].
  destruct (_ =? _) eqn:E2 in H; cbn [negb] in H; [|discriminate].
  destruct (dict_get _ _) as [vt|] eqn:E3 in H; [|discriminate].
  destruct (np_memmap _ _ _ _ _) as [[h1 data]|e] eqn:E4 in H; [|discriminate].
  apply triple_eq_inv in H as (<- & <- & <-). cbn.
  apply Z.eqb_eq in E1, E2. rewrite E1.
  eexists _, vt. repeat split; done.
Qed.

(** ** The checks of [Channel.__init__] *)

Lemma lookup_VInt_inv (o : option value) z :
  o = Some (VInt z) -> match o with Some (VInt x) => x | _ => 0 end = z.
Proof. by intros ->. Qed.

(** C4: when the decoded data size field differs from
    (value byte size + 4) * sample count, building the channel fails; a
    channel that was built has the decoded fields as its attributes and
    satisfies DataInFile = (VariableSize + 4) * SamplesInFile. *)
Theorem C4_data_size_checked headerfile file starttime h fields hf vs n dif :
  _readheader "Q**LQ?**QQ*LLQQQddQ" headerfile = (Ok fields, hf) ->
  fields !! 12%nat = Some (VInt vs) ->
  fields !! 13%nat = Some (VInt n) ->
  fields !! 14%nat = Some (VInt dif) ->
  let r := (Channel.__init__ headerfile file starttime h).1.1 in
  (dif <> (vs + 4) * n -> exists e, r = Raise e) /\
  (forall ch, r = Ok ch ->
     Channel.VariableSize ch = vs /\ Channel.SamplesInFile ch = n /\
     Channel.DataInFile ch = dif /\
     Channel.DataInFile ch =
       (Channel.VariableSize ch + 4) * Channel.SamplesInFile ch).
Proof.
  intros E H12 H13 H14 r. subst r.
  destruct (channel_header_inv _ _ _ E) as (name & netId & sn & cm & dt & Hinv).
  cbv zeta in Hinv. destruct Hinv as (-> & _).
  apply lookup_VInt_inv in H12, H13, H14.
  cbv beta iota delta [lookup list_lookup] in H12, H13, H14. subst vs n dif.
  rewrite (init_unfold _ _ _ _ _ _ _ _ _ _ _ _ _ _ _ _ _ _ _ _ _ _ _ _ E).
  destruct (negb (_ - _ =? _)); [split; [by eexists | discriminate]|].
  destruct (_ =? (_ + 4) * _) eqn:E2; cbn [negb];
    [|split; [by eexists | discriminate]].
  apply Z.eqb_eq in E2. split; [done|].
  destruct (dict_get _ _); [|discriminate].
  destruct (np_memmap _ _ _ _ _) as [[h1 data]|e]; [|discriminate].
  cbn. intros ch Hch. apply Ok_inj in Hch as <-. cbn. done.
Qed.

Lemma C4_data_size_checked_witness :
  (exists e,
     (Channel.__init__ (BytesIO_of (sample_record 11 0)) sample_data 0 ∅).1.1
     = Raise e) /\
  (forall ch,
     (Channel.__init__ (BytesIO_of (sample_record 10 0)) sample_data 0 ∅).1.1
     = Ok ch ->
     Channel.DataInFile ch =
       (Channel.VariableSize ch + 4) * Channel.SamplesInFile ch).
Proof.
  split.
  - eapply (C4_data_size_checked (BytesIO_of (sample_record 11 0)) sample_data
              0 ∅ _ _ 1 2 11);
      [vm_compute; reflexivity | reflexivity | reflexivity | reflexivity | lia].
  - intros ch Hch.
    eapply (C4_data_size_checked (BytesIO_of (sample_record 10 0)) sample_data
              0 ∅ _ _ 1 2 10);
      [vm_compute; reflexivity | reflexivity | reflexivity | reflexivity
      | exact Hch].
Defined.

(** C5, as amended: when the record decodes and the number of bytes the
    cursor advanced differs from the declared headersize field, building
    the channel raises the header size error; when the channel is built,
    exactly headersize bytes were consumed.  (Other errors leave the
    byte count out of the picture.) *)
Theorem C5_header_size_checked headerfile file starttime h fields hf hs :
  _readheader "Q**LQ?**QQ*LLQQQddQ" headerfile = (Ok fields, hf) ->
  fields !! 0%nat = Some (VInt hs) ->
  let advanced := Z.of_nat (tell hf) - Z.of_nat (tell headerfile) in
  (advanced <> hs ->
   Channel.__init__ headerfile file starttime h
   = (Raise header_size_error, hf, h)) /\
  (forall ch hf' h',
     Channel.__init__ headerfile file starttime h = (Ok ch, hf', h') ->
     hf' = hf /\ advanced = hs).
Proof.
  intros E H0 advanced. subst advanced.
  destruct (channel_header_inv _ _ _ E) as (name & netId & sn & cm & dt & Hinv).
  cbv zeta in Hinv. destruct Hinv as (-> & _).
  apply lookup_VInt_inv in H0.
  cbv beta iota delta [lookup list_lookup] in H0. subst hs.
  rewrite (init_unfold _ _ _ _ _ _ _ _ _ _ _ _ _ _ _ _ _ _ _ _ _ _ _ _ E).
  destruct (_ - _ =? _) eqn:E1; cbn [negb].
  - apply Z.eqb_eq in E1. split; [done|].
    intros ch hf' h'.
    destruct (negb (_ =? (_ + 4) * _)); [discriminate|].
    destruct (dict_get _ _); [|discriminate].
    destruct (np_memmap _ _ _ _ _) as [[h1 data]|e]; [|discriminate].
    intros H. apply triple_eq_inv in H as (_ & <- & _). done.
  - split; [done | discriminate].
Qed.

Lemma C5_header_size_checked_witness :
  Channel.__init__ (BytesIO_of (pack_channel 1
     (pack_channel_body "a" "UINT8" 851 17 1 2 10 0 bits_0_5 bits_2_0)))
     sample_data 0 ∅
  = (Raise header_size_error,
     advance (BytesIO_of (pack_channel 1
       (pack_channel_body "a" "UINT8" 851 17 1 2 10 0 bits_0_5 bits_2_0))) 119,
     ∅) /\
  (forall ch hf' h',
     Channel.__init__ (BytesIO_of (sample_record 10 0)) sample_data 0 ∅
     = (Ok ch, hf', h') ->
     hf' = advance (BytesIO_of (sample_record 10 0)) 119 /\
     Z.of_nat (tell (advance (BytesIO_of (sample_record 10 0)) 119))
     - Z.of_nat (tell (BytesIO_of (sample_record 10 0))) = 119).
Proof.
  split.
  - eapply (C5_header_size_checked _ sample_data 0 ∅ _ _ 120);
      [vm_compute; reflexivity | reflexivity | vm_compute; discriminate].
  - eapply (C5_header_size_checked _ sample_data 0 ∅ _ _ 119);
      [vm_compute; reflexivity | reflexivity].
Defined.

(** C5, as stated, fails in the direction "error only if the byte count
    differs": a record whose data size field is wrong, and a stream that
    ends after ten bytes, both raise although the cursor advanced by
    exactly the declared headersize. *)
Lemma C5_counterexample :
  (let headerfile := BytesIO_of (sample_record 11 0) in
   exists hf,
     Channel.__init__ headerfile sample_data 0 ∅ = (Raise AssertionError, hf, ∅) /\
     le_uint (chunk headerfile 8) = 119 /\
     Z.of_nat (tell hf) - Z.of_nat (tell headerfile) = 119) /\
  (let headerfile := BytesIO_of (pack_uint 8 10 ++ [x00; x00]) in
   exists hf,
     Channel.__init__ headerfile sample_data 0 ∅ = (Raise struct_error, hf, ∅) /\
     le_uint (chunk headerfile 8) = 10 /\
     Z.of_nat (tell hf) - Z.of_nat (tell headerfile) = 10).
Proof.
  split; cbv zeta; eexists; (split; [vm_compute; reflexivity|]);
    split; vm_compute; reflexivity.
Qed.

(** ** Where the fields of a built channel come from *)

Lemma cons_eq_inv {A} (x y : A) l l' : x :: l = y :: l' -> x = y /\ l = l'.
Proof. intros H. by injection H. Qed.

Lemma VInt_inj a b : VInt a = VInt b -> a = b.
Proof. intros H. by injection H. Qed.

Lemma VStr_inj a b : VStr a = VStr b -> a = b.
Proof. intros H. by injection H. Qed.

Lemma VFloat_inj a b : VFloat a = VFloat b -> a = b.
Proof. intros H. by injection H. Qed.

Lemma VDatetime_inj a b : VDatetime a = VDatetime b -> a = b.
Proof. intros H. by injection H. Qed.

Ltac field_eq Hf H :=
  apply cons_eq_inv in Hf as [H Hf];
  first [ apply VInt_inj in H | apply VStr_inj in H | apply VFloat_inj in H
        | apply VDatetime_inj in H | idtac ].

Lemma init_layout headerfile file starttime h ch hf h' :
  Channel.__init__ headerfile file starttime h = (Ok ch, hf, h') ->
  let buf := getvalue headerfile in
  let p0 := position headerfile in
  let a := (String.length (Channel.Name ch) + String.length (Channel.NetId ch))%nat in
  let b := (String.length (Channel.SymbolName ch)
            + String.length (Channel.Comment ch))%nat in
  let c := String.length (Channel.DataType ch) in
  let u32 p := take 4 (drop p buf) in
  let u64 p := take 8 (drop p buf) in
  getvalue hf = buf /\
  position hf = (p0 + 113 + a + b + c)%nat /\
  (position hf <= length buf)%nat /\
  Z.of_nat (position hf) - Z.of_nat p0 = le_uint (u64 p0) /\
  Channel.Port ch = le_uint (u32 (p0 + 16 + a)%nat) /\
  Channel.DataTypeId ch = le_uint (u32 (p0 + 57 + a + b + c)%nat) /\
  Channel.VariableSize ch = le_uint (u32 (p0 + 61 + a + b + c)%nat) /\
  Channel.Offset ch = float_of_bits 11 52 (le_uint (u64 (p0 + 89 + a + b + c)%nat)) /\
  Channel.Scalefactor ch =
    float_of_bits 11 52 (le_uint (u64 (p0 + 97 + a + b + c)%nat)).
Proof.
  intros H. apply init_ok_inv in H as (st & vt & E & _).
  destruct (channel_header_inv _ _ _ E)
    as (name & netId & sn & cm & dt & Hinv).
  cbv zeta in Hinv.
  destruct Hinv as (Hf & -> & L0 & _ & _ & _ & _ & _ & L18).
  field_eq Hf H0. field_eq Hf H1. field_eq Hf H2. field_eq Hf H3.
  field_eq Hf H4. field_eq Hf H5. field_eq Hf H6. field_eq Hf H7.
  field_eq Hf H8. field_eq Hf H9. field_eq Hf H10. field_eq Hf H11.
  field_eq Hf H12. field_eq Hf H13. field_eq Hf H14. field_eq Hf H15.
  field_eq Hf H16. field_eq Hf H17. clear Hf H4 H5 H8 H9 H13 H14 H15.
  subst name netId sn cm dt.
  apply chunk_full_bound in L18.
  rewrite H3, H11, H12, H16, H17. clear H3 H11 H12 H16 H17.
  unfold chunk, tell in *.
  rewrite ?position_advance, ?getvalue_advance in *.
  split; [done|]. split; [lia|]. split; [lia|]. split; [exact H0|].
  repeat split.
  - do 3 f_equal. lia.
  - do 3 f_equal. lia.
  - do 3 f_equal. lia.
  - do 4 f_equal. lia.
  - do 4 f_equal. lia.
Qed.

(** ** Layout of the file header *)

Lemma file_header_inv f fields f' :
  _readheader "*TTL" f = (Ok fields, f') ->
  exists (name : string) (d1 d2 : Z),
    let f1 := advance (advance f 4) (String.length name) in
    let f2 := advance f1 8 in
    let f3 := advance f2 8 in
    fields = [VStr name; VDatetime d1; VDatetime d2; VInt (le_uint (chunk f3 4))]
    /\ f' = advance f3 4
    /\ length (chunk f3 4) = 4%nat
    /\ datetime_of_ticks (le_uint (chunk f1 8)) = Ok d1
    /\ datetime_of_ticks (le_uint (chunk f2 8)) = Ok d2.
Proof.
  intros H. do 4 read_step H. apply readheader_nil in H as [-> ->].
  do 3 eexists. cbv zeta. repeat split; done.
Qed.

Lemma le_uint_bound b : 0 <= le_uint b < 256 ^ Z.of_nat (length b).
Proof.
  induction b as [|x b IH]; [cbn; lia|].
  cbn [le_uint foldr length]. fold (le_uint b).
  rewrite Nat2Z.inj_succ, Z.pow_succ_r by lia.
  pose proof (Byte.to_N_bounded x) as Hx.
  assert (0 <= Z.of_N (Byte.to_N x) <= 255) by lia. lia.
Qed.

(** A full chunk of a prefix of a list is the same chunk of the list. *)
Lemma take_drop_prefix {A} (l : list A) k q m :
  length (take k (drop q (take m l))) = k ->
  take k (drop q (take m l)) = take k (drop q l).
Proof.
  intros H. destruct (Nat.le_gt_cases q m) as [Hqm|Hqm].
  - replace m with (q + (m - q))%nat in * by lia.
    rewrite <- take_drop_commute in *. rewrite take_take in *.
    rewrite length_take in H.
    destruct (Nat.le_gt_cases k (m - q)); [by rewrite Nat.min_l|].
    exfalso. lia.
  - rewrite length_take, length_drop, length_take in H.
    assert (k = 0%nat) as -> by lia. done.
Qed.

Lemma pair_eq_inv {A B} (a a' : A) (b b' : B) :
  (Ok a, b) = (Ok a', b') -> a = a' /\ b = b'.
Proof. intros H. by injection H. Qed.

(** The channel count of a file that was opened: four bytes after the
    name field and the two timestamps. *)
Lemma svb_init_layout file h svb h1 :
  SVBFile.__init__ file h = (Ok svb, h1) ->
  let p := (28 + String.length (SVBFile.Name svb))%nat in
  length (take 4 (drop p file)) = 4%nat /\
  SVBFile.ChannelCount svb = le_uint (take 4 (drop p file)).
Proof.
  unfold SVBFile.__init__.
  destruct (unpack_int "Q" (take 8 file)) as [headerSize|e]; [|discriminate].
  destruct (headerSize - 8 <? -1); [discriminate|].
  set (hb := if headerSize - 8 =? -1 then drop 8 file
             else take (Z.to_nat (headerSize - 8)) (drop 8 file)).
  assert (exists m, hb = take m (drop 8 file)) as [m Hm].
  { subst hb. destruct (_ =? -1); [|by eexists].
    exists (length (drop 8 file)). by rewrite take_ge. }
  destruct (_readheader "*TTL" _) as [[fields|e] hdr] eqn:E; [|discriminate].
  destruct (file_header_inv _ _ _ E) as (name & d1 & d2 & Hinv).
  cbv zeta in Hinv. destruct Hinv as (-> & -> & L & _ & _).
  cbv beta iota.
  destruct (SVBFile.read_channels _ _ _ _ _ _) as [[[chs|e] hdr'] h2];
    [|discriminate].
  destruct (read 1 hdr') as [[[|x xs]|e] hdr'']; try discriminate;
    intros H; apply pair_eq_inv in H as [<- _]; cbn [SVBFile.Name SVBFile.ChannelCount];
    unfold chunk in *; rewrite ?position_advance, ?getvalue_advance in *;
    cbn [position getvalue] in *; rewrite Hm in *;
    rewrite take_drop_prefix in * by done; rewrite !drop_drop in *;
    (replace (8 + (0 + 4 + String.length name + 8 + 8))%nat
       with (28 + String.length name)%nat in * by lia); done.
Qed.

(** ** Field widths and field order *)

(** C6, as amended: the file-level channel count and the channel fields
    port, data-type id and value byte width are each decoded from four
    bytes as little-endian unsigned integers (uint32), at the places the
    preceding fields leave them. *)
Theorem C6_count_port_typeid_width_are_uint32
    file h svb h1 headerfile datafile starttime h0 ch hf h2 :
  SVBFile.__init__ file h = (Ok svb, h1) ->
  Channel.__init__ headerfile datafile starttime h0 = (Ok ch, hf, h2) ->
  let buf := getvalue headerfile in
  let p0 := position headerfile in
  let a := (String.length (Channel.Name ch) + String.length (Channel.NetId ch))%nat in
  let b := (String.length (Channel.SymbolName ch)
            + String.length (Channel.Comment ch))%nat in
  let c := String.length (Channel.DataType ch) in
  decoded_uint32 file (28 + String.length (SVBFile.Name svb)) (SVBFile.ChannelCount svb) /\
  decoded_uint32 buf (p0 + 16 + a) (Channel.Port ch) /\
  decoded_uint32 buf (p0 + 57 + a + b + c) (Channel.DataTypeId ch) /\
  decoded_uint32 buf (p0 + 61 + a + b + c) (Channel.VariableSize ch) /\
  0 <= SVBFile.ChannelCount svb < 2 ^ 32 /\
  0 <= Channel.Port ch < 2 ^ 32 /\
  0 <= Channel.DataTypeId ch < 2 ^ 32 /\
  0 <= Channel.VariableSize ch < 2 ^ 32.
Proof.
  intros Hsvb Hch buf p0 a b c.
  apply svb_init_layout in Hsvb as [Lc Hc].
  apply init_layout in Hch as (_ & Hpos & Hlen & _ & Hp & Hd & Hv & _).
  fold buf p0 a b c in Hpos, Hlen, Hp, Hd, Hv.
  assert (forall p, (p + 4 <= position hf)%nat -> length (take 4 (drop p buf)) = 4%nat)
    as L.
  { intros p Hle. rewrite length_take, length_drop. lia. }
  assert (forall l, length l = 4%nat -> 0 <= le_uint l < 2 ^ 32) as B.
  { intros l Hl. pose proof (le_uint_bound l) as Hb. rewrite Hl in Hb.
    exact Hb. }
  pose proof (L (p0 + 16 + a)%nat ltac:(lia)) as L1.
  pose proof (L (p0 + 57 + a + b + c)%nat ltac:(lia)) as L2.
  pose proof (L (p0 + 61 + a + b + c)%nat ltac:(lia)) as L3.
  unfold decoded_uint32. rewrite Hc, Hp, Hd, Hv.
  repeat split; try done; by apply B.
Qed.

Lemma C6_count_port_typeid_width_are_uint32_witness :
  exists svb h1 ch hf h2,
    SVBFile.__init__ sample_file ∅ = (Ok svb, h1) /\
    Channel.__init__ (BytesIO_of (sample_record 10 0)) sample_data 0 ∅
    = (Ok ch, hf, h2) /\
    decoded_uint32 sample_file 29 (SVBFile.ChannelCount svb) /\
    decoded_uint32 (sample_record 10 0) 17 (Channel.Port ch) /\
    decoded_uint32 (sample_record 10 0) 63 (Channel.DataTypeId ch) /\
    decoded_uint32 (sample_record 10 0) 67 (Channel.VariableSize ch).
Proof.
  eexists _, _, _, _, _.
  split; [vm_compute; reflexivity|]. split; [vm_compute; reflexivity|].
  destruct (C6_count_port_typeid_width_are_uint32
              sample_file ∅ _ _ (BytesIO_of (sample_record 10 0)) sample_data
              0 ∅ _ _ _ ltac:(vm_compute; reflexivity)
              ltac:(vm_compute; reflexivity))
    as (H1 & H2 & H3 & H4 & _).
  exact (conj H1 (conj H2 (conj H3 H4))).
Defined.

(** C6, as stated, fails: in the sample file the channel count is 1 and
    the port 851, while the eight bytes at their places read as uint64
    give other numbers (the four bytes that follow belong to the next
    field). *)
Lemma C6_counterexample :
  exists svb h1 ch hf h2,
    SVBFile.__init__ sample_file ∅ = (Ok svb, h1) /\
    Channel.__init__ (BytesIO_of (sample_record 10 0)) sample_data 0 ∅
    = (Ok ch, hf, h2) /\
    SVBFile.ChannelCount svb = 1 /\
    ~ decoded_uint64 sample_file 29 (SVBFile.ChannelCount svb) /\
    Channel.Port ch = 851 /\
    ~ decoded_uint64 (sample_record 10 0) 17 (Channel.Port ch) /\
    ~ decoded_uint64 (sample_record 10 0) 63 (Channel.DataTypeId ch) /\
    ~ decoded_uint64 (sample_record 10 0) 67 (Channel.VariableSize ch).
Proof.
  eexists _, _, _, _, _.
  split; [vm_compute; reflexivity|]. split; [vm_compute; reflexivity|].
  repeat split; try reflexivity;
    intros [_ H]; vm_compute in H; discriminate.
Qed.

(** C7: of the two consecutive float64 calibration fields of a channel
    record, the first in the byte stream becomes Offset and the second,
    eight bytes further, becomes Scalefactor; the bitmask follows and
    ends the record. *)
Theorem C7_Offset_read_before_Scalefactor
    headerfile file starttime h ch hf h' :
  Channel.__init__ headerfile file starttime h = (Ok ch, hf, h') ->
  let buf := getvalue headerfile in
  let p := (position hf - 24)%nat in
  (position headerfile <= p)%nat /\
  decoded_float64 buf p (Channel.Offset ch) /\
  decoded_float64 buf (p + 8) (Channel.Scalefactor ch).
Proof.
  intros H buf p.
  apply init_layout in H as (_ & Hpos & Hlen & _ & _ & _ & _ & Ho & Hs).
  fold buf in Hlen, Ho, Hs.
  set (q := (position headerfile + 89
             + (String.length (Channel.Name ch) + String.length (Channel.NetId ch))
             + (String.length (Channel.SymbolName ch)
                + String.length (Channel.Comment ch))
             + String.length (Channel.DataType ch))%nat) in *.
  assert (p = q) as -> by (subst p q; lia).
  replace (position headerfile + 97
           + (String.length (Channel.Name ch) + String.length (Channel.NetId ch))
           + (String.length (Channel.SymbolName ch)
              + String.length (Channel.Comment ch))
           + String.length (Channel.DataType ch))%nat
    with (q + 8)%nat in Hs by (subst q; lia).
  unfold decoded_float64. rewrite length_take, length_drop.
  rewrite length_take, length_drop.
  repeat split; try done; subst q; lia.
Qed.

Lemma C7_Offset_read_before_Scalefactor_witness :
  exists ch hf h',
    Channel.__init__ (BytesIO_of (sample_record 10 0)) sample_data 0 ∅
    = (Ok ch, hf, h') /\
    decoded_float64 (sample_record 10 0) 95 (Channel.Offset ch) /\
    decoded_float64 (sample_record 10 0) 103 (Channel.Scalefactor ch) /\
    Channel.Offset ch = 0.5%float /\ Channel.Scalefactor ch = 2%float.
Proof.
  eexists _, _, _. split; [vm_compute; reflexivity|].
  destruct (C7_Offset_read_before_Scalefactor
              (BytesIO_of (sample_record 10 0)) sample_data 0 ∅ _ _ _
              ltac:(vm_compute; reflexivity)) as (_ & H1 & H2).
  split; [exact H1|]. split; [exact H2|]. split; reflexivity.
Defined.

(** ** The time axis *)

Lemma Time_ticks_cons2 t0 t1 rest :
  Time_ticks (t0 :: t1 :: rest) =
  Ok (float_of_Z t0 :: float_of_Z ((t1 - t0) mod 2 ^ 32)
      :: accumulate (float_of_Z ((t1 - t0) mod 2 ^ 32))
           (map float_of_Z (np_diff_uint32 (t1 :: rest)))).
Proof. reflexivity. Qed.

Lemma np_diff_uint32_range t : Forall (fun d => 0 <= d < 2 ^ 32) (np_diff_uint32 t).
Proof.
  induction t as [|a [|b r] IH]; cbn [np_diff_uint32]; try constructor.
  - apply Z.mod_pos_bound. lia.
  - exact IH.
Qed.

(** C1 (the code departs from it): the second element of the array that
    [Time] builds is the first wrapped difference alone, not the first
    raw timestamp plus that difference, so for raw timestamps [10, 20]
    the time axis is [10/1e7, 10/1e7] where the running sum from
    [raw[0]] gives [10/1e7, 20/1e7]; the same happens in the channel of
    the sample file. *)
Theorem C1_Time_second_element_is_bare_difference :
  (forall t0 t1 rest, exists tail,
     Time_ticks (t0 :: t1 :: rest)
     = Ok (float_of_Z t0 :: float_of_Z ((t1 - t0) mod 2 ^ 32) :: tail)) /\
  Time_of [10; 20] = Ok [10 / 1e7; 10 / 1e7]%float /\
  unwrapped_Time [10; 20] = Ok [10 / 1e7; 20 / 1e7]%float /\
  Time_of [10; 20] <> unwrapped_Time [10; 20] /\
  (exists svb h ch,
     SVBFile.__init__ sample_file ∅ = (Ok svb, h) /\
     SVBFile.__getitem__ svb "a" = Ok ch /\
     Channel.raw_timestamps h ch = Some [4294967290; 4] /\
     (Channel.Time h ch).1 = Ok [4294967290 / 1e7; 10 / 1e7]%float /\
     unwrapped_Time [4294967290; 4] = Ok [4294967290 / 1e7; 4294967300 / 1e7]%float).
Proof.
  split; [intros; eexists; apply Time_ticks_cons2|].
  split; [vm_compute; reflexivity|]. split; [vm_compute; reflexivity|].
  split.
  - intros H.
    apply (f_equal (fun r => match r with
                             | Ok [_; x] => (x =? 10 / 1e7)%float
                             | _ => false
                             end)) in H.
    vm_compute in H. discriminate.
  - eexists _, _, _. split; [vm_compute; reflexivity|].
    split; [vm_compute; reflexivity|].
    split; [vm_compute; reflexivity|]. split; vm_compute; reflexivity.
Qed.

(** C2, as stated, fails: the array before the division is not the one
    the claim lists. *)
Lemma C2_counterexample :
  Time_ticks [4294967290; 4294967295; 5; 10]
  <> Ok [4294967290; 4294967295; 4294967305; 4294967310]%float.
Proof.
  intros H.
  apply (f_equal (fun r => match r with
                           | Ok [_; _; x; _] => (x =? 4294967305)%float
                           | _ => true
                           end)) in H.
  vm_compute in H. discriminate.
Qed.

(** C2, as amended: for the raw timestamps [4294967290, 4294967295, 5,
    10] the wrapped differences are [5, 6, 5] (the wrap between index 1
    and 2 is a forward step of 6 ticks), the array before the division
    starts with 4294967290 and from index 1 on it grows by the wrapped
    differences 6 and 5, so it is non-decreasing from there on. *)
Theorem C2_ticks_across_the_wrap :
  np_diff_uint32 [4294967290; 4294967295; 5; 10] = [5; 6; 5] /\
  exists r1 r2 r3,
    Time_ticks [4294967290; 4294967295; 5; 10]
    = Ok [4294967290%float; r1; r2; r3] /\
    r2 = (r1 + 6)%float /\ r3 = (r2 + 5)%float /\
    nondecreasing [r1; r2; r3] = true.
Proof.
  split; [reflexivity|]. eexists _, _, _.
  split; [vm_compute; reflexivity|]. repeat split; vm_compute; reflexivity.
Qed.

(** C3 (the code departs from it): for the raw timestamps [4294967290,
    4294967295], which do not even wrap, the time axis goes down from
    about 429.5 to 5e-7, and so does the time axis of the channel of
    the sample file; the running sum from [raw[0]] is non-decreasing on
    both. *)
Theorem C3_Time_drops_after_first_sample :
  (exists x0 x1,
     Time_of [4294967290; 4294967295] = Ok [x0; x1] /\
     (x1 <? x0)%float = true /\ nondecreasing [x0; x1] = false) /\
  (exists y, unwrapped_Time [4294967290; 4294967295] = Ok y /\
             nondecreasing y = true) /\
  (exists svb h ch tm,
     SVBFile.__init__ sample_file ∅ = (Ok svb, h) /\
     SVBFile.__getitem__ svb "a" = Ok ch /\
     Channel.raw_timestamps h ch = Some [4294967290; 4] /\
     (Channel.Time h ch).1 = Ok tm /\ nondecreasing tm = false) /\
  (exists y, unwrapped_Time [4294967290; 4] = Ok y /\ nondecreasing y = true).
Proof.
  split.
  { eexists _, _. split; [vm_compute; reflexivity|].
    split; vm_compute; reflexivity. }
  split.
  { eexists. split; vm_compute; reflexivity. }
  split.
  { eexists _, _, _, _. split; [vm_compute; reflexivity|].
    split; [vm_compute; reflexivity|]. split; [vm_compute; reflexivity|].
    split; vm_compute; reflexivity. }
  eexists. split; vm_compute; reflexivity.
Qed.

(** ** Timestamps of the header *)

Lemma round_half_even_mul n d : 0 < d -> round_half_even (n * d) d = n.
Proof.
  intros Hd. unfold round_half_even.
  rewrite Z.mod_mul, Z.div_mul by lia.
  replace (2 * 0) with 0 by lia.
  destruct (Z.compare_spec 0 d); lia.
Qed.

(** A number of microseconds that binary64 represents exactly survives
    the division and the conversion to a timedelta unchanged. *)
Lemma timedelta_of_representable m j :
  0 <= m < 2 ^ 53 -> 0 <= j ->
  m * 2 ^ j / us_per_day <= 999999999 ->
  timedelta_microseconds (int_true_divide (10 * (m * 2 ^ j)) 10) = Ok (m * 2 ^ j).
Proof.
  intros Hm Hj Hdays.
  assert (forall us, us = m * 2 ^ j ->
            (if us / us_per_day <=? 999999999 then Ok us else Raise OverflowError)
            = Ok (m * 2 ^ j)) as Hday.
  { intros us ->. apply Z.leb_le in Hdays. by rewrite Hdays. }
  destruct (Z.eq_dec m 0) as [->|Hm0].
  { rewrite Z.mul_0_l. reflexivity. }
  assert (0 < 2 ^ j) as Hpj by (apply Z.pow_pos_nonneg; lia).
  set (k := m * 2 ^ j) in *.
  assert (0 < k) as Hk by (subst k; nia).
  unfold int_true_divide, timedelta_microseconds.
  replace (10 * k =? 0) with false by (symmetry; apply Z.eqb_neq; lia).
  change (Z.log2 10 + 1) with 4.
  replace (10 * k * 2 ^ 4 / 10) with (k * 2 ^ 4)
    by (rewrite (Z.mul_comm 10 k), <- Z.mul_assoc, (Z.mul_comm 10),
          Z.mul_assoc, Z.div_mul; lia).
  rewrite Z.log2_mul_pow2 by lia.
  replace (4 + Z.log2 k - 4 - 52) with (Z.log2 k - 52) by lia.
  cbn [mant expo].
  assert (Z.log2 k = j + Z.log2 m) as HLk
    by (subst k; apply Z.log2_mul_pow2; lia).
  assert (0 <= Z.log2 m <= 52) as HLm.
  { split; [apply Z.log2_nonneg|].
    assert (Z.log2 m < 53) by (apply Z.log2_lt_pow2; lia). lia. }
  destruct (Z.ltb_spec (Z.log2 k - 52) 0) as [He|He]; apply Hday.
  - assert (0 < 2 ^ (- (Z.log2 k - 52))) by (apply Z.pow_pos_nonneg; lia).
    replace (10 * k * 2 ^ (- (Z.log2 k - 52)))
      with (k * 2 ^ (- (Z.log2 k - 52)) * 10) by lia.
    rewrite round_half_even_mul by lia.
    apply round_half_even_mul. lia.
  - set (e := Z.log2 k - 52) in *. set (d := 52 - Z.log2 m).
    assert (0 < 2 ^ e) by (apply Z.pow_pos_nonneg; lia).
    assert (2 ^ j = 2 ^ d * 2 ^ e) as Hsplit.
    { rewrite <- Z.pow_add_r by (subst d e; lia). f_equal. subst d e. lia. }
    replace (10 * k) with (m * 2 ^ d * (10 * 2 ^ e))
      by (subst k; rewrite Hsplit; lia).
    rewrite round_half_even_mul by lia.
    subst k. rewrite Hsplit. lia.
Qed.

Lemma datetime_of_representable m j :
  0 <= m < 2 ^ 53 -> 0 <= j ->
  datetime_jan1 1601 + m * 2 ^ j <= datetime_max ->
  datetime_of_ticks (10 * (m * 2 ^ j)) = Ok (datetime_jan1 1601 + m * 2 ^ j).
Proof.
  intros Hm Hj Hmax. unfold datetime_of_ticks.
  assert (0 <= m * 2 ^ j) as Hk.
  { apply Z.mul_nonneg_nonneg; [lia | apply Z.pow_nonneg; lia]. }
  change (datetime_jan1 1601) with 50491123200000000 in *.
  change datetime_max with 315537897599999999 in *.
  rewrite timedelta_of_representable; [|done..|].
  - unfold datetime_add.
    change (datetime_jan1 1601) with 50491123200000000.
    change datetime_max with 315537897599999999.
    destruct (Z.leb_spec 0 (50491123200000000 + m * 2 ^ j)); [|lia].
    destruct (Z.leb_spec (50491123200000000 + m * 2 ^ j) 315537897599999999);
      [|lia].
    reflexivity.
  - apply Z.div_le_upper_bound; [done|].
    change us_per_day with 86400000000. lia.
Qed.

(** A quotient that lies half way between two integers goes to the even
    one. *)
Lemma round_half_even_tie q : round_half_even (10 * (2 * q + 1)) 20
  = if Z.even q then q else q + 1.
Proof.
  unfold round_half_even.
  assert ((10 * (2 * q + 1)) / 20 = q) as ->
    by (symmetry; apply Z.div_unique with 10; lia).
  assert ((10 * (2 * q + 1)) mod 20 = 10) as ->
    by (symmetry; apply Z.mod_unique with q; lia).
  reflexivity.
Qed.

(** From 2^53 on binary64 holds even numbers only: an odd number of
    microseconds comes out of the division as one of its two even
    neighbours. *)
Lemma datetime_of_odd_microseconds us :
  2 ^ 53 <= us < 2 ^ 54 -> Z.odd us = true ->
  datetime_of_ticks (10 * us)
  = Ok (datetime_jan1 1601 + (if Z.even (us / 2) then us - 1 else us + 1)).
Proof.
  intros Hus Hodd.
  assert (us = 2 * (us / 2) + 1) as Hq.
  { rewrite (Z.div_mod us 2) at 1 by lia.
    rewrite Zmod_odd, Hodd. reflexivity. }
  set (q := us / 2) in *.
  assert (2 ^ 52 <= q < 2 ^ 53) as Hqr by lia.
  unfold datetime_of_ticks, int_true_divide.
  destruct (Z.eqb_spec (10 * us) 0) as [|_]; [lia|].
  change (Z.log2 10 + 1) with 4.
  assert (10 * us * 2 ^ 4 / 10 = 16 * us) as ->
    by (symmetry; apply Z.div_unique with 0; lia).
  assert (Z.log2 (16 * us) = 57) as ->
    by (apply Z.log2_unique; [lia | lia]).
  change (57 - 4 - 52) with 1. change (1 <? 0) with false. cbv iota.
  change (10 * 2 ^ 1) with 20.
  rewrite Hq at 1. rewrite round_half_even_tie.
  unfold timedelta_microseconds. cbn [mant expo].
  change (1 <? 0) with false. cbv iota. change (2 ^ 1) with 2.
  set (m := if Z.even q then q else q + 1).
  assert (m = q \/ m = q + 1) as Hm by (unfold m; destruct (Z.even q); lia).
  assert ((m * 2 / us_per_day <=? 999999999) = true) as ->.
  { apply Z.leb_le. apply Z.div_le_upper_bound; [done|].
    change us_per_day with 86400000000. lia. }
  unfold datetime_add.
  change (datetime_jan1 1601) with 50491123200000000.
  change datetime_max with 315537897599999999.
  destruct (Z.leb_spec 0 (50491123200000000 + m * 2)); [|lia].
  destruct (Z.leb_spec (50491123200000000 + m * 2) 315537897599999999); [|lia].
  cbn [andb]. do 2 f_equal. unfold m. destruct (Z.even q); lia.
Qed.

(** C9 (the code departs from it): a 'T' field whose tick value is ten
    times an odd number of microseconds from 2^53 on (every odd
    microsecond from 1886-06-05 to 2171-11-08) decodes to a time that is
    one microsecond off: ticks / 10 is a binary64 division, and binary64
    has no odd numbers in that range.  The exact time 1601-01-01
    00:00:00 plus that many microseconds is a datetime, so the result
    could have been exact. *)
Theorem C9_T_field_is_a_microsecond_off f us :
  length (chunk f 8) = 8%nat ->
  le_uint (chunk f 8) = 10 * us ->
  2 ^ 53 <= us < 2 ^ 54 -> Z.odd us = true ->
  exists d,
    read_field "T" f = (Ok (VDatetime d), advance f 8) /\
    d = datetime_jan1 1601 + (if Z.even (us / 2) then us - 1 else us + 1) /\
    d <> datetime_jan1 1601 + us /\
    0 <= datetime_jan1 1601 + us <= datetime_max.
Proof.
  intros Hlen Ht Hus Hodd.
  eexists. split; [|split; [reflexivity|]].
  - cbn [read_field]. unfold io_bind, io_lift, io_ret.
    rewrite (read_full _ _ Hlen).
    unfold unpack_int, unpack. cbn [calcsize]. rewrite Hlen. cbn. rewrite Ht.
    by rewrite datetime_of_odd_microseconds.
  - split; [destruct (Z.even (us / 2)); lia|].
    change (datetime_jan1 1601) with 50491123200000000.
    change datetime_max with 315537897599999999. lia.
Qed.

(** The tick value of 2020-01-01 00:00:00.000001 decodes to 2020-01-01
    00:00:00. *)
Lemma C9_T_field_is_a_microsecond_off_witness :
  datetime_jan1 1601 + 13222310400000001 = datetime_jan1 2020 + 1 /\
  exists d,
    read_field "T" (BytesIO_of (pack_uint 8 132223104000000010))
    = (Ok (VDatetime d), advance (BytesIO_of (pack_uint 8 132223104000000010)) 8) /\
    d = datetime_jan1 2020.
Proof.
  split; [reflexivity|].
  destruct (C9_T_field_is_a_microsecond_off
              (BytesIO_of (pack_uint 8 132223104000000010)) 13222310400000001)
    as (d & Hread & Hd & _);
    [reflexivity | reflexivity | split; [discriminate | reflexivity] | reflexivity |].
  exists d. split; [exact Hread|]. rewrite Hd. reflexivity.
Defined.

(** The division agrees with the binary64 division of the standard
    library's specification of floats on sample tick values. *)
Lemma int_true_divide_agrees_with_SFdiv :
  Forall (fun t =>
            SFdiv prec emax (S754_finite false (Z.to_pos t) 0)
                            (S754_finite false 10 0)
            = S754_finite false (Z.to_pos (mant (int_true_divide t 10)))
                          (expo (int_true_divide t 10)))
    [1; 5; 15; 864000000000; 132223104000000010; 132223104000000020;
     2 ^ 64 - 1].
Proof. repeat constructor. Qed.

(** ** Arrays on the heap *)

Lemma item_length h a i e : item h a i = Some e -> length e = itemsize (dtype a).
Proof.
  unfold item. destruct (h !! base a) as [buf|]; [|done]. cbn.
  case_decide as Hd; [|done]. intros [= <-].
  rewrite length_take, length_drop. lia.
Qed.

Lemma item_base h a i e : item h a i = Some e -> is_Some (h !! base a).
Proof. unfold item. destruct (h !! base a); [by eexists | done]. Qed.

Lemma items_shape h a els :
  items h a = Some els ->
  length els = shape a /\ Forall (fun e => length e = itemsize (dtype a)) els.
Proof.
  unfold items. intros H. apply mapM_Some_1 in H. split.
  - apply Forall2_length in H. by rewrite length_seq in H.
  - induction H as [|i e l k Hi _ IH]; constructor; [|done].
    by eapply item_length.
Qed.

(** Reading an array only looks at its own buffer. *)
Lemma items_ext h1 h2 a : h1 !! base a = h2 !! base a -> items h1 a = items h2 a.
Proof.
  intros H. unfold items. apply mapM_ext. intros i. unfold item. by rewrite H.
Qed.

(** An array that can be read is read the same in any heap that agrees
    with the old one on the buffers that existed. *)
Lemma items_frame h h2 a :
  is_Some (items h a) ->
  (forall l, l ∈ dom h -> h2 !! l = h !! l) ->
  items h2 a = items h a.
Proof.
  intros [els Hels] Hagree.
  destruct (shape a) as [|n] eqn:Hn; [unfold items; by rewrite Hn|].
  apply items_ext. apply Hagree. apply elem_of_dom.
  unfold items in Hels. rewrite Hn in Hels. apply mapM_Some_1 in Hels.
  inversion Hels as [|i e l k Hi _]; subst. by eapply item_base.
Qed.

Lemma length_concat_uniform (els : list (list byte)) sz :
  Forall (fun e => length e = sz) els ->
  length (concat els) = (length els * sz)%nat.
Proof.
  induction 1 as [|e els He _ IH]; [done|].
  cbn. rewrite length_app, IH, He. done.
Qed.

Lemma concat_chunk (els : list (list byte)) sz i e :
  Forall (fun e => length e = sz) els ->
  els !! i = Some e ->
  take sz (drop (i * sz) (concat els)) = e.
Proof.
  intros H. revert i. induction H as [|x els Hx _ IH]; intros i Hi; [done|].
  destruct i as [|i]; cbn in *.
  - injection Hi as ->. by apply take_app_length'.
  - rewrite drop_app_add' by done. by apply IH.
Qed.

(** A contiguous array over the concatenation of its elements reads
    back these elements. *)
Lemma items_contiguous h l (els : list (list byte)) dt w :
  Forall (fun e => length e = itemsize dt) els ->
  items (<[l := concat els]> h)
    {| base := l; offset := 0; stride := itemsize dt; shape := length els;
       dtype := dt; writeable := w |} = Some els.
Proof.
  intros Hels. unfold items. apply mapM_Some_2. cbn [shape].
  apply Forall2_same_length_lookup_2; [by rewrite length_seq|].
  intros i j e Hj He. apply lookup_seq in Hj as [-> Hlt]. cbn in Hlt |- *.
  unfold item. cbn [base offset stride shape dtype].
  rewrite lookup_insert_eq. cbn.
  rewrite (length_concat_uniform _ _ Hels).
  rewrite decide_True by (split; [done | nia]).
  f_equal. by apply concat_chunk.
Qed.

Lemma np_array_spec h a els :
  items h a = Some els ->
  np_array h a =
    Ok (<[fresh (dom h) := concat els]> h,
        {| base := fresh (dom h); offset := 0; stride := itemsize (dtype a);
           shape := shape a; dtype := dtype a; writeable := true |}).
Proof. intros H. unfold np_array. by rewrite H. Qed.

Lemma np_array_inv h a h' r :
  np_array h a = Ok (h', r) ->
  exists els,
    items h a = Some els /\ h' = <[fresh (dom h) := concat els]> h /\
    r = {| base := fresh (dom h); offset := 0; stride := itemsize (dtype a);
           shape := shape a; dtype := dtype a; writeable := true |}.
Proof.
  unfold np_array. destruct (items h a) as [els|]; [|done].
  intros [= <- <-]. by exists els.
Qed.

(** ** [Time] and [interpolate] *)

(** [Time] leaves the arrays of the channel alone. *)
Lemma Time_arrays h ch r ch1 :
  Channel.Time h ch = (r, ch1) ->
  Channel.Values ch1 = Channel.Values ch /\
  Channel.Timestamp ch1 = Channel.Timestamp ch.
Proof.
  unfold Channel.Time.
  destruct (Channel._time ch); [by intros [= <- <-]|].
  destruct (Channel.raw_timestamps h ch); [|by intros [= <- <-]].
  destruct (Time_of _); by intros [= <- <-].
Qed.

Lemma np_all_eq_elementwise tq tm :
  Forall2 (fun x y => (x =? y)%float = true) tq tm -> Channel.np_all_eq tq tm = true.
Proof.
  intros H. unfold Channel.np_all_eq.
  rewrite (Forall2_length _ _ _ H), Nat.eqb_refl.
  induction H as [|x y tq tm Hxy _ IH]; [done|]. cbn. by rewrite Hxy, IH.
Qed.

(** ** The arrays of a built channel can be read *)

Lemma np_memmap_inv file vt off n h h' d :
  0 <= off -> 0 <= n ->
  np_memmap file vt off n h = Ok (h', d) ->
  h' = <[fresh (dom h) := file]> h /\
  d = {| mm_base := fresh (dom h); mm_offset := Z.to_nat off;
         mm_shape := Z.to_nat n; mm_values := vt |} /\
  off + n * Z.of_nat (recordsize vt) <= Z.of_nat (length file).
Proof.
  intros Hoff Hn. unfold np_memmap.
  set (G := Z.of_nat ALLOCATIONGRANULARITY).
  assert (0 <= off mod G < G) as Hmod by (apply Z.mod_pos_bound; done).
  assert (0 <= n * Z.of_nat (recordsize vt)) as Hsz by nia.
  destruct (Z.eqb_spec (off + n * Z.of_nat (recordsize vt) - (off - off mod G)) 0)
    as [E|E].
  - destruct (Z.leb_spec (Z.of_nat (length file)) (off - off mod G));
      [done|]. intros [= <- <-]. repeat split; lia.
  - destruct (Z.ltb_spec (Z.of_nat (length file))
                (off + n * Z.of_nat (recordsize vt))); [done|].
    intros [= <- <-]. repeat split; lia.
Qed.

Lemma items_in_bounds h a buf :
  h !! base a = Some buf ->
  (forall i, i < shape a ->
     offset a + i * stride a + itemsize (dtype a) <= length buf)%nat ->
  items h a
  = Some (map (fun i => take (itemsize (dtype a))
                          (drop (offset a + i * stride a) buf))
            (seq 0 (shape a))).
Proof.
  intros Hbuf Hfit. unfold items. apply mapM_Some_2.
  apply Forall2_same_length_lookup_2; [by rewrite length_map|].
  intros i j e Hj He. apply lookup_seq in Hj as [-> Hlt]. cbn in Hlt |- *.
  rewrite list_lookup_fmap, lookup_seq_lt in He by done. cbn in He.
  injection He as <-. unfold item. rewrite Hbuf. cbn.
  rewrite decide_True; [done|]. split; [done | by apply Hfit].
Qed.

Lemma init_nonneg headerfile file starttime h ch hf h' :
  Channel.__init__ headerfile file starttime h = (Ok ch, hf, h') ->
  0 <= Channel.SamplesInFile ch /\ 0 <= Channel.FileStartPosition ch.
Proof.
  intros H. apply init_ok_inv in H as (st & vt & E & _).
  destruct (channel_header_inv _ _ _ E)
    as (name & netId & sn & cm & dt & Hinv).
  cbv zeta in Hinv. destruct Hinv as (Hf & _).
  field_eq Hf H0. field_eq Hf H1. field_eq Hf H2. field_eq Hf H3.
  field_eq Hf H4. field_eq Hf H5. field_eq Hf H6. field_eq Hf H7.
  field_eq Hf H8. field_eq Hf H9. field_eq Hf H10. field_eq Hf H11.
  field_eq Hf H12. field_eq Hf H13. field_eq Hf H14. field_eq Hf H15.
  rewrite H13, H15. split; apply le_uint_bound.
Qed.

(** After [__init__] both views lie inside the mapped file, one element
    per sample. *)
Lemma init_arrays_readable headerfile file starttime h ch hf h' :
  Channel.__init__ headerfile file starttime h = (Ok ch, hf, h') ->
  exists ts vals,
    items h' (Channel.Timestamp ch) = Some ts /\
    items h' (Channel.Values ch) = Some vals /\
    length ts = Z.to_nat (Channel.SamplesInFile ch) /\
    length vals = Z.to_nat (Channel.SamplesInFile ch).
Proof.
  intros H. destruct (init_nonneg _ _ _ _ _ _ _ H) as [Hn Hoff].
  apply init_ok_inv in H as (st & vt & _ & _ & _ & Hmm & HT & HV & _).
  apply np_memmap_inv in Hmm as (-> & Hd & Hfit); [|done..].
  rewrite HT, HV, Hd. unfold field_Timestamp, field_Values.
  cbn [mm_base mm_offset mm_shape mm_values].
  eexists _, _. split; [|split].
  - apply items_in_bounds; cbn [base offset stride shape dtype].
    + apply lookup_insert_eq.
    + intros i Hi. unfold recordsize in *. cbn [itemsize]. nia.
  - apply items_in_bounds; cbn [base offset stride shape dtype].
    + apply lookup_insert_eq.
    + intros i Hi. unfold recordsize in *. nia.
  - split; rewrite length_map, length_seq; reflexivity.
Qed.

Lemma length_np_diff_uint32 t : length (np_diff_uint32 t) = (length t - 1)%nat.
Proof.
  induction t as [|a [|b r] IH]; [done..|].
  cbn [np_diff_uint32 length] in *. rewrite IH. lia.
Qed.

Lemma length_accumulate acc l : length (accumulate acc l) = length l.
Proof.
  revert acc. induction l as [|x l IH]; intros acc; [done|].
  cbn. by rewrite IH.
Qed.

Lemma Time_of_length t r : Time_of t = Ok r -> length r = length t.
Proof.
  unfold Time_of, Time_ticks. destruct t as [|t0 t']; [done|].
  intros H. apply Ok_inj in H as <-. rewrite length_map. cbn [length]. f_equal.
  unfold np_cumsum_float64.
  pose proof (length_np_diff_uint32 (t0 :: t')) as Hd.
  destruct (np_diff_uint32 (t0 :: t')) as [|d ds]; cbn in *; [lia|].
  rewrite length_accumulate, length_map. lia.
Qed.

(** A channel with at least one sample has a time axis, one element per
    sample; a channel without samples has none. *)
Lemma init_Time_defined headerfile file starttime h ch hf h' :
  Channel.__init__ headerfile file starttime h = (Ok ch, hf, h') ->
  0 < Channel.SamplesInFile ch ->
  exists tm,
    Channel.Time h' ch = (Ok tm, Channel.set_time ch tm) /\
    length tm = Z.to_nat (Channel.SamplesInFile ch).
Proof.
  intros H Hpos.
  destruct (init_arrays_readable _ _ _ _ _ _ _ H) as (ts & vals & Hts & _ & Hlen & _).
  apply init_ok_inv in H as (st & vt & _ & _ & _ & _ & _ & _ & Hcache).
  unfold Channel.Time, Channel.raw_timestamps. rewrite Hcache, Hts. cbn [fmap option_fmap option_map].
  destruct (Time_of (map le_uint ts)) as [r|e] eqn:E.
  - exists r. split; [done|].
    apply Time_of_length in E. by rewrite E, length_map.
  - exfalso. unfold Time_of, Time_ticks in E.
    destruct ts as [|x ts]; [cbn in Hlen; lia | discriminate].
Qed.

Lemma init_Time_empty headerfile file starttime h ch hf h' :
  Channel.__init__ headerfile file starttime h = (Ok ch, hf, h') ->
  Channel.SamplesInFile ch = 0 ->
  Channel.Time h' ch = (Raise IndexError, ch).
Proof.
  intros H Hzero.
  destruct (init_arrays_readable _ _ _ _ _ _ _ H) as (ts & vals & Hts & _ & Hlen & _).
  apply init_ok_inv in H as (st & vt & _ & _ & _ & _ & _ & _ & Hcache).
  unfold Channel.Time, Channel.raw_timestamps. rewrite Hcache, Hts. cbn [fmap option_fmap option_map].
  rewrite Hzero in Hlen. destruct ts; [done | discriminate].
Qed.

(** C8: when the time axis handed to [interpolate] equals the channel's
    own time axis element by element, the result is an array of the
    same element type and length whose elements are exactly the stored
    values. *)
Theorem C8_interpolate_on_own_axis_returns_Values np_interp ch tq h tm ch1 vals :
  Channel.Time h ch = (Ok tm, ch1) ->
  items h (Channel.Values ch) = Some vals ->
  Forall2 (fun x y => (x =? y)%float = true) tq tm ->
  exists r h',
    Channel.interpolate np_interp ch tq h = (Ok r, ch1, h') /\
    items h' r = Some vals /\
    dtype r = dtype (Channel.Values ch) /\
    shape r = shape (Channel.Values ch).
Proof.
  intros HT Hv Heq. unfold Channel.interpolate. rewrite HT. cbv beta iota.
  rewrite (np_all_eq_elementwise _ _ Heq).
  destruct (Time_arrays _ _ _ _ HT) as [HV _]. rewrite HV.
  rewrite (np_array_spec _ _ _ Hv). eexists _, _. split; [done|].
  destruct (items_shape _ _ _ Hv) as [Hlen Hall].
  rewrite <- Hlen. split; [by apply items_contiguous|]. done.
Qed.

Lemma C8_interpolate_on_own_axis_returns_Values_witness :
  exists svb h ch ch1,
    SVBFile.__init__ sample_file ∅ = (Ok svb, h) /\
    SVBFile.__getitem__ svb "a" = Ok ch /\
    exists r h',
      Channel.interpolate (fun _ _ _ _ => Raise ValueError) ch
        [4294967290 / 1e7; 10 / 1e7]%float h = (Ok r, ch1, h') /\
      items h' r = Some [[x07]; [x09]].
Proof.
  eexists _, _, _, _.
  split; [vm_compute; reflexivity|]. split; [vm_compute; reflexivity|].
  match goal with
  | |- exists r h', Channel.interpolate ?f ?ch ?tq ?h = _ /\ _ =>
      edestruct (C8_interpolate_on_own_axis_returns_Values f ch tq h)
        as (r & h' & Hi & Hitems & _);
        [vm_compute; reflexivity | vm_compute; reflexivity
        | repeat (constructor; [vm_compute; reflexivity|]); constructor |]
  end.
  exists r, h'. split; [exact Hi | exact Hitems].
Defined.

Lemma setitem_inv h a i v h2 :
  setitem h a i v = Ok h2 ->
  writeable a = true /\ exists buf, h2 = <[base a := buf]> h.
Proof.
  unfold setitem. destruct (writeable a); [|done]. cbn [negb].
  destruct (negb _); [done|]. destruct (_ || _); [done|].
  destruct (h !! base a); [|done]. intros [= <-]. split; [done | by eexists].
Qed.

(** C10: on the short-cut of [interpolate] the returned array sits in a
    buffer that did not exist before; the buffers that existed are as
    they were, and stay so when an element of the returned array is
    assigned: every array that could be read before, the channel's
    Values among them, still reads the same. *)
Theorem C10_interpolate_shortcut_returns_fresh_copy
    np_interp ch tq h tm ch1 ch2 r h' :
  Channel.Time h ch = (Ok tm, ch1) ->
  Channel.np_all_eq tq tm = true ->
  Channel.interpolate np_interp ch tq h = (Ok r, ch2, h') ->
  (base r ∉ dom h) /\
  writeable r = true /\
  Channel.Values ch2 = Channel.Values ch /\
  (forall l, l ∈ dom h -> h' !! l = h !! l) /\
  forall i v h2,
    setitem h' r i v = Ok h2 ->
    (forall l, l ∈ dom h -> h2 !! l = h !! l) /\
    (forall a, is_Some (items h a) -> items h2 a = items h a) /\
    items h2 (Channel.Values ch) = items h (Channel.Values ch).
Proof.
  intros HT Hfast. unfold Channel.interpolate. rewrite HT. cbv beta iota.
  rewrite Hfast. destruct (Time_arrays _ _ _ _ HT) as [HV _]. rewrite HV.
  destruct (np_array h (Channel.Values ch)) as [[h1 r1]|e] eqn:E; [|discriminate].
  intros H. apply triple_eq_inv in H as (<- & <- & <-).
  apply np_array_inv in E as (els & Hels & -> & ->). cbn [base writeable].
  pose proof (is_fresh (dom h)) as Hfresh.
  assert (forall l, l ∈ dom h -> l <> fresh (dom h)) as Hne by (by intros l Hl ->).
  split; [done|]. split; [done|]. split; [done|].
  split; [intros l Hl; apply lookup_insert_ne; by apply not_eq_sym, Hne|].
  intros i v h2 Hset.
  apply setitem_inv in Hset as (_ & buf & ->). cbn [base].
  assert (forall l, l ∈ dom h ->
            <[fresh (dom h) := buf]> (<[fresh (dom h) := concat els]> h) !! l
            = h !! l) as Hagree.
  { intros l Hl. rewrite !lookup_insert_ne by (by apply not_eq_sym, Hne). done. }
  split; [exact Hagree|].
  split; [intros a Ha; by apply items_frame|].
  apply items_frame; [by eexists | exact Hagree].
Qed.

Lemma C10_interpolate_shortcut_returns_fresh_copy_witness :
  exists svb h ch ch2 r h' h2,
    SVBFile.__init__ sample_file ∅ = (Ok svb, h) /\
    SVBFile.__getitem__ svb "a" = Ok ch /\
    Channel.interpolate (fun _ _ _ _ => Raise ValueError) ch
      [4294967290 / 1e7; 10 / 1e7]%float h = (Ok r, ch2, h') /\
    setitem h' r 0 [xff] = Ok h2 /\
    items h2 r = Some [[xff]; [x09]] /\
    items h2 (Channel.Values ch) = Some [[x07]; [x09]] /\
    h2 !! base (Channel.Values ch) = Some sample_file.
Proof.
  eexists _, _, _, _, _, _, _.
  split; [vm_compute; reflexivity|]. split; [vm_compute; reflexivity|].
  match goal with
  | |- Channel.interpolate ?f ?ch ?tq ?h = _ /\ _ =>
      edestruct (C10_interpolate_shortcut_returns_fresh_copy f ch tq h)
        as (_ & _ & _ & _ & Hset);
        [vm_compute; reflexivity | vm_compute; reflexivity
        | vm_compute; reflexivity |]
  end.
  split; [vm_compute; reflexivity|].
  edestruct (Hset 0 [xff]) as (Hl & _ & Hv); [vm_compute; reflexivity|].
  split; [vm_compute; reflexivity|]. split; [vm_compute; reflexivity|].
  split.
  - etransitivity; [exact Hv | vm_compute; reflexivity].
  - etransitivity;
      [apply Hl, elem_of_dom; eexists; vm_compute; reflexivity
      | vm_compute; reflexivity].
Defined.

(** * Further properties *)

(** ** The cursor of the header stream *)

Lemma read_on_refl f : read_on f f.
Proof. unfold read_on. repeat split; lia. Qed.

Lemma read_on_trans f1 f2 f3 : read_on f1 f2 -> read_on f2 f3 -> read_on f1 f3.
Proof.
  unfold read_on. intros (Hv1 & Hl1 & Hu1) (Hv2 & Hl2 & Hu2).
  rewrite Hv1 in *. repeat split; [congruence | lia | lia].
Qed.

Lemma read_read_on n f : read_on f (read n f).2.
Proof.
  unfold read_on, read. cbn [snd getvalue position].
  rewrite length_take, length_drop. repeat split; lia.
Qed.

Lemma reads_on_read n : reads_on (read n).
Proof. intros f. apply read_read_on. Qed.

Lemma reads_on_ret {A} (a : A) : reads_on (io_ret a).
Proof. intros f. apply read_on_refl. Qed.

Lemma reads_on_raise {A} e : reads_on (@io_raise A e).
Proof. intros f. apply read_on_refl. Qed.

Lemma reads_on_lift {A} (r : result A) : reads_on (io_lift r).
Proof. intros f. apply read_on_refl. Qed.

Lemma reads_on_bind {A B} (c : io A) (k : A -> io B) :
  reads_on c -> (forall a, reads_on (k a)) -> reads_on (io_bind c k).
Proof.
  intros Hc Hk f. unfold io_bind. specialize (Hc f).
  destruct (c f) as [[a|e] f1]; cbn [snd] in *; [|done].
  eapply read_on_trans; [exact Hc | apply Hk].
Qed.

Lemma reads_on_read_field c : reads_on (read_field c).
Proof.
  assert (reads_on (b <- read 4 ;;
                    strlen <- io_lift (unpack_int "L" b) ;;
                    s <- read (Z.to_nat strlen) ;;
                    str <- io_lift (decode_utf8 s) ;;
                    io_ret (VStr str))) as Hstr.
  { repeat (apply reads_on_bind; [|intros ?]);
      auto using reads_on_read, reads_on_lift, reads_on_ret. }
  assert (reads_on (b <- read 8 ;;
                    timeval <- io_lift (unpack_int "Q" b) ;;
                    d <- io_lift (datetime_of_ticks timeval) ;;
                    io_ret (VDatetime d))) as Htime.
  { repeat (apply reads_on_bind; [|intros ?]);
      auto using reads_on_read, reads_on_lift, reads_on_ret. }
  assert (reads_on match calcsize c with
                   | None => io_raise struct_error
                   | Some fieldlength =>
                       b <- read fieldlength ;; io_lift (unpack c b)
                   end) as Hfixed.
  { destruct (calcsize c); [|apply reads_on_raise].
    apply reads_on_bind; [apply reads_on_read | intros; apply reads_on_lift]. }
  destruct c as [[] [] [] [] [] [] [] []]; first [exact Hstr | exact Htime | exact Hfixed].
Qed.

Lemma reads_on_readheader format : reads_on (_readheader format).
Proof.
  induction format as [|c rest IH]; [apply reads_on_ret|].
  change (_readheader (String c rest))
    with (v <- read_field c ;; fields <- _readheader rest ;;
          io_ret (v :: fields)).
  apply reads_on_bind; [apply reads_on_read_field | intros v].
  apply reads_on_bind; [exact IH | intros; apply reads_on_ret].
Qed.

(** X1: [_readheader] never changes the bytes of the stream, never moves
    the cursor back, and never moves it past the end of the stream,
    whether it returns or raises. *)
Theorem X1_readheader_cursor format f :
  getvalue (_readheader format f).2 = getvalue f /\
  (position f <= position (_readheader format f).2)%nat /\
  ((position f <= length (getvalue f))%nat ->
   (position (_readheader format f).2 <= length (getvalue f))%nat).
Proof.
  destruct (reads_on_readheader format f) as (Hv & Hl & Hu).
  repeat split; [done | done | lia].
Qed.

Lemma readheader_length format f fields f' :
  _readheader format f = (Ok fields, f') -> length fields = String.length format.
Proof.
  revert f fields. induction format as [|c rest IH]; intros f fields H.
  - by apply readheader_nil in H as [-> _].
  - apply readheader_cons in H as (v & f1 & vs & _ & H & ->).
    cbn. f_equal. by eapply IH.
Qed.

(** X2: when [_readheader] returns, it returns one value for each
    character of the format. *)
Theorem X2_readheader_one_value_per_code format f fields f' :
  _readheader format f = (Ok fields, f') -> length fields = String.length format.
Proof. apply readheader_length. Qed.

Lemma X2_readheader_one_value_per_code_witness :
  exists fields f',
    _readheader "*TTL" (BytesIO_of sample_file_header) = (Ok fields, f') /\
    length fields = 4%nat.
Proof.
  eexists _, _. split; [vm_compute; reflexivity|].
  apply (X2_readheader_one_value_per_code "*TTL"
           (BytesIO_of sample_file_header) _ _ ltac:(vm_compute; reflexivity)).
Defined.

Lemma chunk_exhausted f n :
  (length (getvalue f) <= position f)%nat -> chunk f n = [].
Proof.
  intros H. unfold chunk. rewrite drop_ge by done. by destruct n.
Qed.

Lemma advance_0 f : advance f 0 = f.
Proof. destruct f as [b p]. unfold advance. cbn. f_equal. lia. Qed.

Lemma read_exhausted f n :
  (length (getvalue f) <= position f)%nat -> read n f = (Ok [], f).
Proof.
  intros H. unfold read. fold (chunk f n). rewrite (chunk_exhausted _ _ H).
  cbn [length]. fold (advance f 0). by rewrite advance_0.
Qed.

Lemma read_field_exhausted c f :
  (length (getvalue f) <= position f)%nat ->
  read_field c f = (Raise struct_error, f).
Proof.
  intros H.
  assert ((b <- read 4 ;;
           strlen <- io_lift (unpack_int "L" b) ;;
           s <- read (Z.to_nat strlen) ;;
           str <- io_lift (decode_utf8 s) ;;
           io_ret (VStr str)) f = (Raise struct_error, f)) as Hstr.
  { unfold io_bind. by rewrite (read_exhausted _ _ H). }
  assert ((b <- read 8 ;;
           timeval <- io_lift (unpack_int "Q" b) ;;
           d <- io_lift (datetime_of_ticks timeval) ;;
           io_ret (VDatetime d)) f = (Raise struct_error, f)) as Htime.
  { unfold io_bind. by rewrite (read_exhausted _ _ H). }
  assert (match calcsize c with
          | None => io_raise struct_error
          | Some fieldlength => b <- read fieldlength ;; io_lift (unpack c b)
          end f = (Raise struct_error, f)) as Hfixed.
  { destruct (calcsize c) as [n|] eqn:E; [|done].
    unfold io_bind, io_lift. rewrite (read_exhausted _ _ H).
    unfold unpack. rewrite E.
    destruct n; [|done].
    destruct c as [[] [] [] [] [] [] [] []]; discriminate. }
  destruct c as [[] [] [] [] [] [] [] []];
    first [exact Hstr | exact Htime | exact Hfixed].
Qed.

(** X3: on a stream that has no bytes left, [_readheader] with a format
    that starts with a string, timestamp, integer, boolean or float
    code raises [struct.error] and leaves the cursor where it was. *)
Theorem X3_readheader_on_exhausted_stream c rest f :
  c = "*"%char \/ c = "T"%char \/ is_Some (calcsize c) ->
  (length (getvalue f) <= position f)%nat ->
  _readheader (String c rest) f = (Raise struct_error, f).
Proof.
  intros _ H.
  change (_readheader (String c rest) f)
    with ((v <- read_field c ;; fields <- _readheader rest ;;
           io_ret (v :: fields)) f).
  unfold io_bind. by rewrite (read_field_exhausted _ _ H).
Qed.

Lemma X3_readheader_on_exhausted_stream_witness :
  _readheader "Q**LQ?**QQ*LLQQQddQ" (BytesIO_of [])
  = (Raise struct_error, BytesIO_of []).
Proof.
  apply (X3_readheader_on_exhausted_stream "Q" "**LQ?**QQ*LLQQQddQ" (BytesIO_of []));
    [right; right; by eexists | cbn; lia].
Defined.

(** ** Encoding and decoding a field *)

Lemma length_pack_uint n z : length (pack_uint n z) = n.
Proof.
  revert z. induction n as [|n IH]; intros z; [done|]. cbn. by rewrite IH.
Qed.

Lemma le_uint_pack_uint n z :
  0 <= z < 256 ^ Z.of_nat n -> le_uint (pack_uint n z) = z.
Proof.
  revert z. induction n as [|n IH]; intros z Hz.
  - cbn in *. lia.
  - cbn [pack_uint le_uint foldr]. fold (le_uint (pack_uint n (z / 256))).
    rewrite Nat2Z.inj_succ, Z.pow_succ_r in Hz by lia.
    rewrite IH by (split; [apply Z.div_pos; lia
                          | apply Z.div_lt_upper_bound; lia]).
    assert (0 <= z mod 256 < 256) as Hm by (apply Z.mod_pos_bound; lia).
    destruct (Byte.of_N (Z.to_N (z mod 256))) as [b|] eqn:E.
    + apply Byte.to_of_N in E. cbn [default from_option id]. rewrite E.
      rewrite Z2N.id by lia. pose proof (Z.div_mod z 256 ltac:(lia)). lia.
    + apply Byte.of_N_None_iff in E. lia.
Qed.

Lemma length_list_byte_of_string s :
  length (String.list_byte_of_string s) = String.length s.
Proof.
  unfold String.list_byte_of_string.
  induction s as [|a s IH]; [done|]. cbn. by rewrite IH.
Qed.

(** The next [n + m] bytes are the next [n] and the [m] after them. *)
Lemma chunk_app f n m a b :
  chunk f (n + m) = a ++ b -> length a = n ->
  chunk f n = a /\ chunk (advance f n) m = b.
Proof.
  unfold chunk, advance. cbn [position getvalue]. intros H Ha.
  split.
  - apply (f_equal (take n)) in H. rewrite take_take in H.
    rewrite Nat.min_l in H by lia. rewrite H. by apply take_app_length'.
  - apply (f_equal (drop n)) in H.
    rewrite <- take_drop_commute, drop_drop in H.
    rewrite H. by apply drop_app_length'.
Qed.

(** X4: a 'Q' field reads back the eight little-endian bytes of any
    number below 2^64, and an 'L' field the four bytes of any number
    below 2^32; the cursor moves by the width of the field. *)
Theorem X4_unsigned_fields_round_trip f z :
  0 <= z ->
  (z < 2 ^ 64 -> chunk f 8 = pack_uint 8 z ->
   read_field "Q" f = (Ok (VInt z), advance f 8)) /\
  (z < 2 ^ 32 -> chunk f 4 = pack_uint 4 z ->
   read_field "L" f = (Ok (VInt z), advance f 4)).
Proof.
  intros Hz. split; intros Hlt Hc.
  - assert (length (chunk f 8) = 8%nat) as Hlen
      by (by rewrite Hc, length_pack_uint).
    change (read_field "Q" f)
      with ((b <- read 8 ;; io_lift (unpack "Q" b)) f).
    unfold io_bind, io_lift. rewrite (read_full _ _ Hlen).
    unfold unpack. cbn [calcsize]. rewrite Hlen. cbn.
    rewrite Hc, le_uint_pack_uint; [done | cbn; lia].
  - assert (length (chunk f 4) = 4%nat) as Hlen
      by (by rewrite Hc, length_pack_uint).
    change (read_field "L" f)
      with ((b <- read 4 ;; io_lift (unpack "L" b)) f).
    unfold io_bind, io_lift. rewrite (read_full _ _ Hlen).
    unfold unpack. cbn [calcsize]. rewrite Hlen. cbn.
    rewrite Hc, le_uint_pack_uint; [done | cbn; lia].
Qed.

Lemma X4_unsigned_fields_round_trip_witness :
  read_field "Q" (BytesIO_of (pack_uint 8 18446744073709551615))
  = (Ok (VInt 18446744073709551615),
     advance (BytesIO_of (pack_uint 8 18446744073709551615)) 8) /\
  read_field "L" (advance (BytesIO_of (pack_uint 8 7 ++ pack_uint 4 851)) 8)
  = (Ok (VInt 851),
     advance (advance (BytesIO_of (pack_uint 8 7 ++ pack_uint 4 851)) 8) 4).
Proof.
  split.
  - apply (X4_unsigned_fields_round_trip
             (BytesIO_of (pack_uint 8 18446744073709551615))
             18446744073709551615); [discriminate | reflexivity | reflexivity].
  - apply (X4_unsigned_fields_round_trip
             (advance (BytesIO_of (pack_uint 8 7 ++ pack_uint 4 851)) 8) 851);
      [discriminate | reflexivity | reflexivity].
Defined.

(** X5: a string field reads back any string of valid UTF-8 that was
    written as its four-byte length and its bytes; the cursor moves by
    four plus the length. *)
Theorem X5_string_field_round_trip f s :
  Z.of_nat (String.length s) < 2 ^ 32 ->
  utf8_valid (String.list_byte_of_string s) = true ->
  chunk f (4 + String.length s) = pack_str s ->
  read_field "*" f = (Ok (VStr s), advance (advance f 4) (String.length s)).
Proof.
  intros Hlen Hvalid Hc. unfold pack_str in Hc.
  apply chunk_app in Hc as [H4 Hs]; [|apply length_pack_uint].
  assert (length (chunk f 4) = 4%nat) as L4 by (by rewrite H4, length_pack_uint).
  assert (length (chunk (advance f 4) (String.length s)) = String.length s) as Ls
    by (by rewrite Hs, length_list_byte_of_string).
  cbn [read_field]. unfold io_bind, io_lift, io_ret.
  rewrite (read_full _ _ L4). unfold unpack_int, unpack. cbn [calcsize].
  rewrite L4. cbn -[advance read chunk le_uint].
  rewrite H4, le_uint_pack_uint by (cbn; lia).
  rewrite Nat2Z.id, (read_full _ _ Ls), Hs.
  unfold decode_utf8. rewrite Hvalid.
  by rewrite String.string_of_list_byte_of_string.
Qed.

Lemma X5_string_field_round_trip_witness :
  read_field "*" (BytesIO_of (pack_str "UINT8" ++ [x00]))
  = (Ok (VStr "UINT8"),
     advance (advance (BytesIO_of (pack_str "UINT8" ++ [x00])) 4) 5).
Proof.
  apply (X5_string_field_round_trip
           (BytesIO_of (pack_str "UINT8" ++ [x00])) "UINT8");
    [reflexivity | reflexivity | reflexivity].
Defined.

(** X6: a string field that announces more bytes than the stream has
    left is not an error: when what is left is valid UTF-8, the field is
    the string of these bytes and the cursor is at the end of the
    stream. *)
Theorem X6_string_field_cut_at_end_of_stream f :
  length (chunk f 4) = 4%nat ->
  (Z.of_nat (length (getvalue f)) - Z.of_nat (position f) - 4
   < le_uint (chunk f 4)) ->
  utf8_valid (drop (position f + 4) (getvalue f)) = true ->
  exists f',
    read_field "*" f
    = (Ok (VStr (String.string_of_list_byte (drop (position f + 4) (getvalue f)))),
       f') /\
    getvalue f' = getvalue f /\ position f' = length (getvalue f).
Proof.
  intros L4 Hshort Hvalid.
  pose proof (chunk_full_bound _ _ L4) as [?|Hb]; [done|].
  cbn [read_field]. unfold io_bind, io_lift, io_ret.
  rewrite (read_full _ _ L4). unfold unpack_int, unpack. cbn [calcsize].
  rewrite L4. cbn.
  set (n := Z.to_nat (le_uint (chunk f 4))).
  unfold read, advance. cbn [position getvalue].
  assert (take n (drop (position f + 4) (getvalue f))
          = drop (position f + 4) (getvalue f)) as Ht.
  { apply take_ge. rewrite length_drop. subst n. lia. }
  rewrite Ht. unfold decode_utf8. rewrite Hvalid.
  eexists. split; [reflexivity|]. cbn [getvalue position].
  split; [done|]. rewrite length_drop. lia.
Qed.

Lemma X6_string_field_cut_at_end_of_stream_witness :
  exists f',
    read_field "*" (BytesIO_of (pack_uint 4 100 ++ [x61; x62]))
    = (Ok (VStr "ab"), f') /\
    position f' = 6%nat.
Proof.
  destruct (X6_string_field_cut_at_end_of_stream
              (BytesIO_of (pack_uint 4 100 ++ [x61; x62])))
    as (f' & H & _ & Hp); [reflexivity | reflexivity | reflexivity |].
  exists f'. split; [exact H | exact Hp].
Defined.

(** ** Decoding UTF-8 *)

Lemma utf8_valid_ascii bs :
  Forall (fun b => (Byte.to_N b < 128)%N) bs -> utf8_valid bs = true.
Proof.
  induction 1 as [|b bs Hb _ IH]; [done|].
  cbn [utf8_valid]. unfold byte_in.
  replace (0 <=? Byte.to_N b)%N with true by (symmetry; apply N.leb_le; lia).
  replace (Byte.to_N b <=? 127)%N with true by (symmetry; apply N.leb_le; lia).
  exact IH.
Qed.

(** Complete characters in front do not matter for what follows. *)
Lemma utf8_valid_app pre rest :
  utf8_valid pre = true -> utf8_valid (pre ++ rest) = utf8_valid rest.
Proof.
  remember (length pre) as n eqn:Hn. revert pre Hn.
  induction n as [n IH] using lt_wf_ind. intros pre Hn Hv.
  destruct pre as [|b0 r0]; [done|].
  cbn [app]. cbn [utf8_valid] in Hv |- *. cbn [length] in Hn.
  destruct (byte_in 0 127 b0); [apply (IH (length r0)); [lia | done | done]|].
  destruct r0 as [|b1 r1]; [discriminate|]. cbn [app length] in *.
  destruct (byte_in 194 223 b0).
  { apply andb_true_iff in Hv as [-> Hv]. cbn [andb].
    apply (IH (length r1)); [lia | done | done]. }
  destruct r1 as [|b2 r2]; [discriminate|]. cbn [app length] in *.
  destruct (byte_in 224 224 b0).
  { apply andb_true_iff in Hv as [Hv1 Hv]. rewrite Hv1. cbn [andb].
    apply (IH (length r2)); [lia | done | done]. }
  destruct (byte_in 237 237 b0).
  { apply andb_true_iff in Hv as [Hv1 Hv]. rewrite Hv1. cbn [andb].
    apply (IH (length r2)); [lia | done | done]. }
  destruct (byte_in 225 239 b0).
  { apply andb_true_iff in Hv as [Hv1 Hv]. rewrite Hv1. cbn [andb].
    apply (IH (length r2)); [lia | done | done]. }
  destruct r2 as [|b3 r3]; [discriminate|]. cbn [app length] in *.
  destruct (byte_in 240 240 b0).
  { apply andb_true_iff in Hv as [Hv1 Hv]. rewrite Hv1. cbn [andb].
    apply (IH (length r3)); [lia | done | done]. }
  destruct (byte_in 241 243 b0).
  { apply andb_true_iff in Hv as [Hv1 Hv]. rewrite Hv1. cbn [andb].
    apply (IH (length r3)); [lia | done | done]. }
  destruct (byte_in 244 244 b0); [|discriminate].
  apply andb_true_iff in Hv as [Hv1 Hv]. rewrite Hv1. cbn [andb].
  apply (IH (length r3)); [lia | done | done].
Qed.

Lemma utf8_valid_bad_lead b r :
  (128 <= Byte.to_N b <= 193 \/ 245 <= Byte.to_N b)%N ->
  utf8_valid (b :: r) = false.
Proof.
  intros H.
  destruct b; cbn in H; try lia;
    destruct r as [|b1 [|b2 [|b3 r]]]; try reflexivity;
    cbn [utf8_valid]; cbv [byte_in Byte.to_N N.leb N.compare Pos.compare
                           Pos.compare_cont andb];
    reflexivity.
Qed.

(** X7: bytes below 128 (ASCII) always decode, to the string of the
    same bytes; and bytes that cannot start a character where a
    character has to start (0x80..0xC1, 0xF5..0xFF), after any number of
    complete characters, raise [UnicodeDecodeError]. *)
Theorem X7_decode_utf8_ascii_and_bad_lead_bytes :
  (forall bs,
     Forall (fun b => (Byte.to_N b < 128)%N) bs ->
     decode_utf8 bs = Ok (String.string_of_list_byte bs)) /\
  (forall pre b r,
     utf8_valid pre = true ->
     (128 <= Byte.to_N b <= 193 \/ 245 <= Byte.to_N b)%N ->
     decode_utf8 (pre ++ b :: r) = Raise UnicodeDecodeError).
Proof.
  split.
  - intros bs H. unfold decode_utf8. by rewrite utf8_valid_ascii.
  - intros pre b r Hpre Hb. unfold decode_utf8.
    by rewrite utf8_valid_app, utf8_valid_bad_lead.
Qed.

Lemma X7_decode_utf8_ascii_and_bad_lead_bytes_witness :
  decode_utf8 [x55; x49; x4e; x54; x38] = Ok "UINT8"%string /\
  decode_utf8 ([x61; xc3; xa9] ++ xc0 :: [x80]) = Raise UnicodeDecodeError.
Proof.
  destruct X7_decode_utf8_ascii_and_bad_lead_bytes as [Hascii Hbad]. split.
  - apply (Hascii [x55; x49; x4e; x54; x38]).
    repeat constructor.
  - apply (Hbad [x61; xc3; xa9] xc0 [x80]); [reflexivity|].
    left. split; discriminate.
Defined.

(** ** Mapping the data file *)

Lemma recordsize_pos vt : (5 <= recordsize vt)%nat.
Proof. unfold recordsize. destruct vt; cbn; lia. Qed.

Lemma np_memmap_ok_iff file vt off n h :
  0 <= off -> 0 <= n ->
  (exists h' d, np_memmap file vt off n h = Ok (h', d)) <->
  off + n * Z.of_nat (recordsize vt) <= Z.of_nat (length file) /\
  ~ (n = 0 /\ off mod Z.of_nat ALLOCATIONGRANULARITY = 0
     /\ Z.of_nat (length file) <= off).
Proof.
  intros Hoff Hn. unfold np_memmap.
  set (G := Z.of_nat ALLOCATIONGRANULARITY).
  assert (0 <= off mod G < G) as Hmod by (apply Z.mod_pos_bound; done).
  pose proof (recordsize_pos vt) as Hrec.
  assert (n = 0 \/ 5 <= n * Z.of_nat (recordsize vt)) as Hsz by nia.
  destruct (Z.eqb_spec (off + n * Z.of_nat (recordsize vt) - (off - off mod G)) 0)
    as [E|E].
  - assert (n = 0 /\ off mod G = 0) as [-> Hm] by lia.
    destruct (Z.leb_spec (Z.of_nat (length file)) (off - off mod G)).
    + split; [intros (? & ? & [=]) | lia].
    + split; [lia | by eexists _, _].
  - destruct (Z.ltb_spec (Z.of_nat (length file))
                (off + n * Z.of_nat (recordsize vt))).
    + split; [intros (? & ? & [=]) | lia].
    + split; [lia | by eexists _, _].
Qed.

(** ** Outcomes of [Channel.__init__] *)

Lemma lookup_VStr_inv (o : option value) s :
  o = Some (VStr s) -> match o with Some (VStr x) => x | _ => EmptyString end = s.
Proof. by intros ->. Qed.

Lemma dict_get_None {V} (d : list (string * V)) k :
  dict_get d k = None <-> k ∉ map fst d.
Proof.
  induction d as [|[k' v] d IH]; cbn.
  - split; [intros _; apply not_elem_of_nil | done].
  - case_decide as Hk.
    + subst. split; [done|]. intros H. exfalso. apply H. apply elem_of_cons. by left.
    + rewrite IH, not_elem_of_cons. split; [by intros ? | by intros [_ ?]].
Qed.

(** A failed [__init__] hands the heap back as it got it. *)
Lemma init_cases headerfile file starttime h :
  (exists e hf, Channel.__init__ headerfile file starttime h = (Raise e, hf, h)) \/
  (exists ch hf h', Channel.__init__ headerfile file starttime h = (Ok ch, hf, h')).
Proof.
  destruct (_readheader "Q**LQ?**QQ*LLQQQddQ" headerfile) as [[fields|e] hf] eqn:E.
  2:{ left. exists e, hf. by apply init_header_raise. }
  destruct (channel_header_inv _ _ _ E) as (name & netId & sn & cm & dt & Hinv).
  cbv zeta in Hinv. destruct Hinv as (-> & _).
  rewrite (init_unfold _ _ _ _ _ _ _ _ _ _ _ _ _ _ _ _ _ _ _ _ _ _ _ _ E).
  destruct (negb (_ - _ =? _)); [left; by eexists _, _|].
  destruct (negb (_ =? (_ + 4) * _)); [left; by eexists _, _|].
  destruct (dict_get _ _); [|left; by eexists _, _].
  destruct (np_memmap _ _ _ _ _) as [[h1 data]|e]; [|left; by eexists _, _].
  right. by eexists _, _, _.
Qed.

(** X9: when the record decodes, its size field is right and its data
    size field is right, a data-type tag that is not one of the fifteen
    keys of [DATATYPES] makes [__init__] raise [KeyError]; a wrong data
    size field raises [AssertionError] whatever the tag is; and with a
    known tag whose records end below 2^63 but do not fit in the data
    file the error is the [ValueError] of the mapping. *)
Theorem X9_init_errors_after_the_size_check
    headerfile file starttime h fields hf hs dt vs n dif fsp :
  _readheader "Q**LQ?**QQ*LLQQQddQ" headerfile = (Ok fields, hf) ->
  fields !! 0%nat = Some (VInt hs) ->
  fields !! 10%nat = Some (VStr dt) ->
  fields !! 12%nat = Some (VInt vs) ->
  fields !! 13%nat = Some (VInt n) ->
  fields !! 14%nat = Some (VInt dif) ->
  fields !! 15%nat = Some (VInt fsp) ->
  Z.of_nat (tell hf) - Z.of_nat (tell headerfile) = hs ->
  (dif <> (vs + 4) * n ->
   Channel.__init__ headerfile file starttime h = (Raise AssertionError, hf, h)) /\
  (dif = (vs + 4) * n -> dt ∉ map fst Channel.DATATYPES ->
   Channel.__init__ headerfile file starttime h = (Raise KeyError, hf, h)) /\
  (forall vt,
     dif = (vs + 4) * n -> dict_get Channel.DATATYPES dt = Some vt ->
     Z.of_nat (length file) < fsp + n * Z.of_nat (recordsize vt) < 2 ^ 63 ->
     Channel.__init__ headerfile file starttime h = (Raise ValueError, hf, h)).
Proof.
  intros E H0 H10 H12 H13 H14 H15 Hsize.
  destruct (channel_header_inv _ _ _ E) as (name & netId & sn & cm & dt' & Hinv).
  cbv zeta in Hinv. destruct Hinv as (-> & _).
  apply lookup_VInt_inv in H0, H12, H13, H14, H15. apply lookup_VStr_inv in H10.
  cbv beta iota zeta fix delta [lookup list_lookup] in H0, H10, H12, H13, H14, H15.
  subst hs dt' vs n dif fsp.
  rewrite (init_unfold _ _ _ _ _ _ _ _ _ _ _ _ _ _ _ _ _ _ _ _ _ _ _ _ E).
  rewrite Hsize, Z.eqb_refl. cbn [negb].
  split; [|split].
  - intros Hne. apply Z.eqb_neq in Hne. by rewrite Hne.
  - intros -> Hdt. rewrite Z.eqb_refl. cbn [negb].
    apply dict_get_None in Hdt. by rewrite Hdt.
  - intros vt -> Hdt [Hfit _]. rewrite Z.eqb_refl. cbn [negb]. rewrite Hdt.
    unfold np_memmap.
    set (G := Z.of_nat ALLOCATIONGRANULARITY).
    match goal with
    | |- context [?a + ?b * Z.of_nat (recordsize vt) - (?a - ?a mod G) =? 0] =>
        set (off := a) in *; set (cnt := b) in *
    end.
    assert (0 <= off) by (subst off; apply le_uint_bound).
    assert (0 <= cnt) by (subst cnt; apply le_uint_bound).
    assert (0 <= off mod G < G) as Hmod by (apply Z.mod_pos_bound; done).
    destruct (Z.eqb_spec (off + cnt * Z.of_nat (recordsize vt) - (off - off mod G)) 0).
    + destruct (Z.leb_spec (Z.of_nat (length file)) (off - off mod G)); [done | lia].
    + destruct (Z.ltb_spec (Z.of_nat (length file))
                  (off + cnt * Z.of_nat (recordsize vt))); [done | lia].
Qed.

Lemma X9_init_errors_after_the_size_check_witness :
  Channel.__init__ (BytesIO_of (sample_record 11 0)) sample_data 0 ∅
  = (Raise AssertionError, advance (BytesIO_of (sample_record 11 0)) 119, ∅) /\
  Channel.__init__ (BytesIO_of (named_record "a" "FLOAT" 0)) sample_data 0 ∅
  = (Raise KeyError, advance (BytesIO_of (named_record "a" "FLOAT" 0)) 119, ∅) /\
  Channel.__init__ (BytesIO_of (sample_record 10 1)) sample_data 0 ∅
  = (Raise ValueError, advance (BytesIO_of (sample_record 10 1)) 119, ∅).
Proof.
  split; [|split].
  - eapply (X9_init_errors_after_the_size_check
              (BytesIO_of (sample_record 11 0)) sample_data 0 ∅
              _ _ 119 "UINT8" 1 2 11 0);
      [vm_compute; reflexivity | reflexivity.. | discriminate].
  - eapply (X9_init_errors_after_the_size_check
              (BytesIO_of (named_record "a" "FLOAT" 0)) sample_data 0 ∅
              _ _ 119 "FLOAT" 1 2 10 0);
      [vm_compute; reflexivity | reflexivity.. |].
    vm_compute. intros H.
    repeat (apply elem_of_cons in H as [H|H]; [discriminate|]).
    by apply elem_of_nil in H.
  - eapply (X9_init_errors_after_the_size_check
              (BytesIO_of (sample_record 10 1)) sample_data 0 ∅
              _ _ 119 "UINT8" 1 2 10 1);
      [vm_compute; reflexivity | reflexivity.. | split; reflexivity].
Defined.

(** ** The arrays of a channel *)

Lemma init_mapped headerfile file starttime h ch hf h' :
  Channel.__init__ headerfile file starttime h = (Ok ch, hf, h') ->
  mapped file h' ch /\
  h' = <[fresh (dom h) := file]> h /\
  mm_base (Channel.Data ch) = fresh (dom h) /\
  mm_offset (Channel.Data ch) = Z.to_nat (Channel.FileStartPosition ch) /\
  dict_get Channel.DATATYPES (Channel.DataType ch)
  = Some (mm_values (Channel.Data ch)) /\
  Channel._time ch = None.
Proof.
  intros H. destruct (init_nonneg _ _ _ _ _ _ _ H) as [Hn Hoff].
  apply init_ok_inv in H as (st & vt & _ & _ & Hdt & Hmm & HT & HV & Hc).
  apply np_memmap_inv in Hmm as (-> & Hd & Hfit); [|done..].
  unfold mapped. rewrite Hd. cbn [mm_base mm_offset mm_shape mm_values].
  rewrite lookup_insert_eq, HT, HV, Hd.
  repeat split; try done. lia.
Qed.

Lemma mapped_readable file h ch :
  mapped file h ch ->
  let off := mm_offset (Channel.Data ch) in
  let n := mm_shape (Channel.Data ch) in
  let vt := mm_values (Channel.Data ch) in
  Channel.raw_timestamps h ch
  = Some (map (fun i => le_uint (take 4 (drop (off + i * recordsize vt) file)))
            (seq 0 n)) /\
  items h (Channel.Values ch)
  = Some (map (fun i => take (itemsize vt) (drop (off + 4 + i * recordsize vt) file))
            (seq 0 n)).
Proof.
  intros (HT & HV & Hbuf & _ & Hfit) off n vt.
  unfold Channel.raw_timestamps. rewrite HT, HV. split.
  - erewrite items_in_bounds; [|exact Hbuf|].
    + cbn [fmap option_fmap option_map field_Timestamp shape offset stride dtype itemsize].
      by rewrite map_map.
    + cbn [field_Timestamp shape offset stride dtype itemsize].
      intros i Hi. unfold recordsize in *. nia.
  - erewrite items_in_bounds; [|exact Hbuf|].
    + reflexivity.
    + cbn [field_Values shape offset stride dtype].
      intros i Hi. unfold recordsize in *. nia.
Qed.

(** Buffers that are added later do not disturb a channel. *)
Lemma mapped_mono file h h2 ch :
  mapped file h ch -> (forall l, l ∈ dom h -> h2 !! l = h !! l) -> mapped file h2 ch.
Proof.
  intros (HT & HV & Hbuf & Hn & Hfit) Hagree. repeat split; try done.
  rewrite Hagree; [done|]. apply elem_of_dom. by eexists.
Qed.

(** X10: the arrays of a built channel are windows on the data file:
    sample [i] has its raw timestamp in the four bytes at
    [FileStartPosition + i * (4 + size)] and its value in the [size]
    bytes after them, where [size] is the size of the type that
    [DATATYPES] gives for the data-type tag (not the VariableSize
    field), and all these bytes lie inside the file. *)
Theorem X10_channel_arrays_are_the_file_records
    headerfile file starttime h ch hf h' :
  Channel.__init__ headerfile file starttime h = (Ok ch, hf, h') ->
  exists vt,
    dict_get Channel.DATATYPES (Channel.DataType ch) = Some vt /\
    let off := Z.to_nat (Channel.FileStartPosition ch) in
    let n := Z.to_nat (Channel.SamplesInFile ch) in
    let rec := (4 + itemsize vt)%nat in
    (off + n * rec <= length file)%nat /\
    h' !! base (Channel.Values ch) = Some file /\
    base (Channel.Timestamp ch) = base (Channel.Values ch) /\
    Channel.raw_timestamps h' ch
    = Some (map (fun i => le_uint (take 4 (drop (off + i * rec) file))) (seq 0 n)) /\
    items h' (Channel.Values ch)
    = Some (map (fun i => take (itemsize vt) (drop (off + 4 + i * rec) file))
              (seq 0 n)).
Proof.
  intros H. apply init_mapped in H as (Hm & _ & _ & Hoff & Hdt & _).
  exists (mm_values (Channel.Data ch)). split; [done|].
  destruct (mapped_readable _ _ _ Hm) as [Hts Hvals].
  destruct Hm as (HT & HV & Hbuf & Hn & Hfit).
  cbv zeta in *. rewrite Hoff, Hn in *.
  split; [exact Hfit|]. split; [by rewrite HV|].
  split; [by rewrite HT, HV|]. split; [exact Hts | exact Hvals].
Qed.

Lemma X10_channel_arrays_are_the_file_records_witness :
  exists ch hf h',
    Channel.__init__ (BytesIO_of (sample_record 10 0)) sample_data 0 ∅
    = (Ok ch, hf, h') /\
    (exists vt,
       dict_get Channel.DATATYPES (Channel.DataType ch) = Some vt /\
       let off := Z.to_nat (Channel.FileStartPosition ch) in
       let n := Z.to_nat (Channel.SamplesInFile ch) in
       let rec := (4 + itemsize vt)%nat in
       (off + n * rec <= length sample_data)%nat /\
       h' !! base (Channel.Values ch) = Some sample_data /\
       base (Channel.Timestamp ch) = base (Channel.Values ch) /\
       Channel.raw_timestamps h' ch
       = Some (map (fun i => le_uint (take 4 (drop (off + i * rec) sample_data)))
                 (seq 0 n)) /\
       items h' (Channel.Values ch)
       = Some (map (fun i => take (itemsize vt)
                               (drop (off + 4 + i * rec) sample_data))
                 (seq 0 n))) /\
    Channel.raw_timestamps h' ch = Some [4294967290; 4] /\
    items h' (Channel.Values ch) = Some [[x07]; [x09]].
Proof.
  eexists _, _, _. split; [vm_compute; reflexivity|].
  split; [|split; vm_compute; reflexivity].
  apply (X10_channel_arrays_are_the_file_records
           (BytesIO_of (sample_record 10 0)) sample_data 0 ∅ _ _ _
           ltac:(vm_compute; reflexivity)).
Defined.

(** X11: the arrays of a built channel cannot be assigned to: the data
    file is mapped read-only, and an assignment to an element of
    [Values] or [Timestamp] raises [ValueError]. *)
Theorem X11_channel_arrays_are_read_only
    headerfile file starttime h ch hf h' i v :
  Channel.__init__ headerfile file starttime h = (Ok ch, hf, h') ->
  setitem h' (Channel.Values ch) i v = Raise ValueError /\
  setitem h' (Channel.Timestamp ch) i v = Raise ValueError.
Proof.
  intros H. apply init_mapped in H as ((HT & HV & _) & _).
  rewrite HT, HV. done.
Qed.

Lemma X11_channel_arrays_are_read_only_witness :
  exists ch hf h',
    Channel.__init__ (BytesIO_of (sample_record 10 0)) sample_data 0 ∅
    = (Ok ch, hf, h') /\
    setitem h' (Channel.Values ch) 0 [xff] = Raise ValueError.
Proof.
  eexists _, _, _. split; [vm_compute; reflexivity|].
  apply (X11_channel_arrays_are_read_only
           (BytesIO_of (sample_record 10 0)) sample_data 0 ∅ _ _ _ 0 [xff]
           ltac:(vm_compute; reflexivity)).
Defined.

(** X12: [__init__] does not touch the buffers that are on the heap;
    when it fails the heap is as it was, and when it succeeds the heap
    has one more buffer, a mapping of the data file, which is the one
    the arrays of the channel look into. *)
Theorem X12_init_adds_one_mapping headerfile file starttime h :
  (forall l, l ∈ dom h ->
     (Channel.__init__ headerfile file starttime h).2 !! l = h !! l) /\
  match Channel.__init__ headerfile file starttime h with
  | (Raise _, _, h') => h' = h
  | (Ok ch, _, h') =>
      h' = <[fresh (dom h) := file]> h /\ (fresh (dom h) ∉ dom h) /\
      base (Channel.Values ch) = fresh (dom h) /\
      base (Channel.Timestamp ch) = fresh (dom h)
  end.
Proof.
  destruct (init_cases headerfile file starttime h)
    as [(e & hf & E)|(ch & hf & h' & E)]; rewrite E; cbn [snd].
  - done.
  - apply init_mapped in E as ((HT & HV & _) & -> & Hb & _).
    pose proof (is_fresh (dom h)) as Hfresh.
    rewrite HT, HV. cbn [field_Timestamp field_Values base].
    split; [|done].
    intros l Hl. apply lookup_insert_ne. by intros <-.
Qed.

(** ** The time axis of a channel *)

Lemma Time_cached h ch r :
  Channel._time ch = Some r -> Channel.Time h ch = (Ok r, ch).
Proof. intros H. unfold Channel.Time. by rewrite H. Qed.

(** X13: the time axis is computed once: after a successful [Time] the
    channel holds the axis in [_time], and every later [Time] returns
    that same axis whatever the heap holds by then; a [Time] that
    raises leaves the channel as it was, so that nothing is cached. *)
Theorem X13_Time_is_computed_once h ch :
  match Channel.Time h ch with
  | (Ok tm, ch1) =>
      Channel._time ch1 = Some tm /\
      (forall h2, Channel.Time h2 ch1 = (Ok tm, ch1)) /\
      Channel.Values ch1 = Channel.Values ch /\
      Channel.Timestamp ch1 = Channel.Timestamp ch
  | (Raise _, ch1) => ch1 = ch
  end.
Proof.
  unfold Channel.Time at 1.
  destruct (Channel._time ch) as [r|] eqn:Hc.
  { split; [done|]. split; [|done]. intros h2. by apply Time_cached. }
  destruct (Channel.raw_timestamps h ch) as [ts|]; [|done].
  destruct (Time_of ts) as [r|e]; [|done].
  split; [done|]. split; [|done]. intros h2. by apply Time_cached.
Qed.

Lemma Time_of_head t0 rest r :
  Time_of (t0 :: rest) = Ok r -> r !! 0%nat = Some (float_of_Z t0 / 1e7)%float.
Proof.
  unfold Time_of, Time_ticks. intros H. apply Ok_inj in H as <-. reflexivity.
Qed.

(** X14: a built channel with at least one sample has a time axis with
    one element for each sample, and its first element is the first raw
    timestamp of the file divided by 1e7. *)
Theorem X14_Time_of_a_built_channel headerfile file starttime h ch hf h' :
  Channel.__init__ headerfile file starttime h = (Ok ch, hf, h') ->
  0 < Channel.SamplesInFile ch ->
  exists tm,
    Channel.Time h' ch = (Ok tm, Channel.set_time ch tm) /\
    length tm = Z.to_nat (Channel.SamplesInFile ch) /\
    tm !! 0%nat
    = Some (float_of_Z
              (le_uint (take 4 (drop (Z.to_nat (Channel.FileStartPosition ch)) file)))
            / 1e7)%float.
Proof.
  intros H Hpos.
  apply init_mapped in H as (Hm & _ & _ & Hoff & _ & Hcache).
  destruct (mapped_readable _ _ _ Hm) as [Hts _].
  destruct Hm as (_ & _ & _ & Hn & _). cbv zeta in Hts.
  rewrite Hoff, Hn in Hts.
  destruct (Z.to_nat (Channel.SamplesInFile ch)) as [|n] eqn:En; [lia|].
  cbn [seq map] in Hts. rewrite Nat.mul_0_l, Nat.add_0_r in Hts.
  unfold Channel.Time. rewrite Hcache, Hts.
  match goal with
  | |- context [Time_of (?t0 :: ?rest)] =>
      destruct (Time_of (t0 :: rest)) as [r|e] eqn:E; [|discriminate]
  end.
  exists r. split; [done|]. split.
  - apply Time_of_length in E. rewrite E. cbn [length].
    by rewrite length_map, length_seq.
  - by apply Time_of_head in E.
Qed.

Lemma X14_Time_of_a_built_channel_witness :
  exists ch hf h' tm,
    Channel.__init__ (BytesIO_of (sample_record 10 0)) sample_data 0 ∅
    = (Ok ch, hf, h') /\
    Channel.Time h' ch = (Ok tm, Channel.set_time ch tm) /\
    length tm = 2%nat /\
    tm !! 0%nat = Some (4294967290 / 1e7)%float.
Proof.
  eexists _, _, _.
  match goal with
  | |- exists tm, ?A /\ _ =>
      assert A as Hinit by (vm_compute; reflexivity)
  end.
  destruct (X14_Time_of_a_built_channel _ _ _ _ _ _ _ Hinit)
    as (tm & HT & Hlen & Hhead); [reflexivity|].
  exists tm. split; [exact Hinit|]. split; [exact HT|].
  split; [exact Hlen|].
  etransitivity; [exact Hhead | vm_compute; reflexivity].
Defined.

(** X15: a built channel without samples has no time axis: [Time]
    raises [IndexError], and so does [interpolate] for every axis it is
    given; the channel and the heap stay as they are. *)
Theorem X15_no_samples_no_time_axis
    headerfile file starttime h ch hf h' np_interp tq :
  Channel.__init__ headerfile file starttime h = (Ok ch, hf, h') ->
  Channel.SamplesInFile ch = 0 ->
  Channel.Time h' ch = (Raise IndexError, ch) /\
  Channel.interpolate np_interp ch tq h' = (Raise IndexError, ch, h').
Proof.
  intros H Hzero. pose proof (init_Time_empty _ _ _ _ _ _ _ H Hzero) as HT.
  split; [exact HT|]. unfold Channel.interpolate. by rewrite HT.
Qed.

Lemma X15_no_samples_no_time_axis_witness :
  exists ch hf h',
    Channel.__init__ (BytesIO_of (empty_record 0)) sample_data 0 ∅
    = (Ok ch, hf, h') /\
    Channel.Time h' ch = (Raise IndexError, ch) /\
    Channel.interpolate (fun _ _ _ _ => Raise ValueError) ch [] h'
    = (Raise IndexError, ch, h').
Proof.
  eexists _, _, _.
  match goal with
  | |- ?A /\ _ => assert A as Hinit by (vm_compute; reflexivity)
  end.
  split; [exact Hinit|].
  apply (X15_no_samples_no_time_axis _ _ _ _ _ _ _ _ _ Hinit). reflexivity.
Defined.

Lemma np_diff_uint32_wrapped T :
  np_diff_uint32 (map (fun x => x mod 2 ^ 32) T)
  = map (fun d => d mod 2 ^ 32) (diffs T).
Proof.
  induction T as [|a [|b r] IH]; [done..|].
  cbn [map np_diff_uint32 diffs] in *. rewrite IH. f_equal.
  rewrite <- Zminus_mod. done.
Qed.

(** X16: the wrapping differences undo the wrap of the counter: for
    tick counts that never go back and never advance by 2^32 or more
    between two samples, the differences of the counts reduced modulo
    2^32 are the differences of the counts themselves; and whatever the
    raw timestamps are, each difference lies in [0, 2^32). *)
Theorem X16_wrapping_differences_recover_the_steps T :
  (Forall (fun d => 0 <= d < 2 ^ 32) (diffs T) ->
   np_diff_uint32 (map (fun x => x mod 2 ^ 32) T) = diffs T) /\
  Forall (fun d => 0 <= d < 2 ^ 32) (np_diff_uint32 T).
Proof.
  split; [|apply np_diff_uint32_range].
  intros H. rewrite np_diff_uint32_wrapped.
  induction H as [|d ds Hd _ IH]; [done|].
  cbn [map]. rewrite IH. f_equal. apply Z.mod_small. exact Hd.
Qed.

Lemma X16_wrapping_differences_recover_the_steps_witness :
  np_diff_uint32 (map (fun x => x mod 2 ^ 32)
                    [4294967290; 4294967295; 4294967301; 4294967306])
  = [5; 6; 5] /\
  Forall (fun d => 0 <= d < 2 ^ 32) (np_diff_uint32 [4294967290; 4]).
Proof.
  split.
  - apply (proj1 (X16_wrapping_differences_recover_the_steps
                    [4294967290; 4294967295; 4294967301; 4294967306])).
    repeat constructor; discriminate.
  - apply (proj2 (X16_wrapping_differences_recover_the_steps [4294967290; 4])).
Defined.

(** ** [interpolate] *)

Lemma np_all_eq_single tq y :
  Forall (fun x => (x =? y)%float = true) tq -> Channel.np_all_eq tq [y] = true.
Proof.
  intros H. unfold Channel.np_all_eq.
  assert (forallb (fun x => (x =? y)%float) tq = true) as Hall.
  { induction H as [|x tq Hx _ IH]; [done|]. cbn. by rewrite Hx, IH. }
  destruct tq as [|x1 [|x2 tq]]; cbn [length Nat.eqb]; [done | | done].
  cbn. apply Forall_cons in H as [-> _]. done.
Qed.

(** X17: for a channel whose time axis has a single element, every axis
    whose elements all equal that element takes the short-cut, also an
    empty axis and an axis with several elements (the comparison
    broadcasts): the result is the one stored value, not one value for
    each element of the axis. *)
Theorem X17_interpolate_broadcasts_a_single_sample
    np_interp ch tq h y ch1 vals :
  Channel.Time h ch = (Ok [y], ch1) ->
  items h (Channel.Values ch) = Some vals ->
  Forall (fun x => (x =? y)%float = true) tq ->
  exists r h',
    Channel.interpolate np_interp ch tq h = (Ok r, ch1, h') /\
    items h' r = Some vals /\
    shape r = shape (Channel.Values ch).
Proof.
  intros HT Hv Heq. unfold Channel.interpolate. rewrite HT. cbv beta iota.
  rewrite (np_all_eq_single _ _ Heq).
  destruct (Time_arrays _ _ _ _ HT) as [HV _]. rewrite HV.
  rewrite (np_array_spec _ _ _ Hv). eexists _, _. split; [done|].
  destruct (items_shape _ _ _ Hv) as [Hlen Hall].
  rewrite <- Hlen. split; [by apply items_contiguous | done].
Qed.

Lemma X17_interpolate_broadcasts_a_single_sample_witness :
  exists ch hf h,
    Channel.__init__ (BytesIO_of (single_sample_record 0)) sample_data 0 ∅
    = (Ok ch, hf, h) /\
    (exists r h',
       Channel.interpolate (fun _ _ _ _ => Raise ValueError) ch [] h
       = (Ok r, Channel.set_time ch [4294967290 / 1e7]%float, h') /\
       items h' r = Some [[x07]] /\ shape r = 1%nat) /\
    (exists r h',
       Channel.interpolate (fun _ _ _ _ => Raise ValueError) ch
         [4294967290 / 1e7; 4294967290 / 1e7; 4294967290 / 1e7]%float h
       = (Ok r, Channel.set_time ch [4294967290 / 1e7]%float, h') /\
       items h' r = Some [[x07]] /\ shape r = 1%nat).
Proof.
  eexists _, _, _. split; [vm_compute; reflexivity|].
  split.
  - match goal with
    | |- exists r h', Channel.interpolate ?f ?ch ?tq ?h = _ /\ _ =>
        edestruct (X17_interpolate_broadcasts_a_single_sample f ch tq h)
          as (r & h' & Hi & Hitems & Hshape);
          [vm_compute; reflexivity | vm_compute; reflexivity | constructor |]
    end.
    exists r, h'. split; [exact Hi|]. split; [exact Hitems | exact Hshape].
  - match goal with
    | |- exists r h', Channel.interpolate ?f ?ch ?tq ?h = _ /\ _ =>
        edestruct (X17_interpolate_broadcasts_a_single_sample f ch tq h)
          as (r & h' & Hi & Hitems & Hshape);
          [vm_compute; reflexivity | vm_compute; reflexivity
          | repeat (constructor; [vm_compute; reflexivity|]); constructor |]
    end.
    exists r, h'. split; [exact Hi|]. split; [exact Hitems | exact Hshape].
Defined.

(** X18: [interpolate] never changes a buffer that is on the heap and
    never changes the arrays of the channel, on the short-cut or not,
    whether it returns or raises; when it raises the heap is as it was,
    and when it returns the result is a writeable array in a buffer
    that did not exist before. *)
Theorem X18_interpolate_only_adds_its_result np_interp ch tq h :
  match Channel.interpolate np_interp ch tq h with
  | (r, ch', h') =>
      (forall l, l ∈ dom h -> h' !! l = h !! l) /\
      Channel.Values ch' = Channel.Values ch /\
      Channel.Timestamp ch' = Channel.Timestamp ch /\
      match r with
      | Raise _ => h' = h
      | Ok a =>
          base a = fresh (dom h) /\ (base a ∉ dom h) /\ writeable a = true /\
          exists buf, h' = <[base a := buf]> h
      end
  end.
Proof.
  pose proof (is_fresh (dom h)) as Hfresh.
  assert (forall buf l, l ∈ dom h -> <[fresh (dom h) := buf]> h !! l = h !! l)
    as Hframe.
  { intros buf l Hl. apply lookup_insert_ne. by intros <-. }
  unfold Channel.interpolate.
  destruct (Channel.Time h ch) as [[tm|e] ch1] eqn:HT;
    destruct (Time_arrays _ _ _ _ HT) as [HV HTs]; [|done].
  destruct (Channel.np_all_eq tq tm).
  - destruct (np_array h (Channel.Values ch1)) as [[h1 r]|e] eqn:E; [|done].
    apply np_array_inv in E as (els & _ & -> & ->). cbn [base writeable].
    repeat split; try done; [by apply Hframe | by eexists].
  - destruct (items h (Channel.Values ch1)) as [fp|]; [|done].
    destruct (np_interp tq tm _ fp) as [bs|e]; [|done].
    cbn [base writeable].
    repeat split; try done; [by apply Hframe | by eexists].
Qed.

(** ** The dictionary of channels *)

Lemma dict_get_set {V} (d : list (string * V)) k v k' :
  dict_get (dict_set d k v) k' = if decide (k = k') then Some v else dict_get d k'.
Proof.
  induction d as [|[k0 v0] d IH]; cbn.
  - by destruct (decide (k = k')).
  - destruct (decide (k0 = k)) as [->|Hk0]; cbn.
    + by destruct (decide (k = k')).
    + destruct (decide (k0 = k')) as [->|Hk0'].
      * by rewrite decide_False by done.
      * exact IH.
Qed.

Lemma keys_dict_set {V} (d : list (string * V)) k v :
  map fst (dict_set d k v)
  = if decide (k ∈ map fst d) then map fst d else map fst d ++ [k].
Proof.
  induction d as [|[k0 v0] d IH]; cbn.
  - rewrite decide_False; [done | apply not_elem_of_nil].
  - destruct (decide (k0 = k)) as [->|Hk0]; cbn.
    + rewrite decide_True; [done | apply elem_of_cons; by left].
    + rewrite IH. destruct (decide (k ∈ map fst d)) as [Hin|Hin].
      * rewrite decide_True; [done | apply elem_of_cons; by right].
      * rewrite decide_False; [done|].
        rewrite not_elem_of_cons. split; [by intros -> | done].
Qed.

Lemma dict_get_is_Some {V} (d : list (string * V)) k :
  is_Some (dict_get d k) <-> k ∈ map fst d.
Proof.
  destruct (dict_get d k) as [v|] eqn:E.
  - split; [intros _ | by eexists].
    destruct (decide (k ∈ map fst d)) as [|Hn]; [done|].
    apply dict_get_None in Hn. congruence.
  - apply dict_get_None in E. split; [by intros [? [=]] | done].
Qed.

Lemma keys_assign_all d chs :
  map fst (assign_all d chs) = first_seen (map fst d) (map Channel.Name chs).
Proof.
  revert d. induction chs as [|ch chs IH]; intros d; [done|].
  cbn [assign_all first_seen foldl map]. fold (assign_all (dict_set d (Channel.Name ch) ch) chs).
  rewrite IH, keys_dict_set. done.
Qed.

Lemma dict_get_assign_all d chs k :
  dict_get (assign_all d chs) k
  = match last (filter (fun ch => Channel.Name ch = k) chs) with
    | Some ch => Some ch
    | None => dict_get d k
    end.
Proof.
  revert d. induction chs as [|ch chs IH]; intros d; [done|].
  cbn [assign_all foldl]. fold (assign_all (dict_set d (Channel.Name ch) ch) chs).
  rewrite IH, dict_get_set, filter_cons.
  destruct (decide (Channel.Name ch = k)) as [Hk|Hk]; [|done].
  rewrite last_cons. by destruct (last _).
Qed.

Lemma first_seen_NoDup ks names : NoDup ks -> NoDup (first_seen ks names).
Proof.
  revert ks. induction names as [|k names IH]; intros ks Hks; [done|].
  cbn [first_seen foldl]. apply IH.
  destruct (decide (k ∈ ks)) as [|Hn]; [done|].
  apply NoDup_app. split; [done|]. split; [|apply NoDup_singleton].
  intros x Hx Hx'. apply list_elem_of_singleton in Hx'. by subst.
Qed.

Lemma first_seen_length ks names :
  (length ks <= length (first_seen ks names) <= length ks + length names)%nat.
Proof.
  revert ks. induction names as [|k names IH]; intros ks; [cbn; lia|].
  cbn [first_seen foldl length].
  destruct (decide (k ∈ ks)).
  - specialize (IH ks). unfold first_seen in IH. lia.
  - specialize (IH (ks ++ [k])). unfold first_seen in IH.
    rewrite length_app in IH. cbn in IH. lia.
Qed.

Lemma first_seen_elem ks names k :
  k ∈ first_seen ks names <-> k ∈ ks \/ k ∈ names.
Proof.
  revert ks. induction names as [|k0 names IH]; intros ks.
  - cbn. split; [by left | intros [?|H]; [done | by apply elem_of_nil in H]].
  - cbn [first_seen foldl]. fold (first_seen (if decide (k0 ∈ ks) then ks else ks ++ [k0]) names).
    rewrite IH, elem_of_cons.
    destruct (decide (k0 ∈ ks)) as [Hin|Hin].
    + split; [intros [?|?]; auto | intros [?|[->|?]]; auto].
    + rewrite elem_of_app, list_elem_of_singleton.
      split; [intros [[?|?]|?]; auto | intros [?|[?|?]]; auto].
Qed.

(** ** Reading the channel records of a file *)

Lemma read_channels_inv n :
  forall header file starttime acc h chs header' h',
    SVBFile.read_channels n header file starttime acc h = (Ok chs, header', h') ->
    exists decoded,
      length decoded = n /\
      chs = assign_all acc decoded /\
      getvalue header' = getvalue header /\
      position header' = (position header + sum_list (map record_bytes decoded))%nat /\
      ((position header <= length (getvalue header))%nat ->
       (position header' <= length (getvalue header))%nat) /\
      (forall l, l ∈ dom h -> h' !! l = h !! l) /\
      Forall (mapped file h') decoded /\
      Forall (fun ch => Channel._time ch = None) decoded.
Proof.
  induction n as [|n IH]; intros header file starttime acc h chs header' h' H.
  - cbn in H. injection H as <- <- <-. exists []. cbn.
    repeat split; try done; lia.
  - cbn [SVBFile.read_channels] in H.
    destruct (Channel.__init__ header file starttime h) as [[[ch|e] header1] h1] eqn:E;
      [|discriminate].
    apply IH in H as (decoded & Hlen & -> & Hv & Hp & Hle & Hframe & Hmapped & Hcache).
    pose proof (init_layout _ _ _ _ _ _ _ E) as Hlay. cbv zeta in Hlay.
    destruct Hlay as (Hv1 & Hp1 & Hle1 & _).
    apply init_mapped in E as (Hm & -> & _ & _ & _ & Hc).
    pose proof (is_fresh (dom h)) as Hfresh.
    exists (ch :: decoded). cbn [length map].
    change (sum_list (record_bytes ch :: map record_bytes decoded))
      with (record_bytes ch + sum_list (map record_bytes decoded))%nat.
    rewrite Hv1 in *.
    split; [by rewrite Hlen|]. split; [done|]. split; [done|].
    split; [unfold record_bytes at 1; lia|]. split; [intros _; apply Hle; lia|].
    split.
    { intros l Hl. rewrite Hframe.
      - apply lookup_insert_ne. by intros <-.
      - rewrite dom_insert_L. apply elem_of_union. by right. }
    split; constructor; try done.
    eapply mapped_mono; [exact Hm | exact Hframe].
Qed.

(** What a successfully opened file is made of. *)
Lemma svb_init_inv file h svb h1 :
  SVBFile.__init__ file h = (Ok svb, h1) ->
  exists decoded,
    length (take 8 file) = 8%nat /\
    7 <= le_uint (take 8 file) /\
    length decoded = Z.to_nat (SVBFile.ChannelCount svb) /\
    0 <= SVBFile.ChannelCount svb /\
    SVBFile._channels svb = assign_all [] decoded /\
    length (if le_uint (take 8 file) - 8 =? -1 then drop 8 file
            else take (Z.to_nat (le_uint (take 8 file) - 8)) (drop 8 file))
    = (24 + String.length (SVBFile.Name svb)
       + sum_list (map record_bytes decoded))%nat /\
    (forall l, l ∈ dom h -> h1 !! l = h !! l) /\
    Forall (mapped file h1) decoded /\
    Forall (fun ch => Channel._time ch = None) decoded.
Proof.
  unfold SVBFile.__init__. unfold unpack_int, unpack. cbn [calcsize].
  destruct (length (take 8 file) =? 8)%nat eqn:E8; cbn [negb]; [|discriminate].
  apply Nat.eqb_eq in E8. cbv beta iota.
  set (headerSize := le_uint (take 8 file)).
  destruct (Z.ltb_spec (headerSize - 8) (-1)) as [|Hhs]; [discriminate|].
  set (hb := if headerSize - 8 =? -1 then drop 8 file
             else take (Z.to_nat (headerSize - 8)) (drop 8 file)).
  destruct (_readheader "*TTL" _) as [[fields|e] hdr] eqn:E; [|discriminate].
  destruct (file_header_inv _ _ _ E) as (name & d1 & d2 & Hinv).
  cbv zeta in Hinv. destruct Hinv as (-> & -> & L & _ & _).
  cbv beta iota.
  destruct (SVBFile.read_channels _ _ _ _ _ _) as [[[chs|e] hdr'] h2] eqn:Erc;
    [|discriminate].
  apply read_channels_inv in Erc
    as (decoded & Hlen & -> & Hv & Hp & Hle & Hframe & Hmapped & Hcache).
  apply chunk_full_bound in L as [?|L]; [done|].
  rewrite ?position_advance, ?getvalue_advance in *. cbn [position getvalue] in *.
  specialize (Hle ltac:(lia)).
  unfold read. rewrite Hv.
  destruct (take 1 (drop (position hdr') hb)) as [|x xs] eqn:Eend; [|discriminate].
  intros H. apply pair_eq_inv in H as [<- <-].
  cbn [SVBFile.Name SVBFile.ChannelCount SVBFile._channels].
  assert (length hb <= position hdr')%nat as Hend.
  { apply (f_equal length) in Eend.
    rewrite length_take, length_drop in Eend. cbn [length] in Eend. lia. }
  exists decoded. split; [done|]. split; [lia|].
  split; [done|]. split; [apply le_uint_bound|]. split; [done|].
  split; [lia|]. done.
Qed.

(** ** An opened file *)

Lemma getitem_inv svb k ch :
  SVBFile.__getitem__ svb k = Ok ch -> dict_get (SVBFile._channels svb) k = Some ch.
Proof.
  unfold SVBFile.__getitem__. destruct (dict_get _ _); [|done].
  intros H. by apply Ok_inj in H as ->.
Qed.

Lemma assign_all_lookup_elem decoded k ch :
  dict_get (assign_all [] decoded) k = Some ch ->
  ch ∈ decoded /\ Channel.Name ch = k.
Proof.
  rewrite dict_get_assign_all.
  destruct (last _) as [c|] eqn:E; [|done]. intros [= ->].
  apply last_Some_elem_of, list_elem_of_filter in E as [Hk Hin]. done.
Qed.

(** X19: every channel that the mapping of an opened file gives for a
    name carries that name, has no time axis cached yet, and looks into
    a mapping of the file that is on the heap: its raw timestamps and
    its values can be read, one for each sample. *)
Theorem X19_channels_of_an_opened_file_are_readable file h svb h1 k ch :
  SVBFile.__init__ file h = (Ok svb, h1) ->
  SVBFile.__getitem__ svb k = Ok ch ->
  Channel.Name ch = k /\
  Channel._time ch = None /\
  h1 !! base (Channel.Values ch) = Some file /\
  exists ts vals,
    Channel.raw_timestamps h1 ch = Some ts /\
    items h1 (Channel.Values ch) = Some vals /\
    length ts = Z.to_nat (Channel.SamplesInFile ch) /\
    length vals = Z.to_nat (Channel.SamplesInFile ch).
Proof.
  intros Hinit Hget.
  apply svb_init_inv in Hinit
    as (decoded & _ & _ & _ & _ & Hch & _ & _ & Hmapped & Hcache).
  apply getitem_inv in Hget. rewrite Hch in Hget.
  apply assign_all_lookup_elem in Hget as [Hin Hname].
  rewrite Forall_forall in Hmapped, Hcache.
  specialize (Hmapped _ Hin). specialize (Hcache _ Hin).
  destruct (mapped_readable _ _ _ Hmapped) as [Hts Hvals].
  destruct Hmapped as (_ & HV & Hbuf & Hn & _).
  split; [done|]. split; [done|]. split; [by rewrite HV|].
  eexists _, _. split; [exact Hts|]. split; [exact Hvals|].
  rewrite !length_map, !length_seq. done.
Qed.

Lemma X19_channels_of_an_opened_file_are_readable_witness :
  exists svb h1 ch,
    SVBFile.__init__ dup_file ∅ = (Ok svb, h1) /\
    SVBFile.__getitem__ svb "b" = Ok ch /\
    Channel.Name ch = "b"%string /\
    h1 !! base (Channel.Values ch) = Some dup_file.
Proof.
  eexists _, _, _.
  match goal with
  | |- ?A /\ ?B /\ _ =>
      assert A as Hinit by (vm_compute; reflexivity);
      assert B as Hget by (vm_compute; reflexivity)
  end.
  split; [exact Hinit|]. split; [exact Hget|].
  destruct (X19_channels_of_an_opened_file_are_readable _ _ _ _ _ _ Hinit Hget)
    as (Hname & _ & Hbuf & _).
  split; [exact Hname | exact Hbuf].
Defined.

(** X20: the names that an opened file iterates over are pairwise
    different, there are at most as many as the channel count field
    says, and at least one when that count is not zero. *)
Theorem X20_names_of_an_opened_file_are_distinct file h svb h1 :
  SVBFile.__init__ file h = (Ok svb, h1) ->
  NoDup (SVBFile.__iter__ svb) /\
  (SVBFile.__len__ svb <= Z.to_nat (SVBFile.ChannelCount svb))%nat /\
  (0 < SVBFile.ChannelCount svb -> (0 < SVBFile.__len__ svb)%nat).
Proof.
  intros Hinit.
  apply svb_init_inv in Hinit as (decoded & _ & _ & Hlen & _ & Hch & _).
  unfold SVBFile.__iter__, SVBFile.__len__.
  rewrite <- (length_map fst), Hch, keys_assign_all. cbn [map].
  split; [apply first_seen_NoDup, NoDup_nil_2|].
  pose proof (first_seen_length [] (map Channel.Name decoded)) as Hb.
  rewrite length_map in Hb. cbn [length] in Hb.
  split; [lia|]. intros Hpos.
  destruct decoded as [|ch decoded]; [cbn in Hlen; lia|].
  assert (Channel.Name ch ∈ first_seen [] (map Channel.Name (ch :: decoded))) as Hin.
  { apply first_seen_elem. right. cbn. apply elem_of_cons. by left. }
  destruct (first_seen [] (map Channel.Name (ch :: decoded))) as [|x l];
    [by apply elem_of_nil in Hin | cbn; lia].
Qed.

Lemma X20_names_of_an_opened_file_are_distinct_witness :
  exists svb h1,
    SVBFile.__init__ dup_file ∅ = (Ok svb, h1) /\
    SVBFile.ChannelCount svb = 3 /\
    NoDup (SVBFile.__iter__ svb) /\
    (SVBFile.__len__ svb <= 3)%nat.
Proof.
  eexists _, _.
  match goal with
  | |- ?A /\ _ => assert A as Hinit by (vm_compute; reflexivity)
  end.
  split; [exact Hinit|]. split; [reflexivity|].
  destruct (X20_names_of_an_opened_file_are_distinct _ _ _ _ Hinit)
    as (Hnd & Hlen & _).
  split; [exact Hnd | exact Hlen].
Defined.

(** X21: looking a name up succeeds exactly for the names that
    iteration gives, and raises [KeyError] for every other name. *)
Theorem X21_lookup_agrees_with_iteration svb k :
  (k ∈ SVBFile.__iter__ svb <-> exists ch, SVBFile.__getitem__ svb k = Ok ch) /\
  (k ∉ SVBFile.__iter__ svb <-> SVBFile.__getitem__ svb k = Raise KeyError).
Proof.
  unfold SVBFile.__iter__, SVBFile.__getitem__.
  pose proof (dict_get_is_Some (SVBFile._channels svb) k) as HS.
  pose proof (dict_get_None (SVBFile._channels svb) k) as HN.
  destruct (dict_get (SVBFile._channels svb) k) as [ch|].
  - split.
    + split; [by eexists | intros _; apply HS; by eexists].
    + split; [|done]. intros Hn. exfalso. apply Hn, HS. by eexists.
  - split.
    + split; [|by intros [? [=]]]. intros Hin. apply HS in Hin as [? [=]].
    + split; [done | intros _; by apply HN].
Qed.

(** The records of a header determine the channels. *)
Lemma records_at_unique header file starttime chs :
  forall p h chs',
    records_at header file starttime p h chs ->
    records_at header file starttime p h chs' ->
    length chs = length chs' -> chs = chs'.
Proof.
  induction chs as [|ch chs IH]; intros p h [|ch' chs'] H H' Hlen;
    try done.
  destruct H as [E H], H' as [E' H'].
  rewrite E in E'. apply triple_eq_inv in E' as (<- & _ & _).
  f_equal. eapply IH; [exact H | exact H' | by injection Hlen].
Qed.

(** Where [__init__] leaves the header stream and the heap. *)
Lemma init_stream headerfile file starttime h ch hf h' :
  Channel.__init__ headerfile file starttime h = (Ok ch, hf, h') ->
  hf = {| getvalue := getvalue headerfile;
          position := position headerfile + record_bytes ch |} /\
  h' = <[fresh (dom h) := file]> h.
Proof.
  intros E.
  pose proof (init_layout _ _ _ _ _ _ _ E) as Hlay. cbv zeta in Hlay.
  destruct Hlay as (Hv & Hp & _).
  pose proof (init_mapped _ _ _ _ _ _ _ E) as (_ & Hh & _).
  split; [|done]. destruct hf as [buf p]. cbn [getvalue position] in Hv, Hp.
  f_equal; [done|]. unfold record_bytes. lia.
Qed.

Lemma read_channels_records n :
  forall header file starttime acc h chs header' h',
    SVBFile.read_channels n header file starttime acc h = (Ok chs, header', h') ->
    exists decoded,
      length decoded = n /\
      chs = assign_all acc decoded /\
      records_at (getvalue header) file starttime (position header) h decoded /\
      getvalue header' = getvalue header /\
      position header' = (position header + sum_list (map record_bytes decoded))%nat.
Proof.
  induction n as [|n IH]; intros header file starttime acc h chs header' h' H.
  - cbn in H. injection H as <- <- <-. exists []. cbn.
    repeat split; try done; lia.
  - cbn [SVBFile.read_channels] in H.
    destruct (Channel.__init__ header file starttime h) as [[[ch|e] header1] h1] eqn:E;
      [|discriminate].
    destruct (init_stream _ _ _ _ _ _ _ E) as [-> ->].
    apply IH in H as (decoded & Hlen & -> & Hrec & Hv & Hp).
    cbn [getvalue position] in Hrec, Hv, Hp.
    exists (ch :: decoded). cbn [length map records_at].
    change (sum_list (record_bytes ch :: map record_bytes decoded))
      with (record_bytes ch + sum_list (map record_bytes decoded))%nat.
    split; [by rewrite Hlen|]. split; [done|].
    split; [|split; [done | lia]].
    split; [|exact Hrec]. by destruct header.
Qed.

Lemma records_at_end header file starttime chs :
  forall p h,
    records_at header file starttime p h chs ->
    (p <= length header)%nat ->
    (p + sum_list (map record_bytes chs) <= length header)%nat.
Proof.
  induction chs as [|ch chs IH]; intros p h H Hp; [cbn; lia|].
  destruct H as [E H].
  pose proof (init_layout _ _ _ _ _ _ _ E) as Hlay. cbv zeta in Hlay.
  destruct Hlay as (_ & _ & Hle & _). cbn [getvalue position] in Hle.
  apply IH in H; [|exact Hle].
  change (sum_list (map record_bytes (ch :: chs)))
    with (record_bytes ch + sum_list (map record_bytes chs))%nat. lia.
Qed.

(** An opened file, tied to the bytes it was decoded from. *)
Lemma svb_init_records file h svb h1 :
  SVBFile.__init__ file h = (Ok svb, h1) ->
  exists decoded,
    decoded_header file h svb decoded /\
    SVBFile._channels svb = assign_all [] decoded /\
    length (header_region file)
    = (24 + String.length (SVBFile.Name svb)
       + sum_list (map record_bytes decoded))%nat.
Proof.
  unfold SVBFile.__init__. unfold unpack_int, unpack. cbn [calcsize].
  destruct (length (take 8 file) =? 8)%nat eqn:E8; cbn [negb]; [|discriminate].
  apply Nat.eqb_eq in E8. cbv beta iota.
  set (headerSize := le_uint (take 8 file)).
  destruct (Z.ltb_spec (headerSize - 8) (-1)) as [|Hhs]; [discriminate|].
  set (hb := if headerSize - 8 =? -1 then drop 8 file
             else take (Z.to_nat (headerSize - 8)) (drop 8 file)).
  assert (header_region file = hb) as Hhb by reflexivity.
  fold (BytesIO_of hb).
  destruct (_readheader "*TTL" _) as [[fields|e] hdr] eqn:E; [|discriminate].
  destruct (file_header_inv _ _ _ E) as (name & d1 & d2 & Hinv).
  cbv zeta in Hinv. destruct Hinv as (-> & -> & L & _ & _).
  cbv beta iota.
  destruct (SVBFile.read_channels _ _ _ _ _ _) as [[[chs|e] hdr'] h2] eqn:Erc;
    [|discriminate].
  apply read_channels_records in Erc as (decoded & Hlen & -> & Hrec & Hv & Hp).
  apply chunk_full_bound in L as [?|L]; [done|].
  rewrite ?position_advance, ?getvalue_advance in *.
  cbn [position getvalue BytesIO_of] in *.
  unfold read. rewrite Hv.
  destruct (take 1 (drop (position hdr') hb)) as [|x xs] eqn:Eend; [|discriminate].
  intros H. apply pair_eq_inv in H as [<- <-].
  cbn [SVBFile.Name SVBFile.ChannelCount SVBFile._channels].
  assert (length hb <= position hdr')%nat as Hend.
  { apply (f_equal length) in Eend.
    rewrite length_take, length_drop in Eend. cbn [length] in Eend. lia. }
  assert (advance (advance (advance (advance (advance (BytesIO_of hb) 4)
                     (String.length name)) 8) 8) 4
          = {| getvalue := hb; position := 24 + String.length name |}) as Hadv.
  { unfold advance, BytesIO_of. cbn [getvalue position]. f_equal. lia. }
  exists decoded. unfold decoded_header. rewrite Hhb. split; [|split; [done|]].
  - cbn [SVBFile.Name SVBFile.StartTime SVBFile.EndTime SVBFile.ChannelCount].
    split; [by rewrite <- Hadv|]. split; [done|].
    replace (24 + String.length name)%nat
      with (0 + 4 + String.length name + 8 + 8 + 4)%nat by lia.
    exact Hrec.
  - pose proof (records_at_end _ _ _ _ _ _ Hrec ltac:(lia)) as Hle. lia.
Qed.

(** X22: the mapping of an opened file is what the channel records of
    the header, taken in file order, make of it: the channels that
    [Channel.__init__] builds from the [ChannelCount] records that
    follow the file header are assigned one after the other, so that
    iteration gives their names in the order of first appearance, and a
    name gives the last record that carries it. *)
Theorem X22_mapping_keeps_first_place_and_last_channel file h svb h1 :
  SVBFile.__init__ file h = (Ok svb, h1) ->
  exists decoded,
    decoded_header file h svb decoded /\
    SVBFile.__iter__ svb = first_seen [] (map Channel.Name decoded) /\
    forall k,
      SVBFile.__getitem__ svb k
      = match last (filter (fun ch => Channel.Name ch = k) decoded) with
        | Some ch => Ok ch
        | None => Raise KeyError
        end.
Proof.
  intros Hinit.
  apply svb_init_records in Hinit as (decoded & Hdec & Hch & _).
  exists decoded. split; [done|]. unfold SVBFile.__iter__, SVBFile.__getitem__.
  rewrite Hch. split; [by rewrite keys_assign_all|].
  intros k. rewrite dict_get_assign_all. by destruct (last _).
Qed.

Lemma X22_mapping_keeps_first_place_and_last_channel_witness :
  exists svb h1 ch,
    SVBFile.__init__ dup_file ∅ = (Ok svb, h1) /\
    SVBFile.__iter__ svb = ["a"; "b"]%string /\
    SVBFile.__getitem__ svb "a" = Ok ch /\
    Channel.DataType ch = "BIT"%string /\
    exists decoded,
      decoded_header dup_file ∅ svb decoded /\
      SVBFile.__iter__ svb = first_seen [] (map Channel.Name decoded).
Proof.
  eexists _, _, _.
  match goal with
  | |- ?A /\ _ => assert A as Hinit by (vm_compute; reflexivity)
  end.
  split; [exact Hinit|]. split; [vm_compute; reflexivity|].
  split; [vm_compute; reflexivity|]. split; [reflexivity|].
  destruct (X22_mapping_keeps_first_place_and_last_channel _ _ _ _ Hinit)
    as (decoded & Hdec & Hiter & _).
  exists decoded. split; [exact Hdec | exact Hiter].
Defined.

(** X23: in an opened file the header region is used up exactly: the
    size field, the 24 bytes of the fixed file fields, the file name and
    the records that the channels were built from (113 bytes and five
    strings each) add up to [headerSize] or, for a file that is shorter
    than that, to the length of the file (to all of the file when the
    size field says 7). *)
Theorem X23_header_region_is_used_up file h svb h1 :
  SVBFile.__init__ file h = (Ok svb, h1) ->
  exists decoded,
    decoded_header file h svb decoded /\
    let headerSize := le_uint (take 8 file) in
    let used := (8 + 24 + String.length (SVBFile.Name svb)
                 + sum_list (map record_bytes decoded))%nat in
    (8 <= length file)%nat /\ 7 <= headerSize /\
    Z.of_nat used
    = if headerSize =? 7 then Z.of_nat (length file)
      else Z.min headerSize (Z.of_nat (length file)).
Proof.
  intros Hinit.
  destruct (svb_init_inv _ _ _ _ Hinit) as (_ & L8 & Hhs & _).
  apply svb_init_records in Hinit as (decoded & Hdec & _ & Hused).
  exists decoded. split; [done|].
  cbv zeta. rewrite length_take in L8.
  split; [lia|]. split; [done|].
  unfold header_region in Hused. cbv zeta in Hused.
  destruct (Z.eqb_spec (le_uint (take 8 file)) 7) as [E|E].
  - rewrite E in Hused. change (7 - 8 =? -1) with true in Hused.
    cbv iota in Hused. rewrite length_drop in Hused. lia.
  - destruct (Z.eqb_spec (le_uint (take 8 file) - 8) (-1)) as [E'|E']; [lia|].
    rewrite length_take, length_drop in Hused. lia.
Qed.

Lemma X23_header_region_is_used_up_witness :
  exists svb h1 decoded,
    SVBFile.__init__ dup_file ∅ = (Ok svb, h1) /\
    decoded_header dup_file ∅ svb decoded /\
    Z.of_nat (8 + 24 + String.length (SVBFile.Name svb)
              + sum_list (map record_bytes decoded))
    = Z.min (le_uint (take 8 dup_file)) (Z.of_nat (length dup_file)).
Proof.
  eexists _, _.
  match goal with
  | |- exists decoded, ?A /\ _ =>
      assert A as Hinit by (vm_compute; reflexivity)
  end.
  destruct (X23_header_region_is_used_up _ _ _ _ Hinit)
    as (decoded & Hdec & _ & _ & Hused).
  exists decoded. split; [exact Hinit|]. split; [exact Hdec|].
  etransitivity; [exact Hused | vm_compute; reflexivity].
Defined.

(** X24: a file of fewer than eight bytes cannot be opened: unpacking
    the size field raises [struct.error]; and a size field below 7
    raises [ValueError], because the header would be read with a
    negative length other than -1. *)
Theorem X24_short_file_and_small_header_size file h :
  ((length file < 8)%nat -> SVBFile.__init__ file h = (Raise struct_error, h)) /\
  ((8 <= length file)%nat -> le_uint (take 8 file) < 7 ->
   SVBFile.__init__ file h = (Raise ValueError, h)).
Proof.
  unfold SVBFile.__init__, unpack_int, unpack. cbn [calcsize]. split.
  - intros Hshort.
    assert ((length (take 8 file) =? 8)%nat = false) as ->
      by (apply Nat.eqb_neq; rewrite length_take; lia).
    done.
  - intros Hlong Hsmall.
    assert ((length (take 8 file) =? 8)%nat = true) as ->
      by (apply Nat.eqb_eq; rewrite length_take; lia).
    cbn [negb]. cbv beta iota.
    destruct (Z.ltb_spec (le_uint (take 8 file) - 8) (-1)); [done | lia].
Qed.

Lemma X24_short_file_and_small_header_size_witness :
  SVBFile.__init__ [] ∅ = (Raise struct_error, ∅) /\
  SVBFile.__init__ (pack_uint 8 6 ++ sample_file_header) ∅ = (Raise ValueError, ∅).
Proof.
  split.
  - apply (X24_short_file_and_small_header_size [] ∅). cbn. lia.
  - apply (X24_short_file_and_small_header_size
             (pack_uint 8 6 ++ sample_file_header) ∅);
      [vm_compute; lia | reflexivity].
Defined.

(** ** Reading back what was written *)

Lemma advance_add f n m : advance (advance f n) m = advance f (n + m).
Proof. unfold advance. cbn [getvalue position]. f_equal. lia. Qed.

Lemma read_field_packed c v bs f :
  packed_field c v bs -> chunk f (length bs) = bs ->
  read_field c f = (Ok v, advance f (length bs)).
Proof.
  intros Hp. destruct Hp as [z Hz|z Hz|z Hz|z Hz|s Hlen Hvalid|z d Hz Hd].
  - rewrite length_pack_uint. intros Hc.
    assert (length (chunk f 8) = 8%nat) as Hlen
      by (by rewrite Hc, length_pack_uint).
    change (read_field "Q" f)
      with ((b <- read 8 ;; io_lift (unpack "Q" b)) f).
    unfold io_bind, io_lift. rewrite (read_full _ _ Hlen).
    unfold unpack. cbn [calcsize]. rewrite Hlen. cbn.
    rewrite Hc, le_uint_pack_uint; [done | cbn; lia].
  - rewrite length_pack_uint. intros Hc.
    assert (length (chunk f 4) = 4%nat) as Hlen
      by (by rewrite Hc, length_pack_uint).
    change (read_field "L" f)
      with ((b <- read 4 ;; io_lift (unpack "L" b)) f).
    unfold io_bind, io_lift. rewrite (read_full _ _ Hlen).
    unfold unpack. cbn [calcsize]. rewrite Hlen. cbn.
    rewrite Hc, le_uint_pack_uint; [done | cbn; lia].
  - rewrite length_pack_uint. intros Hc.
    assert (length (chunk f 1) = 1%nat) as Hlen
      by (by rewrite Hc, length_pack_uint).
    change (read_field "?" f)
      with ((b <- read 1 ;; io_lift (unpack "?" b)) f).
    unfold io_bind, io_lift. rewrite (read_full _ _ Hlen).
    unfold unpack. cbn [calcsize]. rewrite Hlen. cbn -[pack_uint le_uint chunk].
    rewrite Hc, le_uint_pack_uint; [done | cbn; lia].
  - rewrite length_pack_uint. intros Hc.
    assert (length (chunk f 8) = 8%nat) as Hlen
      by (by rewrite Hc, length_pack_uint).
    change (read_field "d" f)
      with ((b <- read 8 ;; io_lift (unpack "d" b)) f).
    unfold io_bind, io_lift. rewrite (read_full _ _ Hlen).
    unfold unpack. cbn [calcsize]. rewrite Hlen.
    cbn -[pack_uint le_uint chunk float_of_bits].
    rewrite Hc, le_uint_pack_uint; [done | cbn; lia].
  - assert (length (pack_str s) = (4 + String.length s)%nat) as ->.
    { unfold pack_str.
      by rewrite length_app, length_pack_uint, length_list_byte_of_string. }
    intros Hc. unfold pack_str in Hc.
    apply chunk_app in Hc as [H4 Hs]; [|apply length_pack_uint].
    assert (length (chunk f 4) = 4%nat) as L4
      by (by rewrite H4, length_pack_uint).
    assert (length (chunk (advance f 4) (String.length s)) = String.length s)
      as Ls by (by rewrite Hs, length_list_byte_of_string).
    cbn [read_field]. unfold io_bind, io_lift, io_ret.
    rewrite (read_full _ _ L4). unfold unpack_int, unpack. cbn [calcsize].
    rewrite L4. cbn -[advance read chunk le_uint].
    rewrite H4, le_uint_pack_uint by (cbn; lia).
    rewrite Nat2Z.id, (read_full _ _ Ls), Hs.
    unfold decode_utf8. rewrite Hvalid.
    by rewrite String.string_of_list_byte_of_string, advance_add.
  - rewrite length_pack_uint. intros Hc.
    assert (length (chunk f 8) = 8%nat) as Hlen
      by (by rewrite Hc, length_pack_uint).
    cbn [read_field]. unfold io_bind, io_lift, io_ret.
    rewrite (read_full _ _ Hlen). unfold unpack_int, unpack. cbn [calcsize].
    rewrite Hlen. cbn -[advance read chunk le_uint datetime_of_ticks].
    rewrite Hc, le_uint_pack_uint by (cbn; lia).
    by rewrite Hd.
Qed.

Lemma readheader_packed format vs bs :
  packed format vs bs ->
  forall f, chunk f (length bs) = bs ->
  _readheader format f = (Ok vs, advance f (length bs)).
Proof.
  induction 1 as [|c v bs format vs rest Hf _ IH]; intros f Hc.
  - cbn. unfold io_ret. by rewrite advance_0.
  - rewrite length_app in Hc |- *.
    apply chunk_app in Hc as [Hb Hr]; [|done].
    change (_readheader (String c format) f)
      with ((v <- read_field c ;; fields <- _readheader format ;;
             io_ret (v :: fields)) f).
    unfold io_bind, io_ret.
    rewrite (read_field_packed _ _ _ _ Hf Hb), (IH _ Hr).
    by rewrite advance_add.
Qed.

Lemma chunk_at pre a post f :
  getvalue f = pre ++ a ++ post -> position f = length pre ->
  chunk f (length a) = a.
Proof.
  intros Hg Hp. unfold chunk. rewrite Hg, Hp, drop_app_length.
  by apply take_app_length'.
Qed.

Lemma record_of_named name tag vt pos starttime l :
  Z.of_nat (String.length name) < 2 ^ 32 ->
  utf8_valid (String.list_byte_of_string name) = true ->
  Z.of_nat (String.length tag) < 2 ^ 32 ->
  utf8_valid (String.list_byte_of_string tag) = true ->
  0 <= pos < 2 ^ 64 ->
  record_of (named_channel name tag vt pos starttime l) (named_record name tag pos).
Proof.
  intros Hn Hnv Ht Htv Hpos. exists 10000.
  split; [|split; reflexivity].
  unfold named_record, pack_channel, header_values, named_channel.
  cbn [Channel.Name Channel.NetId Channel.Port Channel.SymbolBased
       Channel.SymbolName Channel.Comment Channel.IndexGroup
       Channel.IndexOffset Channel.DataType Channel.DataTypeId
       Channel.VariableSize Channel.SamplesInFile Channel.DataInFile
       Channel.FileStartPosition Channel.Offset Channel.Scalefactor
       Channel.Bitmask].
  set (body := pack_channel_body name tag 851 17 1 2 10 pos bits_0_5 bits_2_0).
  assert (length body = (105 + String.length name + String.length tag)%nat) as Lb.
  { unfold body, pack_channel_body, pack_str.
    rewrite !length_app, !length_pack_uint, !length_list_byte_of_string.
    cbn [length String.length String.list_byte_of_string]. lia. }
  replace (Z.of_nat (length (pack_uint 8 (8 + Z.of_nat (length body) + 0) ++ body)))
    with (8 + Z.of_nat (length body) + 0)
    by (rewrite length_app, length_pack_uint; lia).
  apply packed_cons; [constructor; rewrite Lb; lia|].
  unfold body, pack_channel_body.
  rewrite <- (app_nil_r (pack_uint 8 (2 ^ 64 - 1))).
  apply packed_cons; [by constructor|].
  apply packed_cons; [by constructor|].
  apply packed_cons; [by constructor|].
  apply packed_cons; [by constructor|].
  apply (packed_cons "?" (VBool true) [x01]); [exact (packed_bool 1 ltac:(lia))|].
  apply packed_cons; [by constructor|].
  apply packed_cons; [by constructor|].
  apply packed_cons; [by constructor|].
  apply packed_cons; [by constructor|].
  apply packed_cons; [by constructor|].
  apply packed_cons; [by constructor|].
  apply packed_cons; [by constructor|].
  apply packed_cons; [by constructor|].
  apply packed_cons; [by constructor|].
  apply packed_cons; [constructor; lia|].
  apply packed_cons; [by constructor|].
  apply packed_cons; [by constructor|].
  apply packed_cons; [by constructor|].
  constructor.
Qed.

Lemma built_named name tag vt pos starttime l file :
  dict_get Channel.DATATYPES tag = Some vt ->
  pos + 2 * Z.of_nat (recordsize vt) <= Z.of_nat (length file) ->
  built file starttime l (named_channel name tag vt pos starttime l).
Proof.
  intros Hdt Hfit. unfold built, named_channel.
  cbn [Channel._time Channel.StartTime Channel.Timestamp Channel.Values
       Channel.Data Channel.SamplesInFile Channel.FileStartPosition
       Channel.DataType].
  split; [done|]. split; [done|]. split; [done|]. split; [done|].
  split; [by intros [? _]|].
  exists vt. split; [done|]. split; [done|]. done.
Qed.

(** X25: [_readheader] reads back what was written: for any format of
    the codes Q, L, ?, d, * and T and any values packed in its order,
    anywhere in a stream, it returns these values and leaves the cursor
    right after their bytes. *)
Theorem X25_readheader_reads_back_what_was_packed format vs bs pre post :
  packed format vs bs ->
  _readheader format {| getvalue := pre ++ bs ++ post; position := length pre |}
  = (Ok vs, {| getvalue := pre ++ bs ++ post;
               position := length pre + length bs |}).
Proof.
  intros Hp.
  apply (readheader_packed _ _ _ Hp
           {| getvalue := pre ++ bs ++ post; position := length pre |}).
  by apply (chunk_at pre bs post).
Qed.

Lemma X25_readheader_reads_back_what_was_packed_witness :
  _readheader "*TTL" (BytesIO_of (sample_file_header ++ [x00]))
  = (Ok [VStr "f"; VDatetime (datetime_jan1 1601); VDatetime (datetime_jan1 1601 + 2);
         VInt 1],
     {| getvalue := sample_file_header ++ [x00]; position := 25 |}).
Proof.
  apply (X25_readheader_reads_back_what_was_packed "*TTL"
           [VStr "f"; VDatetime (datetime_jan1 1601);
            VDatetime (datetime_jan1 1601 + 2); VInt 1]
           (pack_str "f" ++ pack_uint 8 0 ++ pack_uint 8 15 ++ pack_uint 4 1 ++ [])
           [] [x00]).
  apply packed_cons; [by constructor|].
  apply packed_cons; [constructor; [lia | vm_compute; reflexivity]|].
  apply packed_cons; [constructor; [lia | vm_compute; reflexivity]|].
  apply packed_cons; [constructor; lia|].
  constructor.
Defined.

Lemma packed_channel_nonneg ch size st bs :
  packed "Q**LQ?**QQ*LLQQQddQ" (header_values ch size st) bs ->
  0 <= Channel.SamplesInFile ch /\ 0 <= Channel.FileStartPosition ch.
Proof.
  intros Hp. unfold header_values in Hp.
  do 13 (inversion Hp as [|? ? ? ? ? ? _ Hp']; clear Hp; rename Hp' into Hp;
         subst).
  inversion Hp as [|? ? ? ? ? ? Hn Hp']; subst.
  inversion Hp' as [|? ? ? ? ? ? _ Hp'']; subst.
  inversion Hp'' as [|? ? ? ? ? ? Hpos _]; subst.
  inversion Hn; inversion Hpos; subst. lia.
Qed.

Lemma init_packed ch bs file starttime h f :
  record_of ch bs -> built file starttime (fresh (dom h)) ch ->
  chunk f (length bs) = bs ->
  Channel.__init__ f file starttime h
  = (Ok ch, advance f (length bs), <[fresh (dom h) := file]> h).
Proof.
  intros (st & Hp & Hst & Hdif)
         (Htime & Hstart & HT & HV & Hedge & vt & Hdt & HD & Hfit) Hc.
  pose proof (readheader_packed _ _ _ Hp f Hc) as Hread.
  destruct (packed_channel_nonneg _ _ _ _ Hp) as [Hn Hpos].
  unfold header_values in Hread.
  rewrite (init_unfold _ _ _ _ _ _ _ _ _ _ _ _ _ _ _ _ _ _ _ _ _ _ _ _ Hread).
  unfold tell. rewrite position_advance.
  replace (Z.of_nat (position f + length bs) - Z.of_nat (position f)
           =? Z.of_nat (length bs)) with true by (symmetry; apply Z.eqb_eq; lia).
  rewrite Hdif, Z.eqb_refl, Hdt. cbn [negb].
  destruct (proj2 (np_memmap_ok_iff file vt _ _ h Hpos Hn) (conj Hfit Hedge))
    as (h' & d & Hmm).
  rewrite Hmm.
  apply np_memmap_inv in Hmm as (-> & -> & _); [|done..].
  destruct ch. cbn in *. subst. done.
Qed.

(** X26: [__init__] reads back a written channel: on the header record
    of a channel whose data-type tag is a key of [DATATYPES] and whose
    records lie inside the data file, it returns exactly that channel,
    with its arrays on a new mapping of the file, and leaves the header
    stream right after the record. *)
Theorem X26_init_reads_back_a_written_record
    ch bs pre post file starttime h :
  record_of ch bs -> built file starttime (fresh (dom h)) ch ->
  Channel.__init__ {| getvalue := pre ++ bs ++ post; position := length pre |}
    file starttime h
  = (Ok ch,
     {| getvalue := pre ++ bs ++ post; position := length pre + length bs |},
     <[fresh (dom h) := file]> h).
Proof.
  intros Hrec Hbuilt.
  apply (init_packed ch bs file starttime h
           {| getvalue := pre ++ bs ++ post; position := length pre |} Hrec Hbuilt).
  by apply (chunk_at pre bs post).
Qed.

Lemma X26_init_reads_back_a_written_record_witness :
  Channel.__init__ (BytesIO_of (named_record "a" "UINT8" 0)) sample_data 7 ∅
  = (Ok (named_channel "a" "UINT8" uint8 0 7 (fresh (dom (∅ : gmap loc (list byte))))),
     {| getvalue := named_record "a" "UINT8" 0; position := 119 |},
     <[fresh (dom (∅ : gmap loc (list byte))) := sample_data]> ∅).
Proof.
  apply (X26_init_reads_back_a_written_record
           (named_channel "a" "UINT8" uint8 0 7 (fresh (dom (∅ : gmap loc (list byte)))))
           (named_record "a" "UINT8" 0) [] [] sample_data 7 ∅).
  - apply record_of_named; [reflexivity..|lia].
  - apply built_named; [reflexivity | vm_compute; discriminate].
Defined.

Lemma read_channels_packed file starttime chs bss :
  Forall2 record_of chs bss ->
  forall f acc h,
    built_all file starttime h chs ->
    chunk f (length (concat bss)) = concat bss ->
    SVBFile.read_channels (length chs) f file starttime acc h
    = (Ok (assign_all acc chs), advance f (length (concat bss)),
       mapped_times (length chs) file h).
Proof.
  induction 1 as [|ch bs chs bss Hrec _ IH]; intros f acc h Hb Hc.
  - cbn. by rewrite advance_0.
  - destruct Hb as [Hb Hbs].
    cbn [concat] in Hc |- *. rewrite length_app in Hc |- *.
    apply chunk_app in Hc as [Hc1 Hc2]; [|done].
    cbn [length SVBFile.read_channels].
    rewrite (init_packed _ _ _ _ _ _ Hrec Hb Hc1).
    rewrite (IH _ _ _ Hbs Hc2).
    by rewrite advance_add.
Qed.

(** X27: opening reads back a written file: a file made of its size
    field, the packed file header, the header records of its channels
    and the data opens to the mapping that assigning these channels in
    file order gives, each channel on a mapping of its own; with bytes
    left in the header region after the last record, opening raises
    [IOError] instead, after the channels were mapped. *)
Theorem X27_open_reads_back_a_written_file
    name st et chs bss hdr spare data h :
  packed "*TTL"
    [VStr name; VDatetime st; VDatetime et; VInt (Z.of_nat (length chs))] hdr ->
  Forall2 record_of chs bss ->
  let region := hdr ++ concat bss ++ spare in
  let file := pack_uint 8 (Z.of_nat (8 + length region)) ++ region ++ data in
  Z.of_nat (8 + length region) < 2 ^ 64 ->
  built_all file st h chs ->
  SVBFile.__init__ file h
  = (match spare with
     | [] =>
         Ok {| SVBFile._channels := assign_all [] chs; SVBFile.Name := name;
               SVBFile.StartTime := st; SVBFile.EndTime := et;
               SVBFile.ChannelCount := Z.of_nat (length chs) |}
     | _ :: _ =>
         Raise (IOError "Error reading file: file header size mismatch")
     end, mapped_times (length chs) file h).
Proof.
  intros Hhdr Hrecs region file Hsize Hbuilt.
  set (hs := Z.of_nat (8 + length region)) in *.
  assert (Hhs : 0 <= hs < 256 ^ Z.of_nat 8).
  { change (256 ^ Z.of_nat 8) with (2 ^ 64). unfold hs. lia. }
  unfold SVBFile.__init__.
  replace (take 8 file) with (pack_uint 8 hs)
    by (unfold file; by rewrite take_app_length' by (by rewrite length_pack_uint)).
  replace (drop 8 file) with (region ++ data)
    by (unfold file; by rewrite drop_app_length' by (by rewrite length_pack_uint)).
  unfold unpack_int, unpack. cbn [calcsize]. rewrite length_pack_uint.
  cbn [Nat.eqb negb]. cbv beta iota.
  rewrite (le_uint_pack_uint 8 hs Hhs).
  destruct (Z.ltb_spec (hs - 8) (-1)) as [Hn|_]; [unfold hs in Hn; lia|].
  destruct (Z.eqb_spec (hs - 8) (-1)) as [Hn|_]; [unfold hs in Hn; lia|].
  replace (Z.to_nat (hs - 8)) with (length region) by (unfold hs; lia).
  rewrite take_app_length.
  rewrite (readheader_packed _ _ _ Hhdr {| getvalue := region; position := 0 |})
    by (by apply (chunk_at [] hdr (concat bss ++ spare))).
  rewrite Nat2Z.id.
  rewrite (read_channels_packed file st chs bss Hrecs _ [] h Hbuilt).
  2:{ apply (chunk_at hdr (concat bss) spare); [done|].
      cbn [advance position]. lia. }
  unfold read, advance. cbn [getvalue position].
  replace (0 + length hdr + length (concat bss))%nat
    with (length (hdr ++ concat bss)) by (rewrite length_app; lia).
  unfold region. rewrite app_assoc, drop_app_length.
  by destruct spare.
Qed.

Lemma X27_open_reads_back_a_written_file_witness :
  exists l0 l1 l2,
  SVBFile.__init__ dup_file ∅
  = (Ok {| SVBFile._channels :=
             assign_all []
               [named_channel "a" "UINT8" uint8 388 (datetime_jan1 1601) l0;
                named_channel "b" "UINT8" uint8 388 (datetime_jan1 1601) l1;
                named_channel "a" "BIT" bool_ 388 (datetime_jan1 1601) l2];
           SVBFile.Name := "f";
           SVBFile.StartTime := datetime_jan1 1601;
           SVBFile.EndTime := datetime_jan1 1601 + 2;
           SVBFile.ChannelCount := 3 |},
     mapped_times 3 dup_file ∅).
Proof.
  set (h0 := (∅ : gmap loc (list byte))).
  set (l0 := fresh (dom h0)).
  set (h1 := <[l0 := dup_file]> h0).
  set (l1 := fresh (dom h1)).
  set (h2 := <[l1 := dup_file]> h1).
  set (l2 := fresh (dom h2)).
  exists l0, l1, l2.
  pose proof (X27_open_reads_back_a_written_file "f" (datetime_jan1 1601)
            (datetime_jan1 1601 + 2)
            [named_channel "a" "UINT8" uint8 388 (datetime_jan1 1601) l0;
             named_channel "b" "UINT8" uint8 388 (datetime_jan1 1601) l1;
             named_channel "a" "BIT" bool_ 388 (datetime_jan1 1601) l2]
            [named_record "a" "UINT8" 388; named_record "b" "UINT8" 388;
             named_record "a" "BIT" 388]
            (pack_str "f" ++ pack_uint 8 0 ++ pack_uint 8 15 ++ pack_uint 4 3 ++ [])
            [] sample_data h0) as H.
  cbv zeta in H.
  match type of H with
  | _ -> _ -> _ -> built_all ?file _ _ _ -> _ =>
      assert (file = dup_file) as Hfile by (vm_compute; reflexivity);
      rewrite Hfile in H
  end.
  apply H.
  - apply packed_cons; [by constructor|].
    apply packed_cons; [constructor; [lia | vm_compute; reflexivity]|].
    apply packed_cons; [constructor; [lia | vm_compute; reflexivity]|].
    apply (packed_cons "L" (VInt 3) (pack_uint 4 3)); [constructor; lia|].
    constructor.
  - constructor; [apply record_of_named; [reflexivity..|lia]|].
    constructor; [apply record_of_named; [reflexivity..|lia]|].
    constructor; [apply record_of_named; [reflexivity..|lia]|].
    constructor.
  - vm_compute. reflexivity.
  - cbn [built_all]. fold h1. fold l1. fold h2.
    split; [|split; [|split; [|exact I]]];
      (apply built_named; [reflexivity | vm_compute; discriminate]).
Defined.
